(** * The Planet-Level Global Digital Twin dashboard (app.py)

    A shallow embedding of the Streamlit script [app.py]: the six fetchers,
    the four guarded render blocks that fill the list [graphs], the digest
    aggregation [summary_input], and the six "agent" summarizers.

    The script talks to collaborators that are not part of the repository
    (HTTP endpoints, pandas, Streamlit and its chart libraries, the
    transformers pipeline).  They are gathered in a record [World]; every
    theorem below holds for every world. *)

From Stdlib Require Import String Ascii.
From Stdlib Require Import List ZArith NArith Bool Lia PeanoNat.
Import ListNotations.
Open Scope list_scope.

Set Implicit Arguments.
Set Warnings "-register-all".

(* ================================================================= *)
(** ** Python strings *)

(** A Python [str] is a sequence of Unicode code points. *)
Definition char := N.
Definition str := list char.

(** An ASCII literal of the source, as a [str]. *)
Definition lit (s : string) : str := map N_of_ascii (list_ascii_of_string s).

Fixpoint str_eqb (a b : str) : bool :=
  match a, b with
  | [], [] => true
  | x :: a', y :: b' => N.eqb x y && str_eqb a' b'
  | _, _ => false
  end.

Fixpoint starts_with (p s : str) : bool :=
  match p, s with
  | [], _ => true
  | x :: p', y :: s' => N.eqb x y && starts_with p' s'
  | _ :: _, [] => false
  end.

(** [k in s] on two strings: substring test. *)
Fixpoint is_substring (k s : str) : bool :=
  starts_with k s ||
  match s with
  | [] => false
  | _ :: s' => is_substring k s'
  end.

(** [sep.join(l)]. *)
Fixpoint str_join (sep : str) (l : list str) : str :=
  match l with
  | [] => []
  | [x] => x
  | x :: rest => x ++ sep ++ str_join sep rest
  end.

(** [s.removeprefix(p)] when [s] starts with [p]; [None] when it does not. *)
Fixpoint strip_prefix (p s : str) : option str :=
  match p, s with
  | [], _ => Some s
  | x :: p', y :: s' => if N.eqb x y then strip_prefix p' s' else None
  | _ :: _, [] => None
  end.

(** Decimal digits of a natural number, and [format(z, ",")] on an [int]:
    sign, then the digits in groups of three separated by commas. *)
Definition digit_char (d : N) : char := (48 + d)%N.

Fixpoint digits_rev (fuel : nat) (n : N) : list N :=
  match fuel with
  | O => []
  | S fuel' =>
      if (n <? 10)%N then [n]
      else (n mod 10)%N :: digits_rev fuel' (n / 10)%N
  end.

(** Least-significant digit first; [N.size_nat n] digits of fuel suffice
    since every decimal digit carries more than one bit. *)
Definition decimal_rev (n : N) : list N := digits_rev (S (N.size_nat n)) n.

Definition decimal (n : N) : str := map digit_char (rev (decimal_rev n)).

(** [ds] and the result are least-significant first; [k] counts the digits
    already written in the current group. *)
Fixpoint group3 (ds : list N) (k : nat) : list char :=
  match ds with
  | [] => []
  | d :: ds' =>
      if Nat.eqb k 3 then 44%N :: digit_char d :: group3 ds' 1
      else digit_char d :: group3 ds' (S k)
  end.

Definition format_int_comma (z : Z) : str :=
  (if (z <? 0)%Z then [45%N] else []) ++ rev (group3 (decimal_rev (Z.abs_N z)) 0).

Definition format_int (z : Z) : str :=
  (if (z <? 0)%Z then [45%N] else []) ++ decimal (Z.abs_N z).

(* ================================================================= *)
(** ** Python values, exceptions *)

(** An IEEE-754 binary64, by its bit pattern. *)
Definition float64 := N.

(** What [response.json()] can return (and what the summarization pipeline
    returns): the Python image of a JSON document.  A [dict] keeps its
    insertion order; its keys are strings and are pairwise different. *)
Inductive value : Type :=
| VNone
| VBool (b : bool)
| VInt (z : Z)
| VFloat (f : float64)
| VStr (s : str)
| VList (l : list value)
| VDict (d : list (str * value)).

Inductive exn : Type :=
| KeyError
| IndexError
| TypeError
| ValueError
| ConnectionError      (* requests.exceptions.RequestException, any transport failure *)
| JSONDecodeError      (* requests.exceptions.JSONDecodeError: the body is not JSON *)
| LibraryError (code : N).  (* raised inside an external library *)

Inductive result (A : Type) : Type :=
| Ok (a : A)
| Raise (e : exn).
Arguments Ok {A} a.
Arguments Raise {A} e.

Fixpoint lookup (k : str) (d : list (str * value)) : option value :=
  match d with
  | [] => None
  | (k', v) :: d' => if str_eqb k' k then Some v else lookup k d'
  end.

Definition is_some {A} (o : option A) : bool :=
  match o with Some _ => true | None => false end.

(** [v[k]] with a string key. *)
Definition getitem (v : value) (k : str) : result value :=
  match v with
  | VDict d => match lookup k d with Some x => Ok x | None => Raise KeyError end
  | _ => Raise TypeError
  end.

(** [v[i]] with a literal index [i >= 0].  A parsed JSON object has string
    keys only, so an integer key is never found. *)
Definition getindex (v : value) (i : nat) : result value :=
  match v with
  | VList l => match nth_error l i with Some x => Ok x | None => Raise IndexError end
  | VStr s => match nth_error s i with Some c => Ok (VStr [c]) | None => Raise IndexError end
  | VDict _ => Raise KeyError
  | _ => Raise TypeError
  end.

(** [k in v] for a string [k]. *)
Definition contains (k : str) (v : value) : result bool :=
  match v with
  | VDict d => Ok (is_some (lookup k d))
  | VList l => Ok (existsb (fun x => match x with VStr s => str_eqb s k | _ => false end) l)
  | VStr s => Ok (is_substring k s)
  | _ => Raise TypeError
  end.

(** [len(v)]. *)
Definition len (v : value) : result nat :=
  match v with
  | VList l => Ok (length l)
  | VDict d => Ok (length d)
  | VStr s => Ok (length s)
  | _ => Raise TypeError
  end.

(** The elements [for x in v] runs over. *)
Definition iter (v : value) : result (list value) :=
  match v with
  | VList l => Ok l
  | VDict d => Ok (map (fun kv => VStr (fst kv)) d)
  | VStr s => Ok (map (fun c => VStr [c]) s)
  | _ => Raise TypeError
  end.

(** [v[:n]].  A [dict] cannot be sliced (the slice is taken as a key: an
    unhashable key before Python 3.12, a missing key since). *)
Definition slice_to (n : nat) (v : value) : result value :=
  match v with
  | VList l => Ok (VList (firstn n l))
  | VStr s => Ok (VStr (firstn n s))
  | VDict _ => Raise TypeError
  | _ => Raise TypeError
  end.

(** [label + v] where [label] is a [str]: [v] has to be a [str] too. *)
Definition str_add (label : str) (v : value) : result str :=
  match v with
  | VStr s => Ok (label ++ s)
  | _ => Raise TypeError
  end.

(* ================================================================= *)
(** ** What a refresh cycle does: fetcher calls, requests, widgets *)

Inductive fetcher : Type :=
| GetWeather | GetEarthquakes | GetCovid | GetAirQuality | GetDisasters | GetNews.

(** A naive [datetime], as microseconds since the epoch. *)
Definition datetime := Z.

(** One row of [eq_df]. *)
Record quake_row : Type := mk_quake_row {
  place : value;
  mag : value;
  time : datetime;
  lat : value;
  lon : value
}.

(** pandas objects are kept as the expression that builds them; whether
    pandas raises on them is the world's. *)
Inductive DataFrame : Type :=
| DataFrame_of_value (data : value)           (* pd.DataFrame(data) *)
| DataFrame_of_quakes (rows : list quake_row) (* pd.DataFrame([{...} for f in ...]) *)
| DataFrame_of_topics (titles : list value).  (* pd.DataFrame({"topic": titles}) *)

Inductive Series : Type :=
| Series_set_index_col (df : DataFrame) (index col : str).  (* df.set_index(index)[col] *)

Inductive widget : Type :=
| PageConfig (page_title layout : str)
| SidebarHeader (s : str)
| SidebarTextInput (label default : str)
| SidebarMultiselect (label : str) (options default : list str)
| Title (s : str)
| Markdown (s : str)
| Header (s : str)
| Subheader (s : str)
| Metric (label : str) (v : value)
| PydeckChart (data : DataFrame)
| BarChart (data : Series)
| AltairChart (data : DataFrame)
| InfoPanel (s : str).

Inductive event : Type :=
| Call (f : fetcher)            (* entry into one of the get_* functions *)
| HttpGet (url : str)           (* requests.get(url) *)
| LoadPipeline (task model : str)
| Summarize (input : str)       (* summarizer(input) *)
| Display (w : widget).         (* a Streamlit element put on the page *)

(** The answer to [requests.get(url)]: no answer at all, or a status code
    and what [.json()] gives on the body: the decoded value, or the
    exception it raises ([JSONDecodeError] on a body that is not JSON,
    [ValueError] on a number the interpreter refuses to read, such as an
    integer literal beyond its digit limit). *)
Inductive http_outcome : Type :=
| ConnectionFailed
| Response (status : Z) (body : result value).

(** The collaborators outside the repository. *)
Record World : Type := mk_World {
  requests_get : str -> http_outcome;
  (* transformers.pipeline(task, model=...): the callable it returns, which
     is a function of its input text *)
  pipeline : str -> str -> result (str -> result value);
  (* does Streamlit (with pydeck, altair) raise on this element? *)
  st_raises : widget -> option exn;
  (* pandas *)
  pd_raises : DataFrame -> option exn;
  set_index_col_raises : DataFrame -> str -> str -> option exn;
  column_list_text : DataFrame -> str -> result str;  (* the text of list(df[col]) *)
  (* numbers and dates *)
  int_truediv : Z -> Z -> result float64;
  float_truediv : float64 -> Z -> float64;
  utcfromtimestamp : float64 -> result datetime;
  float_format_comma : float64 -> str;   (* format(f, ",") *)
  value_text : value -> str               (* str(v) of a float or a container *)
}.

(* ================================================================= *)
(** ** The script monad

    The script mutates one module-level list, [graphs], leaves a sequence
    of events behind, and stops at the first uncaught exception. *)

Record outcome (A : Type) : Type := mk_outcome {
  events : list event;      (* what happened, in order *)
  graphs_of : list str;     (* the list [graphs] afterwards *)
  res : result A
}.

Definition M (A : Type) : Type := list str -> outcome A.

Definition ret {A} (a : A) : M A := fun g => mk_outcome [] g (Ok a).

Definition raise {A} (e : exn) : M A := fun g => mk_outcome [] g (Raise e).

Definition bind {A B} (m : M A) (f : A -> M B) : M B :=
  fun g =>
    let o := m g in
    match res o with
    | Ok a =>
        let o' := f a (graphs_of o) in
        mk_outcome (events o ++ events o') (graphs_of o') (res o')
    | Raise e => mk_outcome (events o) (graphs_of o) (Raise e)
    end.

Notation "x <- m ;; k" := (bind m (fun x => k))
  (at level 61, m at next level, right associativity).
Notation "m ;; k" := (bind m (fun _ => k))
  (at level 61, right associativity).

Definition lift {A} (r : result A) : M A :=
  match r with Ok a => ret a | Raise e => raise e end.

Definition check (o : option exn) : M unit :=
  match o with Some e => raise e | None => ret tt end.

Definition emit (e : event) : M unit := fun g => mk_outcome [e] g (Ok tt).

(** [graphs.append(s)] *)
Definition graphs_append (s : str) : M unit :=
  fun g => mk_outcome [] (g ++ [s]) (Ok tt).

Definition read_graphs : M (list str) := fun g => mk_outcome [] g (Ok g).

(** A list comprehension [[f(x) for x in l]]. *)
Fixpoint mapM {A B} (f : A -> M B) (l : list A) : M (list B) :=
  match l with
  | [] => ret []
  | x :: xs => y <- f x ;; ys <- mapM f xs ;; ret (y :: ys)
  end.

(** [for x in l: body(x)] *)
Fixpoint for_each {A} (l : list A) (body : A -> M unit) : M unit :=
  match l with
  | [] => ret tt
  | x :: xs => body x ;; for_each xs body
  end.

(** [name in show_layers] *)
Definition selected (name : str) (show_layers : list str) : bool :=
  existsb (str_eqb name) show_layers.

(** The options of the multiselect (line 20). *)
Definition layer_options : list str :=
  [lit "Weather"; lit "Earthquakes"; lit "Air Quality"; lit "COVID-19";
   lit "Disasters"; lit "News"].

(** [" ".join(graphs) if graphs else "No data selected."] (line 131) *)
Definition summary_input (graphs : list str) : str :=
  match graphs with
  | [] => lit "No data selected."
  | _ :: _ => str_join (lit " ") graphs
  end.

Section Dashboard.

Variable W : World.

(** A Streamlit call: it raises, or the element is on the page. *)
Definition st (w : widget) : M unit :=
  check (st_raises W w) ;; emit (Display w).

(** [requests.get(url).json()]: the status code is not looked at. *)
Definition get_json (url : str) : M value :=
  emit (HttpGet url) ;;
  match requests_get W url with
  | ConnectionFailed => raise ConnectionError
  | Response _ body => lift body
  end.

(** [f"{v}"] *)
Definition to_str (v : value) : str :=
  match v with
  | VStr s => s
  | VNone => lit "None"
  | VBool true => lit "True"
  | VBool false => lit "False"
  | VInt z => format_int z
  | _ => value_text W v
  end.

(** [f"{v:,}"] *)
Definition format_comma (v : value) : result str :=
  match v with
  | VInt z => Ok (format_int_comma z)
  | VBool b => Ok (format_int_comma (Z.b2z b))
  | VFloat f => Ok (float_format_comma W f)
  | VStr _ => Raise ValueError
  | _ => Raise TypeError
  end.

(** [v / d] for an [int] literal [d]. *)
Definition truediv (v : value) (d : Z) : result float64 :=
  match v with
  | VInt z => int_truediv W z d
  | VBool b => int_truediv W (Z.b2z b) d
  | VFloat f => Ok (float_truediv W f d)
  | _ => Raise TypeError
  end.

(** [pd.DataFrame(...)] *)
Definition pd_DataFrame (df : DataFrame) : M DataFrame :=
  check (pd_raises W df) ;; ret df.

(* ----------------------------------------------------------------- *)
(** *** 2. Data sources (lines 32-59) *)

Definition get_weather (city : str) : M value :=
  emit (Call GetWeather) ;;
  let geo_url := lit "https://geocoding-api.open-meteo.com/v1/search?name=" ++ city in
  g <- get_json geo_url ;;
  has <- lift (contains (lit "results") g) ;;
  if negb has then ret VNone
  else
    r <- lift (getitem g (lit "results")) ;;
    r0 <- lift (getindex r 0) ;;
    lat <- lift (getitem r0 (lit "latitude")) ;;
    r' <- lift (getitem g (lit "results")) ;;
    r0' <- lift (getindex r' 0) ;;
    lon <- lift (getitem r0' (lit "longitude")) ;;
    let url := lit "https://api.open-meteo.com/v1/forecast?latitude=" ++ to_str lat
               ++ lit "&longitude=" ++ to_str lon
               ++ lit "&hourly=temperature_2m" in
    get_json url.

Definition earthquakes_url : str :=
  lit "https://earthquake.usgs.gov/earthquakes/feed/v1.0/summary/all_day.geojson".

Definition get_earthquakes : M value :=
  emit (Call GetEarthquakes) ;; get_json earthquakes_url.

Definition covid_url : str := lit "https://disease.sh/v3/covid-19/all".

Definition get_covid : M value :=
  emit (Call GetCovid) ;; get_json covid_url.

Definition air_quality_url (city : str) : str :=
  lit "https://api.openaq.org/v2/latest?city=" ++ city.

Definition get_air_quality (city : str) : M value :=
  emit (Call GetAirQuality) ;; get_json (air_quality_url city).

Definition disasters_url : str :=
  lit "https://api.reliefweb.int/v1/disasters?appname=rwint-user-0&profile=full".

Definition get_disasters : M value :=
  emit (Call GetDisasters) ;; get_json disasters_url.

Definition news_url : str :=
  lit "https://api.gdeltproject.org/api/v2/doc/doc?query=climate&mode=artlist&format=json".

Definition get_news : M value :=
  emit (Call GetNews) ;; get_json news_url.

(* ----------------------------------------------------------------- *)
(** *** 3. Graphs (lines 65-123) *)

(** The dict built for one feature [f] (lines 71-77), values in order. *)
Definition quake_row_of (f : value) : M quake_row :=
  p1 <- lift (getitem f (lit "properties")) ;;
  place <- lift (getitem p1 (lit "place")) ;;
  p2 <- lift (getitem f (lit "properties")) ;;
  mag <- lift (getitem p2 (lit "mag")) ;;
  p3 <- lift (getitem f (lit "properties")) ;;
  t <- lift (getitem p3 (lit "time")) ;;
  secs <- lift (truediv t 1000) ;;
  time <- lift (utcfromtimestamp W secs) ;;
  g1 <- lift (getitem f (lit "geometry")) ;;
  c1 <- lift (getitem g1 (lit "coordinates")) ;;
  lat <- lift (getindex c1 1) ;;
  g2 <- lift (getitem f (lit "geometry")) ;;
  c2 <- lift (getitem g2 (lit "coordinates")) ;;
  lon <- lift (getindex c2 0) ;;
  ret (mk_quake_row place mag time lat lon).

Definition earthquake_digest : str := lit "Earthquake activity shows seismic hotspots.".

Definition earthquakes_block (show_layers : list str) : M unit :=
  if selected (lit "Earthquakes") show_layers then
    eq <- get_earthquakes ;;
    feats <- lift (getitem eq (lit "features")) ;;
    fs <- lift (iter feats) ;;
    rows <- mapM quake_row_of fs ;;
    eq_df <- pd_DataFrame (DataFrame_of_quakes rows) ;;
    st (Subheader (127755%N :: lit " Earthquakes (Past 24 Hours)")) ;;
    st (PydeckChart eq_df) ;;
    graphs_append earthquake_digest
  else ret tt.

Definition covid_block (show_layers : list str) : M unit :=
  if selected (lit "COVID-19") show_layers then
    covid <- get_covid ;;
    st (Subheader (129440%N :: lit " Global COVID-19 Snapshot")) ;;
    c <- lift (getitem covid (lit "cases")) ;;
    st (Metric (lit "Cases") c) ;;
    d <- lift (getitem covid (lit "deaths")) ;;
    st (Metric (lit "Deaths") d) ;;
    c' <- lift (getitem covid (lit "cases")) ;;
    cases <- lift (format_comma c') ;;
    d' <- lift (getitem covid (lit "deaths")) ;;
    deaths <- lift (format_comma d') ;;
    graphs_append (lit "Global COVID-19 cases " ++ cases ++ lit ", deaths "
                   ++ deaths ++ lit ".")
  else ret tt.

(** ["results" in aq and len(aq["results"]) > 0] (line 108) *)
Definition air_quality_guard (aq : value) : M bool :=
  has <- lift (contains (lit "results") aq) ;;
  if has then
    r <- lift (getitem aq (lit "results")) ;;
    n <- lift (len r) ;;
    ret (0 <? n)
  else ret false.

Definition air_quality_block (city : str) (show_layers : list str) : M unit :=
  if selected (lit "Air Quality") show_layers then
    aq <- get_air_quality city ;;
    ok <- air_quality_guard aq ;;
    if ok then
      r <- lift (getitem aq (lit "results")) ;;
      r0 <- lift (getindex r 0) ;;
      ms <- lift (getitem r0 (lit "measurements")) ;;
      aq_df <- pd_DataFrame (DataFrame_of_value ms) ;;
      st (Subheader ([127787%N; 65039%N] ++ lit " Air Quality in " ++ city)) ;;
      check (set_index_col_raises W aq_df (lit "parameter") (lit "value")) ;;
      st (BarChart (Series_set_index_col aq_df (lit "parameter") (lit "value"))) ;;
      params <- lift (column_list_text W aq_df (lit "parameter")) ;;
      graphs_append (lit "Air Quality in " ++ city
                     ++ lit " shows levels of pollutants: " ++ params ++ lit ".")
    else ret tt
  else ret tt.

Definition news_digest : str :=
  lit "News headlines show climate and geopolitical issues trending.".

Definition news_block (show_layers : list str) : M unit :=
  if selected (lit "News") show_layers then
    news <- get_news ;;
    has <- lift (contains (lit "articles") news) ;;
    if has then
      arts <- lift (getitem news (lit "articles")) ;;
      first10 <- lift (slice_to 10 arts) ;;
      xs <- lift (iter first10) ;;
      titles <- mapM (fun a => lift (getitem a (lit "title"))) xs ;;
      news_df <- pd_DataFrame (DataFrame_of_topics titles) ;;
      st (Subheader (128240%N :: lit " Trending News Topics (Sample)")) ;;
      st (AltairChart news_df) ;;
      graphs_append news_digest
    else ret tt
  else ret tt.

Definition graphs_section (city : str) (show_layers : list str) : M unit :=
  earthquakes_block show_layers ;;
  covid_block show_layers ;;
  air_quality_block city show_layers ;;
  news_block show_layers.

(* ----------------------------------------------------------------- *)
(** *** 4. AI agent summaries (lines 129-164) *)

Section Agents.

(** The module-level [summarizer] (line 134). *)
Variable summarizer : str -> result value.

(** [text[:1024]] *)
Definition truncate (text : str) : str := firstn 1024 text.
Arguments truncate : simpl never.

(** [summarizer(input)[0]["summary_text"]] *)
Definition summary_text (input : str) : M value :=
  emit (Summarize input) ;;
  out <- lift (summarizer input) ;;
  o0 <- lift (getindex out 0) ;;
  lift (getitem o0 (lit "summary_text")).

Definition langchain_summary (text : str) : M str :=
  t <- summary_text (truncate text) ;; lift (str_add (lit "LangChain Agent: ") t).

Definition llamaindex_summary (text : str) : M str :=
  t <- summary_text (truncate text) ;; lift (str_add (lit "LlamaIndex Agent: ") t).

Definition haystack_summary (text : str) : M str :=
  t <- summary_text (truncate text) ;; lift (str_add (lit "Haystack Agent: ") t).

Definition hf_summary (text : str) : M str :=
  t <- summary_text (truncate text) ;; lift (str_add (lit "HuggingFace Agent: ") t).

Definition autogen_summary (text : str) : M str :=
  t <- summary_text (truncate text) ;; lift (str_add (lit "AutoGen Agent: ") t).

Definition rasa_summary (text : str) : M str :=
  t <- summary_text (truncate text) ;; lift (str_add (lit "Rasa Agent: ") t).

Definition agents : list (str -> M str) :=
  [langchain_summary; llamaindex_summary; haystack_summary; hf_summary;
   autogen_summary; rasa_summary].

End Agents.

Definition summarization_model : str := lit "facebook/bart-large-cnn".

Definition load_pipeline : M (str -> result value) :=
  emit (LoadPipeline (lit "summarization") summarization_model) ;;
  lift (pipeline W (lit "summarization") summarization_model).

Definition summaries_section : M unit :=
  st (Header (129302%N :: lit " Multi-Agent AI Summaries")) ;;
  graphs <- read_graphs ;;
  let input := summary_input graphs in
  summarizer <- load_pipeline ;;
  for_each (agents summarizer) (fun agent => s <- agent input ;; st (InfoPanel s)).

(* ----------------------------------------------------------------- *)
(** *** The page (lines 11-25) and the whole script *)

Definition page_title : str := 127757%N :: lit " Planet-Level Global Digital Twin".

Definition page_head : M unit :=
  st (PageConfig page_title (lit "wide")) ;;
  st (SidebarHeader (127757%N :: lit " Global Digital Twin Controls")) ;;
  st (SidebarTextInput (lit "Enter a city for local data") (lit "New Delhi")) ;;
  st (SidebarMultiselect (lit "Choose data layers to display") layer_options
        [lit "Weather"; lit "Earthquakes"; lit "COVID-19"]) ;;
  st (Title page_title) ;;
  st (Markdown (lit "Real-time data, visualizations, and AI-generated multi-agent summaries.")).

(** One run of the script, for the [city] and [show_layers] the sidebar
    returns. *)
Definition app (city : str) (show_layers : list str) : M unit :=
  page_head ;;
  graphs_section city show_layers ;;
  summaries_section.

(** [graphs = []] (line 65): every run starts from the empty list. *)
Definition cycle (city : str) (show_layers : list str) : outcome unit :=
  app city show_layers [].

End Dashboard.

(* ================================================================= *)
(** * Vocabulary of the properties *)

(* ----------------------------------------------------------------- *)
(** ** The summarizer facade *)

(** The labels of the six agents, in the order of [agents]. *)
Definition agent_labels : list str :=
  [lit "LangChain Agent: "; lit "LlamaIndex Agent: "; lit "Haystack Agent: ";
   lit "HuggingFace Agent: "; lit "AutoGen Agent: "; lit "Rasa Agent: "].

(** The one underlying call, as the spec describes it: the summary text the
    summarizer gives for the first 1024 characters of [text]. *)
Definition shared_summary (summarizer : str -> result value) (text : str) : result str :=
  match summarizer (truncate text) with
  | Raise e => Raise e
  | Ok out =>
      match getindex out 0 with
      | Raise e => Raise e
      | Ok o0 =>
          match getitem o0 (lit "summary_text") with
          | Raise e => Raise e
          | Ok (VStr s) => Ok s
          | Ok _ => Raise TypeError
          end
      end
  end.

(** A facade entry point, as the spec describes it: one summarization call
    on the truncated text, [graphs] untouched, the label put in front. *)
Definition facade (summarizer : str -> result value) (label text : str) : M str :=
  fun g =>
    mk_outcome [Summarize (truncate text)] g
      match shared_summary summarizer text with
      | Ok s => Ok (label ++ s)
      | Raise e => Raise e
      end.

(** The six agents paired with their labels. *)
Definition labelled_agents (summarizer : str -> result value)
  : list (str * (str -> M str)) :=
  combine agent_labels (agents summarizer).

(* ----------------------------------------------------------------- *)
(** ** Events and digest entries of a computation *)

(** Every event of [m], from any [graphs], satisfies [P]; also when [m]
    raises. *)
Definition emits (P : event -> Prop) {A} (m : M A) : Prop :=
  forall g, Forall P (events (m g)).

(** Computations that leave [graphs] as it is. *)
Definition keeps_graphs {A} (m : M A) : Prop := forall g, graphs_of (m g) = g.

(** The name under which each fetcher's layer is offered in the sidebar. *)
Definition layer_of (f : fetcher) : str :=
  match f with
  | GetWeather => lit "Weather"
  | GetEarthquakes => lit "Earthquakes"
  | GetCovid => lit "COVID-19"
  | GetAirQuality => lit "Air Quality"
  | GetDisasters => lit "Disasters"
  | GetNews => lit "News"
  end.

(** The fetchers that have a render block in section 3. *)
Definition rendered (f : fetcher) : bool :=
  match f with
  | GetEarthquakes | GetCovid | GetAirQuality | GetNews => true
  | GetWeather | GetDisasters => false
  end.

(** The (first) address each fetcher requests. *)
Definition endpoint (city : str) (f : fetcher) : str :=
  match f with
  | GetWeather => lit "https://geocoding-api.open-meteo.com/v1/search?name=" ++ city
  | GetEarthquakes => earthquakes_url
  | GetCovid => covid_url
  | GetAirQuality => air_quality_url city
  | GetDisasters => disasters_url
  | GetNews => news_url
  end.

(** The events a cycle for [city] and [show_layers] may contain. *)
Definition allowed (city : str) (show_layers : list str) (e : event) : Prop :=
  match e with
  | Call f => rendered f = true /\ selected (layer_of f) show_layers = true
  | HttpGet url =>
      exists f, rendered f = true /\ selected (layer_of f) show_layers = true /\
                url = endpoint city f
  | LoadPipeline _ _ | Summarize _ | Display _ => True
  end.

(** The place of each render block in section 3 (4: no block). *)
Definition order (f : fetcher) : nat :=
  match f with
  | GetEarthquakes => 0
  | GetCovid => 1
  | GetAirQuality => 2
  | GetNews => 3
  | GetWeather | GetDisasters => 4
  end.

(** The events the render block of [f] may leave: its own fetch, when its
    layer is selected, and widgets other than summary panels. *)
Definition block_event (city : str) (show_layers : list str) (f : fetcher)
           (e : event) : Prop :=
  match e with
  | Call f0 => f0 = f /\ selected (layer_of f) show_layers = true
  | HttpGet url => url = endpoint city f /\ selected (layer_of f) show_layers = true
  | Display (InfoPanel _) => False
  | Display _ => True
  | LoadPipeline _ _ | Summarize _ => False
  end.

(** What one layer contributes to [graphs]: nothing, or (only when the
    layer is selected) one sentence of the layer's kind. *)
Inductive layer_part (name : str) (show_layers : list str) (P : str -> Prop)
  : list str -> Prop :=
| part_none : layer_part name show_layers P []
| part_one (e : str) :
    selected name show_layers = true -> P e -> layer_part name show_layers P [e].

Definition is_covid_digest (e : str) : Prop :=
  exists cases deaths,
    e = lit "Global COVID-19 cases " ++ cases ++ lit ", deaths " ++ deaths ++ lit ".".

Definition is_air_quality_digest (city e : str) : Prop :=
  exists params,
    e = lit "Air Quality in " ++ city ++ lit " shows levels of pollutants: "
        ++ params ++ lit ".".

(** The entries of [graphs] come in the order of the render blocks:
    Earthquakes, COVID-19, Air Quality, News. *)
Definition canonical_digest (city : str) (show_layers graphs : list str) : Prop :=
  exists p1 p2 p3 p4,
    graphs = p1 ++ p2 ++ p3 ++ p4 /\
    layer_part (lit "Earthquakes") show_layers (fun e => e = earthquake_digest) p1 /\
    layer_part (lit "COVID-19") show_layers is_covid_digest p2 /\
    layer_part (lit "Air Quality") show_layers (is_air_quality_digest city) p3 /\
    layer_part (lit "News") show_layers (fun e => e = news_digest) p4.

Definition appends_part (name : str) (show_layers : list str) (P : str -> Prop)
           {A} (m : M A) : Prop :=
  forall g, exists part,
    layer_part name show_layers P part /\ graphs_of (m g) = g ++ part.

(** The inputs of the summarizer calls of a run, in order. *)
Definition summarizer_inputs (evs : list event) : list str :=
  flat_map (fun e => match e with Summarize input => [input] | _ => [] end) evs.

(** The texts of the [st.info] panels of a run, in order. *)
Definition panels (evs : list event) : list str :=
  flat_map (fun e => match e with Display (InfoPanel s) => [s] | _ => [] end) evs.

(** What one agent leaves behind when it and its panel succeed. *)
Definition agent_events (input summary label : str) : list event :=
  [Summarize input; Display (InfoPanel (label ++ summary))].

(** Events that are neither a summarizer call, nor the loading of the
    pipeline, nor a summary panel. *)
Definition quiet (e : event) : Prop :=
  match e with
  | Summarize _ | LoadPipeline _ _ | Display (InfoPanel _) => False
  | _ => True
  end.

(** The return value of a fetcher, read as the spec's FetchResult: the one
    failure value a fetcher of the script returns is [None] (line 36);
    anything else is the payload that came back. *)
Inductive FetchResult : Type :=
| Success (payload : value)
| Failure.

Definition fetch_result (v : value) : FetchResult :=
  match v with
  | VNone => Failure
  | _ => Success v
  end.

(** The request fails in transport, or [.json()] refuses the body that
    comes back: both make [requests.get(url).json()] raise. *)
Definition http_failed (W : World) (url : str) : Prop :=
  requests_get W url = ConnectionFailed \/
  exists status e, requests_get W url = Response status (Raise e).

(** The same world, with other status codes on its answers. *)
Definition restatus (h : str -> Z -> Z) (W : World) : World :=
  {| requests_get := fun url =>
       match requests_get W url with
       | ConnectionFailed => ConnectionFailed
       | Response status body => Response (h url status) body
       end;
     pipeline := pipeline W;
     st_raises := st_raises W;
     pd_raises := pd_raises W;
     set_index_col_raises := set_index_col_raises W;
     column_list_text := column_list_text W;
     int_truediv := int_truediv W;
     float_truediv := float_truediv W;
     utcfromtimestamp := utcfromtimestamp W;
     float_format_comma := float_format_comma W;
     value_text := value_text W |}.

(** Events of the blocks up to the one of [f]: no later fetcher, nothing of
    the summary section. *)
Definition up_to (f : fetcher) (e : event) : Prop :=
  match e with
  | Call f0 => order f0 <= order f
  | Summarize _ | LoadPipeline _ _ | Display (InfoPanel _) => False
  | _ => True
  end.

(** [m] raises from every [graphs], leaving only events in [P]. *)
Definition aborts (P : event -> Prop) {A} (m : M A) : Prop :=
  forall g, (exists e, res (m g) = Raise e) /\ Forall P (events (m g)).

(** The selection without the layer [name]. *)
Definition without (name : str) (show_layers : list str) : list str :=
  filter (fun l => negb (str_eqb l name)) show_layers.

(** The events of a fetch, whatever the fetcher. *)
Definition is_fetch (e : event) : bool :=
  match e with
  | Call _ | HttpGet _ => true
  | _ => false
  end.

Definition fetcher_eqb (a b : fetcher) : bool :=
  match a, b with
  | GetWeather, GetWeather | GetEarthquakes, GetEarthquakes | GetCovid, GetCovid
  | GetAirQuality, GetAirQuality | GetDisasters, GetDisasters | GetNews, GetNews => true
  | _, _ => false
  end.

(** The events of the fetch of [f]: the entry into the fetcher and its
    request. *)
Definition fetch_of (city : str) (f : fetcher) (e : event) : bool :=
  match e with
  | Call f0 => fetcher_eqb f0 f
  | HttpGet url => str_eqb url (endpoint city f)
  | _ => false
  end.

(** The events of a run, the fetch of [f] left out. *)
Definition without_fetch (city : str) (f : fetcher) (evs : list event) : list event :=
  filter (fun e => negb (fetch_of city f e)) evs.

(** [o2] is [o1] without the fetch of [f]: otherwise the same events in
    the same order, the same [graphs] and the same end. *)
Definition same_but_fetch_of (city : str) (f : fetcher) {A} (o1 o2 : outcome A) : Prop :=
  events o2 = without_fetch city f (events o1) /\
  graphs_of o2 = graphs_of o1 /\
  res o2 = res o1.

(** The fetchers a run entered, in order. *)
Definition fetchers_called (evs : list event) : list fetcher :=
  flat_map (fun e => match e with Call f => [f] | _ => [] end) evs.

(* ----------------------------------------------------------------- *)
(** ** Small closed worlds, for examples *)

Module Sample.

(** Answers by address; an address not in the table cannot be reached. *)
Definition serve (table : list (str * http_outcome)) (url : str) : http_outcome :=
  match find (fun kv => str_eqb (fst kv) url) table with
  | Some kv => snd kv
  | None => ConnectionFailed
  end.

(** A stand-in summarizer: the summary is the first twelve characters. *)
Definition bart (input : str) : result value :=
  Ok (VList [VDict [(lit "summary_text", VStr (firstn 12 input))]]).

(** A stand-in for pandas on a list of records: the records of a frame,
    whether one of them has a column, and the text of [list(df[col])] for
    a column whose cells are all strings without quotes or escapes
    (the sample feeds have no other; on any other column the stand-in
    raises). *)
Definition records (df : DataFrame) : list (list (str * value)) :=
  match df with
  | DataFrame_of_value (VList rows) =>
      flat_map (fun r => match r with VDict d => [d] | _ => [] end) rows
  | _ => []
  end.

Definition has_column (df : DataFrame) (col : str) : bool :=
  existsb (fun d => is_some (lookup col d)) (records df).

Fixpoint cell_texts (cells : list (option value)) : option (list str) :=
  match cells with
  | [] => Some []
  | Some (VStr s) :: rest =>
      match cell_texts rest with
      | Some texts => Some ((lit "'" ++ s ++ lit "'") :: texts)
      | None => None
      end
  | _ :: _ => None
  end.

Definition column_text (df : DataFrame) (col : str) : result str :=
  if has_column df col
  then match cell_texts (map (lookup col) (records df)) with
       | Some texts => Ok (lit "[" ++ str_join (lit ", ") texts ++ lit "]")
       | None => Raise (LibraryError 2)
       end
  else Raise KeyError.

Definition set_index_col (df : DataFrame) (index col : str) : option exn :=
  if has_column df index && has_column df col then None else Some KeyError.

(** A world where everything but the network (and, on demand, the
    summarizer) behaves; numbers and dates are stand-ins. *)
Definition world_with (summarizer : str -> result value)
           (table : list (str * http_outcome)) : World :=
  {| requests_get := serve table;
     pipeline := fun _ _ => Ok summarizer;
     st_raises := fun _ => None;
     pd_raises := fun _ => None;
     set_index_col_raises := set_index_col;
     column_list_text := column_text;
     int_truediv := fun z d => Ok (Z.to_N (z / d));
     float_truediv := fun f _ => f;
     utcfromtimestamp := fun f => Ok (Z.of_N f * 1000000)%Z;
     float_format_comma := fun _ => lit "0.0";
     value_text := fun _ => lit "?" |}.

Definition world : list (str * http_outcome) -> World := world_with bart.

Definition city : str := lit "Paris".

Definition quakes : value :=
  VDict [(lit "features",
          VList [VDict [(lit "properties",
                         VDict [(lit "place", VStr (lit "Fiji"));
                                (lit "mag", VInt 5);
                                (lit "time", VInt 1700000000000)]);
                        (lit "geometry",
                         VDict [(lit "coordinates",
                                 VList [VInt 178; VInt (-17); VInt 10])])]])].

Definition covid : value :=
  VDict [(lit "cases", VInt 1234567); (lit "deaths", VInt 10)].

Definition air : value :=
  VDict [(lit "results",
          VList [VDict [(lit "measurements",
                         VList [VDict [(lit "parameter", VStr (lit "pm25"));
                                       (lit "value", VInt 12)]])]])].

Definition air_no_station : value := VDict [(lit "results", VList [])].

(** Two stations: the first measures two pollutants, the second a third. *)
Definition first_station : value :=
  VDict [(lit "location", VStr (lit "Paris Centre"));
         (lit "measurements",
          VList [VDict [(lit "parameter", VStr (lit "pm25")); (lit "value", VInt 12)];
                 VDict [(lit "parameter", VStr (lit "no2")); (lit "value", VInt 30)]])].

Definition second_station : value :=
  VDict [(lit "location", VStr (lit "Paris Nord"));
         (lit "measurements",
          VList [VDict [(lit "parameter", VStr (lit "o3")); (lit "value", VInt 7)]])].

Definition air_two_stations : value :=
  VDict [(lit "results", VList [first_station; second_station])].

Definition news : value :=
  VDict [(lit "articles", VList [VDict [(lit "title", VStr (lit "Heat wave"))]])].

Definition news_no_articles : value := VDict [(lit "status", VStr (lit "ok"))].

(** Every feed answers. *)
Definition all_up : World :=
  world [(earthquakes_url, Response 200 (Ok quakes));
         (covid_url, Response 200 (Ok covid));
         (air_quality_url city, Response 200 (Ok air));
         (news_url, Response 200 (Ok news))].

(** The disease feed cannot be reached. *)
Definition covid_down : World :=
  world [(earthquakes_url, Response 200 (Ok quakes));
         (air_quality_url city, Response 200 (Ok air));
         (news_url, Response 200 (Ok news))].

(** No air-quality station for the city. *)
Definition no_station : World :=
  world [(earthquakes_url, Response 200 (Ok quakes));
         (covid_url, Response 200 (Ok covid));
         (air_quality_url city, Response 200 (Ok air_no_station));
         (news_url, Response 200 (Ok news))].

(** The news feed answers without ["articles"]. *)
Definition no_articles : World :=
  world [(earthquakes_url, Response 200 (Ok quakes));
         (covid_url, Response 200 (Ok covid));
         (air_quality_url city, Response 200 (Ok air));
         (news_url, Response 200 (Ok news_no_articles))].

(** The geocoder answers with an empty list of results. *)
Definition geocoder_empty_list : World :=
  world [(endpoint city GetWeather,
          Response 200 (Ok (VDict [(lit "results", VList [])])))].

(** The geocoder answers without a ["results"] field. *)
Definition geocoder_no_field : World :=
  world [(endpoint city GetWeather,
          Response 200 (Ok (VDict [(lit "generationtime_ms", VInt 1)])))].

(** The disease feed answers 404 with an error object. *)
Definition covid_without_cases : World :=
  world [(earthquakes_url, Response 200 (Ok quakes));
         (covid_url, Response 404 (Ok (VDict [(lit "message", VStr (lit "Not Found"))])));
         (air_quality_url city, Response 200 (Ok air));
         (news_url, Response 200 (Ok news))].

(** The seismic feed answers 503 with an error object; the news feed is up. *)
Definition seismic_error : World :=
  world [(earthquakes_url,
          Response 503 (Ok (VDict [(lit "error", VStr (lit "unavailable"))])));
         (news_url, Response 200 (Ok news))].

(** The air-quality feed knows two stations of the city. *)
Definition two_stations : World :=
  world [(air_quality_url city, Response 200 (Ok air_two_stations))].


(** Twelve articles, titled "a", "b", ..., "l". *)
Definition twelve_articles : list value :=
  map (fun c => VDict [(lit "title", VStr [c]); (lit "url", VStr (lit "https://example.org"))])
      (lit "abcdefghijkl").

Definition busy_news : World :=
  world [(news_url, Response 200 (Ok (VDict [(lit "articles", VList twelve_articles)])))].

(** The geocoder knows two places of the name; the forecast service
    answers for the first. *)
Definition two_matches : list value :=
  [VDict [(lit "name", VStr (lit "Paris")); (lit "latitude", VInt 48);
          (lit "longitude", VInt 2)];
   VDict [(lit "name", VStr (lit "Paris")); (lit "latitude", VInt 33);
          (lit "longitude", VInt (-95))]].

Definition forecast : value :=
  VDict [(lit "hourly", VDict [(lit "temperature_2m", VList [VInt 11; VInt 12])])].

Definition geocoder_two_matches : World :=
  world [(endpoint city GetWeather,
          Response 200 (Ok (VDict [(lit "results", VList two_matches)])));
         (lit "https://api.open-meteo.com/v1/forecast?latitude=48&longitude=2&hourly=temperature_2m",
          Response 200 (Ok forecast))].

(** No feed is needed; the summarizer raises on every input. *)
Definition summarizer_down : World :=
  world_with (fun _ => Raise (LibraryError 1)) [].

End Sample.

(* ----------------------------------------------------------------- *)
(** ** Further vocabulary: outcomes, numerals, rows *)

(** The outcome [o], after the events [evs]. *)
Definition prepend {A} (evs : list event) (o : outcome A) : outcome A :=
  mk_outcome (evs ++ events o) (graphs_of o) (res o).

(** The render block of each fetcher's layer (none for Weather and
    Disasters). *)
Definition render_block (W : World) (city : str) (show_layers : list str)
           (f : fetcher) : M unit :=
  match f with
  | GetEarthquakes => earthquakes_block W show_layers
  | GetCovid => covid_block W show_layers
  | GetAirQuality => air_quality_block W city show_layers
  | GetNews => news_block W show_layers
  | GetWeather | GetDisasters => ret tt
  end.

(** The fetcher functions, by name. *)
Definition fetcher_call (W : World) (city : str) (f : fetcher) : M value :=
  match f with
  | GetWeather => get_weather W city
  | GetEarthquakes => get_earthquakes W
  | GetCovid => get_covid W
  | GetAirQuality => get_air_quality W city
  | GetDisasters => get_disasters W
  | GetNews => get_news W
  end.

(** What [requests.get(url).json()] evaluates to. *)
Definition json_of (W : World) (url : str) : result value :=
  match requests_get W url with
  | ConnectionFailed => Raise ConnectionError
  | Response _ body => body
  end.

(** The script up to line 123: the page head and the four render blocks. *)
Definition before_summaries (W : World) (city : str) (show_layers : list str)
  : M unit :=
  page_head W ;; graphs_section W city show_layers.

(** The number a list of decimal digits denotes, least significant first. *)
Fixpoint digits_value (ds : list N) : N :=
  match ds with
  | [] => 0
  | d :: rest => d + 10 * digits_value rest
  end.

Definition is_comma (c : char) : bool := N.eqb c 44.

(** A row of [eq_df] is the row the comprehension of lines 70-79 builds
    from the feature [f]. *)
Definition feature_row (W : World) (f : value) (row : quake_row) : Prop :=
  exists props geometry coords t secs,
    getitem f (lit "properties") = Ok props /\
    getitem props (lit "place") = Ok (place row) /\
    getitem props (lit "mag") = Ok (mag row) /\
    getitem props (lit "time") = Ok t /\
    truediv W t 1000 = Ok secs /\
    utcfromtimestamp W secs = Ok (time row) /\
    getitem f (lit "geometry") = Ok geometry /\
    getitem geometry (lit "coordinates") = Ok coords /\
    getindex coords 1 = Ok (lat row) /\
    getindex coords 0 = Ok (lon row).

(** The address of the forecast request of line 38. *)
Definition forecast_url (W : World) (latitude longitude : value) : str :=
  lit "https://api.open-meteo.com/v1/forecast?latitude=" ++ to_str W latitude
  ++ lit "&longitude=" ++ to_str W longitude
  ++ lit "&hourly=temperature_2m".

(** The rendered fetchers, in the order of their blocks. *)
Definition rendered_fetchers : list fetcher :=
  [GetEarthquakes; GetCovid; GetAirQuality; GetNews].

(** The widgets of the page head (lines 11-25). *)
Definition page_widget (w : widget) : Prop :=
  match w with
  | PageConfig _ _ | SidebarHeader _ | SidebarTextInput _ _
  | SidebarMultiselect _ _ _ | Title _ | Markdown _ => True
  | _ => False
  end.

(** The widgets of each layer's render block: its subheader and its
    chart (for COVID-19, its metrics). *)
Definition block_widget (city : str) (f : fetcher) (w : widget) : Prop :=
  match f, w with
  | GetEarthquakes, Subheader s => s = 127755%N :: lit " Earthquakes (Past 24 Hours)"
  | GetEarthquakes, PydeckChart _ => True
  | GetCovid, Subheader s => s = 129440%N :: lit " Global COVID-19 Snapshot"
  | GetCovid, Metric _ _ => True
  | GetAirQuality, Subheader s =>
      s = [127787%N; 65039%N] ++ lit " Air Quality in " ++ city
  | GetAirQuality, BarChart _ => True
  | GetNews, Subheader s => s = 128240%N :: lit " Trending News Topics (Sample)"
  | GetNews, AltairChart _ => True
  | _, _ => False
  end.

(** The events of the render block of [f]: its fetch and its widgets. *)
Definition own_event (city : str) (f : fetcher) (e : event) : Prop :=
  match e with
  | Call f0 => f0 = f
  | HttpGet url => url = endpoint city f
  | Display w => block_widget city f w
  | LoadPipeline _ _ | Summarize _ => False
  end.

Definition head_event (e : event) : Prop :=
  match e with
  | Display w => page_widget w
  | _ => False
  end.

(** The events of the page head and of the render blocks before the one
    of [f]. *)
Definition before_event (city : str) (f : fetcher) (e : event) : Prop :=
  head_event e \/
  exists f0, rendered f0 = true /\ order f0 < order f /\ own_event city f0 e.

(** The script before the render block of [f]: the page head and the
    render blocks that come first (all four, for a fetcher without a
    block). *)
Definition blocks_before (W : World) (city : str) (show_layers : list str)
           (f : fetcher) : M unit :=
  match f with
  | GetEarthquakes => page_head W
  | GetCovid => page_head W ;; earthquakes_block W show_layers
  | GetAirQuality =>
      page_head W ;; earthquakes_block W show_layers ;; covid_block W show_layers
  | GetNews =>
      page_head W ;; earthquakes_block W show_layers ;; covid_block W show_layers ;;
      air_quality_block W city show_layers
  | GetWeather | GetDisasters => before_summaries W city show_layers
  end.

(* ================================================================= *)
(** * Properties *)

(* ================================================================= *)
(** ** Strings and selections *)

Lemma str_eqb_eq (a b : str) : str_eqb a b = true <-> a = b.
Proof.
  revert b; induction a as [|x a IH]; intros [|y b]; simpl; split;
    try easy; intro H.
  - apply andb_true_iff in H as [Hx Hab].
    apply N.eqb_eq in Hx. apply IH in Hab. now subst.
  - injection H as -> ->. now rewrite N.eqb_refl, (proj2 (IH b) eq_refl).
Qed.

Lemma str_eqb_refl (a : str) : str_eqb a a = true.
Proof. now apply str_eqb_eq. Qed.

Lemma selected_In (name : str) (show_layers : list str) :
  selected name show_layers = true <-> In name show_layers.
Proof.
  unfold selected. rewrite existsb_exists. split.
  - intros (x & Hx & E). apply str_eqb_eq in E. now subst.
  - intro H. exists name. split; [assumption | apply str_eqb_refl].
Qed.

(** Two selections with the same members answer every [in] alike. *)
Lemma selected_ext (S1 S2 : list str) (name : str) :
  (In name S1 <-> In name S2) -> selected name S1 = selected name S2.
Proof.
  intro H.
  destruct (selected name S1) eqn:E1, (selected name S2) eqn:E2; try reflexivity.
  - apply selected_In, H, selected_In in E1. congruence.
  - apply selected_In, H, selected_In in E2. congruence.
Qed.

Lemma strip_prefix_app (p s : str) : strip_prefix p (p ++ s) = Some s.
Proof. induction p as [|x p IH]; simpl; [reflexivity | now rewrite N.eqb_refl]. Qed.

(* ================================================================= *)
(** ** Laws of the script monad *)

Lemma bind_ret_l {A B} (a : A) (f : A -> M B) (g : list str) :
  bind (ret a) f g = f a g.
Proof. unfold bind, ret; simpl. now destruct (f a g). Qed.

Lemma bind_raise_l {A B} (e : exn) (f : A -> M B) (g : list str) :
  bind (raise e) f g = raise e g.
Proof. reflexivity. Qed.

Lemma bind_assoc {A B C} (m : M A) (f : A -> M B) (h : B -> M C) (g : list str) :
  bind (bind m f) h g = bind m (fun a => bind (f a) h) g.
Proof.
  unfold bind; simpl.
  destruct (res (m g)) as [a|e]; simpl; [|reflexivity].
  destruct (res (f a (graphs_of (m g)))) as [b|e]; simpl; [|reflexivity].
  now rewrite app_assoc.
Qed.

(** A run that ends normally went through both halves of a [bind]. *)
Lemma bind_Ok_inv {A B} (m : M A) (f : A -> M B) (g : list str) (b : B) :
  res (bind m f g) = Ok b ->
  exists a, res (m g) = Ok a /\
            res (f a (graphs_of (m g))) = Ok b /\
            events (bind m f g) = events (m g) ++ events (f a (graphs_of (m g))) /\
            graphs_of (bind m f g) = graphs_of (f a (graphs_of (m g))).
Proof.
  unfold bind. destruct (res (m g)) as [a|e] eqn:E; simpl; [|discriminate].
  intro H. exists a. auto.
Qed.

(** A run whose first half raises stops there. *)
Lemma bind_Raise_l {A B} (m : M A) (f : A -> M B) (g : list str) (e : exn) :
  res (m g) = Raise e ->
  bind m f g = mk_outcome (events (m g)) (graphs_of (m g)) (Raise e).
Proof. unfold bind. now intros ->. Qed.

Lemma bind_Ok_l {A B} (m : M A) (f : A -> M B) (g : list str) (a : A) :
  res (m g) = Ok a ->
  bind m f g =
  mk_outcome (events (m g) ++ events (f a (graphs_of (m g))))
             (graphs_of (f a (graphs_of (m g))))
             (res (f a (graphs_of (m g)))).
Proof. unfold bind. now intros ->. Qed.

(* ================================================================= *)
(** ** The digest aggregator (line 131) *)

(** C7: with no digest entry the aggregator gives the placeholder
    "No data selected." (which is not the empty string); with at least one
    entry it gives the entries joined by single spaces. *)
Theorem C7_summary_input_placeholder_or_join :
  summary_input [] = lit "No data selected." /\
  summary_input [] <> [] /\
  (forall (e : str) (es : list str),
      summary_input (e :: es) = str_join (lit " ") (e :: es)) /\
  (forall e : str, summary_input [e] = e).
Proof.
  repeat split.
  - discriminate.
Qed.

(* ================================================================= *)
(** ** The summarizer facade (lines 136-161) *)

Lemma labelled_summary_facade (summarizer : str -> result value) (label text : str)
      (g : list str) :
  (t <- summary_text summarizer (truncate text) ;; lift (str_add label t)) g
  = facade summarizer label text g.
Proof.
  unfold facade, shared_summary, summary_text, bind, emit, lift; simpl.
  destruct (summarizer (truncate text)) as [out|e]; simpl; [|reflexivity].
  destruct (getindex out 0) as [o0|e]; simpl; [|reflexivity].
  destruct (getitem o0 (lit "summary_text")) as [t|e]; simpl; [|reflexivity].
  destruct t; reflexivity.
Qed.

Lemma labelled_agents_facade (summarizer : str -> result value) :
  Forall (fun la => forall text g, snd la text g = facade summarizer (fst la) text g)
         (labelled_agents summarizer).
Proof.
  unfold labelled_agents, agent_labels, agents; simpl.
  repeat constructor; simpl; intros; apply labelled_summary_facade.
Qed.

Lemma agent_labels_NoDup : NoDup agent_labels.
Proof.
  unfold agent_labels.
  repeat (constructor; [simpl; intuition discriminate|]).
  constructor.
Qed.

(** C1: each of the six entry points is the shared summarization call on
    the text with its own label put in front; the six labels are pairwise
    different; so whenever two of them return, what is left after removing
    each one's label is the same summary. *)
Theorem C1_six_agents_share_one_summary
        (summarizer : str -> result value) (text : str) (g : list str) :
  NoDup agent_labels /\
  langchain_summary summarizer text g = facade summarizer (lit "LangChain Agent: ") text g /\
  llamaindex_summary summarizer text g = facade summarizer (lit "LlamaIndex Agent: ") text g /\
  haystack_summary summarizer text g = facade summarizer (lit "Haystack Agent: ") text g /\
  hf_summary summarizer text g = facade summarizer (lit "HuggingFace Agent: ") text g /\
  autogen_summary summarizer text g = facade summarizer (lit "AutoGen Agent: ") text g /\
  rasa_summary summarizer text g = facade summarizer (lit "Rasa Agent: ") text g /\
  (forall l1 a1 l2 a2 o1 o2,
      In (l1, a1) (labelled_agents summarizer) ->
      In (l2, a2) (labelled_agents summarizer) ->
      res (a1 text g) = Ok o1 ->
      res (a2 text g) = Ok o2 ->
      exists s, shared_summary summarizer text = Ok s /\
                o1 = l1 ++ s /\ o2 = l2 ++ s /\
                strip_prefix l1 o1 = Some s /\ strip_prefix l2 o2 = Some s).
Proof.
  split; [apply agent_labels_NoDup|].
  do 6 (split; [apply labelled_summary_facade|]).
  intros l1 a1 l2 a2 o1 o2 H1 H2 R1 R2.
  pose proof (labelled_agents_facade summarizer) as F.
  rewrite Forall_forall in F.
  pose proof (F _ H1 text g) as E1. pose proof (F _ H2 text g) as E2.
  simpl in E1, E2. rewrite E1 in R1. rewrite E2 in R2.
  unfold facade in R1, R2; simpl in R1, R2.
  destruct (shared_summary summarizer text) as [s|e]; [|discriminate].
  injection R1 as <-. injection R2 as <-.
  exists s. repeat split; apply strip_prefix_app.
Qed.

Lemma firstn_min_length {A} (n : nat) (l : list A) :
  firstn (Nat.min (length l) n) l = firstn n l.
Proof.
  destruct (Nat.le_ge_cases (length l) n) as [H|H].
  - rewrite Nat.min_l by assumption.
    now rewrite firstn_all, firstn_all2.
  - now rewrite Nat.min_r.
Qed.

Lemma truncate_spec (text : str) :
  truncate text = firstn (Nat.min (length text) 1024) text.
Proof. unfold truncate. symmetry. apply firstn_min_length. Qed.

Lemma nth_error_firstn_lt {A} (n i : nat) (l : list A) :
  i < n -> nth_error (firstn n l) i = nth_error l i.
Proof.
  revert i l; induction n as [|n IH]; intros i l H; [inversion H|].
  destruct l as [|x l]; [now destruct i|].
  destruct i as [|i]; [reflexivity|].
  simpl. apply IH. now apply Nat.succ_lt_mono.
Qed.

(** C6: the text each of the six entry points hands to the summarizer is
    the first [min(len(text), 1024)] characters of [text]: a prefix of
    [text], of that length, agreeing with [text] at every position. *)
Theorem C6_summarizer_input_is_1024_prefix
        (summarizer : str -> result value) (text : str) (g : list str) :
  let input := firstn (Nat.min (length text) 1024) text in
  Forall (fun agent : str -> M str => events (agent text g) = [Summarize input])
         (agents summarizer) /\
  (exists rest, text = input ++ rest) /\
  length input = Nat.min (length text) 1024 /\
  (forall i, i < Nat.min (length text) 1024 -> nth_error input i = nth_error text i).
Proof.
  intro input. subst input. rewrite <- truncate_spec.
  split; [|split; [|split]].
  - unfold agents.
    repeat (apply Forall_cons;
            [etransitivity; [apply f_equal, labelled_summary_facade | reflexivity]|]).
    apply Forall_nil.
  - exists (skipn 1024 text). unfold truncate. symmetry. apply firstn_skipn.
  - rewrite truncate_spec. rewrite length_firstn.
    apply Nat.min_l. apply Nat.le_min_l.
  - intros i Hi. rewrite truncate_spec. now apply nth_error_firstn_lt.
Qed.

(* ================================================================= *)
(** ** What a computation can emit *)

Section Emits.

Variable P : event -> Prop.

Lemma emits_ret {A} (a : A) : emits P (ret a).
Proof. intro g; constructor. Qed.

Lemma emits_raise {A} (e : exn) : emits P (@raise A e).
Proof. intro g; constructor. Qed.

Lemma emits_lift {A} (r : result A) : emits P (lift r).
Proof. destruct r; [apply emits_ret | apply emits_raise]. Qed.

Lemma emits_check (o : option exn) : emits P (check o).
Proof. destruct o; [apply emits_raise | apply emits_ret]. Qed.

Lemma emits_graphs_append (s : str) : emits P (graphs_append s).
Proof. intro g; constructor. Qed.

Lemma emits_read_graphs : emits P read_graphs.
Proof. intro g; constructor. Qed.

Lemma emits_emit (e : event) : P e -> emits P (emit e).
Proof. intros H g. repeat constructor. exact H. Qed.

Lemma emits_bind {A B} (m : M A) (f : A -> M B) :
  emits P m -> (forall a, emits P (f a)) -> emits P (bind m f).
Proof.
  intros Hm Hf g. unfold bind.
  destruct (res (m g)) as [a|e]; simpl; [|apply Hm].
  apply Forall_app. split; [apply Hm | apply Hf].
Qed.

Lemma emits_mapM {A B} (f : A -> M B) (l : list A) :
  (forall a, emits P (f a)) -> emits P (mapM f l).
Proof.
  intro Hf. induction l as [|x l IH]; simpl; [apply emits_ret|].
  apply emits_bind; [apply Hf | intro y].
  apply emits_bind; [apply IH | intro ys; apply emits_ret].
Qed.

Lemma emits_for_each {A} (l : list A) (body : A -> M unit) :
  (forall a, emits P (body a)) -> emits P (for_each l body).
Proof.
  intro Hb. induction l as [|x l IH]; simpl; [apply emits_ret|].
  apply emits_bind; [apply Hb | intros _; apply IH].
Qed.

Lemma emits_if {A} (b : bool) (m1 m2 : M A) :
  emits P m1 -> emits P m2 -> emits P (if b then m1 else m2).
Proof. now destruct b. Qed.

End Emits.

Lemma keeps_ret {A} (a : A) : keeps_graphs (ret a).
Proof. intro g; reflexivity. Qed.

Lemma keeps_raise {A} (e : exn) : keeps_graphs (@raise A e).
Proof. intro g; reflexivity. Qed.

Lemma keeps_lift {A} (r : result A) : keeps_graphs (lift r).
Proof. destruct r; intro g; reflexivity. Qed.

Lemma keeps_check (o : option exn) : keeps_graphs (check o).
Proof. destruct o; intro g; reflexivity. Qed.

Lemma keeps_emit (e : event) : keeps_graphs (emit e).
Proof. intro g; reflexivity. Qed.

Lemma keeps_read_graphs : keeps_graphs read_graphs.
Proof. intro g; reflexivity. Qed.

Lemma keeps_bind {A B} (m : M A) (f : A -> M B) :
  keeps_graphs m -> (forall a, keeps_graphs (f a)) -> keeps_graphs (bind m f).
Proof.
  intros Hm Hf g. unfold bind.
  destruct (res (m g)) as [a|e]; simpl; [|apply Hm].
  now rewrite Hf, Hm.
Qed.

Lemma keeps_mapM {A B} (f : A -> M B) (l : list A) :
  (forall a, keeps_graphs (f a)) -> keeps_graphs (mapM f l).
Proof.
  intro Hf. induction l as [|x l IH]; simpl; [apply keeps_ret|].
  apply keeps_bind; [apply Hf | intro y].
  apply keeps_bind; [apply IH | intro ys; apply keeps_ret].
Qed.

Lemma keeps_for_each {A} (l : list A) (body : A -> M unit) :
  (forall a, keeps_graphs (body a)) -> keeps_graphs (for_each l body).
Proof.
  intro Hb. induction l as [|x l IH]; simpl; [apply keeps_ret|].
  apply keeps_bind; [apply Hb | intros _; apply IH].
Qed.

Lemma keeps_if {A} (b : bool) (m1 m2 : M A) :
  keeps_graphs m1 -> keeps_graphs m2 -> keeps_graphs (if b then m1 else m2).
Proof. now destruct b. Qed.

Lemma keeps_st (W : World) (w : widget) : keeps_graphs (st W w).
Proof. apply keeps_bind; [apply keeps_check | intros _; apply keeps_emit]. Qed.

Lemma keeps_get_json (W : World) (url : str) : keeps_graphs (get_json W url).
Proof.
  apply keeps_bind; [apply keeps_emit | intros _].
  destruct (requests_get W url) as [|status [v|e]];
    [apply keeps_raise | apply keeps_ret | apply keeps_raise].
Qed.

Lemma keeps_for_each_Forall {A} (l : list A) (body : A -> M unit) :
  Forall (fun a => keeps_graphs (body a)) l -> keeps_graphs (for_each l body).
Proof.
  induction 1 as [|x l Hx _ IH]; simpl; [apply keeps_ret|].
  apply keeps_bind; [exact Hx | intros _; exact IH].
Qed.

Lemma keeps_labelled (summarizer : str -> result value) (label text : str) :
  keeps_graphs (t <- summary_text summarizer (truncate text) ;; lift (str_add label t)).
Proof. intro g. now rewrite labelled_summary_facade. Qed.

Lemma keeps_agents (summarizer : str -> result value) (text : str) :
  Forall (fun agent : str -> M str => keeps_graphs (agent text)) (agents summarizer).
Proof.
  unfold agents.
  repeat (apply Forall_cons; [exact (keeps_labelled summarizer _ text)|]).
  apply Forall_nil.
Qed.

Create HintDb keeps.
#[export] Hint Resolve keeps_ret keeps_raise keeps_lift keeps_check keeps_emit
  keeps_read_graphs keeps_st keeps_get_json : keeps.

(** Peels the [bind]s, the comprehensions and the conditionals of a
    computation that never appends to [graphs]. *)
Ltac keeps_tac :=
  repeat first
    [ progress (intros)
    | solve [auto with keeps]
    | apply keeps_bind
    | apply keeps_mapM
    | apply keeps_for_each
    | apply keeps_if ].

(* ================================================================= *)
(** ** Which fetchers and requests a cycle can make *)

Lemma block_event_allowed (city : str) (show_layers : list str) (f : fetcher) :
  rendered f = true ->
  forall e, block_event city show_layers f e -> allowed city show_layers e.
Proof.
  intros Hr e. destruct e as [f0|url| | |w]; simpl; try tauto.
  - intros [-> Hs]. auto.
  - intros [-> Hs]. exists f. auto.
Qed.

Lemma emits_impl (P Q : event -> Prop) {A} (m : M A) :
  (forall e, P e -> Q e) -> emits P m -> emits Q m.
Proof. intros H Hm g. eapply Forall_impl; [exact H | apply Hm]. Qed.

Lemma emits_st (P : event -> Prop) (W : World) (w : widget) :
  P (Display w) -> emits P (st W w).
Proof.
  intro H. apply emits_bind; [apply emits_check | intros _; now apply emits_emit].
Qed.

Lemma emits_get_json (P : event -> Prop) (W : World) (url : str) :
  P (HttpGet url) -> emits P (get_json W url).
Proof.
  intro H. apply emits_bind; [now apply emits_emit | intros _].
  destruct (requests_get W url) as [|status [v|e]];
    [apply emits_raise | apply emits_ret | apply emits_raise].
Qed.

Lemma emits_fetch (W : World) (city : str) (show_layers : list str) (f : fetcher) :
  selected (layer_of f) show_layers = true ->
  emits (block_event city show_layers f)
        (emit (Call f) ;; get_json W (endpoint city f)).
Proof.
  intros Hs. apply emits_bind.
  - apply emits_emit. simpl. auto.
  - intros _. apply emits_get_json. simpl. auto.
Qed.

Lemma emits_labelled (P : event -> Prop) (summarizer : str -> result value)
      (label text : str) :
  (forall input, P (Summarize input)) ->
  emits P (t <- summary_text summarizer (truncate text) ;; lift (str_add label t)).
Proof.
  intros H g. rewrite labelled_summary_facade.
  unfold facade; simpl. repeat constructor. apply H.
Qed.

Lemma emits_agents (P : event -> Prop) (summarizer : str -> result value) (text : str) :
  (forall input, P (Summarize input)) ->
  Forall (fun agent : str -> M str => emits P (agent text)) (agents summarizer).
Proof.
  intro H. unfold agents.
  repeat (apply Forall_cons; [exact (emits_labelled P summarizer _ text H)|]).
  apply Forall_nil.
Qed.

Lemma emits_for_each_Forall (P : event -> Prop) {A} (l : list A) (body : A -> M unit) :
  Forall (fun a => emits P (body a)) l -> emits P (for_each l body).
Proof.
  induction 1 as [|x l Hx _ IH]; simpl; [apply emits_ret|].
  apply emits_bind; [exact Hx | intros _; exact IH].
Qed.

(** Discharges the routine [emits] goals: every constructor of the monad
    but [emit] is silent, and Streamlit elements, the pipeline and the
    summarizer are always allowed. *)
Ltac emits_tac :=
  repeat first
    [ progress (intros)
    | apply emits_ret
    | apply emits_raise
    | apply emits_lift
    | apply emits_check
    | apply emits_graphs_append
    | apply emits_read_graphs
    | apply emits_st; exact I
    | apply emits_emit; exact I
    | apply emits_bind
    | apply emits_mapM
    | apply emits_if ].

Section AllowedEvents.

Variables (W : World) (city : str) (show_layers : list str).

Lemma earthquakes_block_events :
  emits (block_event city show_layers GetEarthquakes) (earthquakes_block W show_layers).
Proof.
  unfold earthquakes_block.
  destruct (selected (lit "Earthquakes") show_layers) eqn:Sel; [|apply emits_ret].
  apply emits_bind; [now apply (emits_fetch W city show_layers GetEarthquakes)|].
  unfold quake_row_of, pd_DataFrame. emits_tac.
Qed.

Lemma covid_block_events :
  emits (block_event city show_layers GetCovid) (covid_block W show_layers).
Proof.
  unfold covid_block.
  destruct (selected (lit "COVID-19") show_layers) eqn:Sel; [|apply emits_ret].
  apply emits_bind; [now apply (emits_fetch W city show_layers GetCovid)|].
  emits_tac.
Qed.

Lemma air_quality_block_events :
  emits (block_event city show_layers GetAirQuality)
        (air_quality_block W city show_layers).
Proof.
  unfold air_quality_block.
  destruct (selected (lit "Air Quality") show_layers) eqn:Sel; [|apply emits_ret].
  apply emits_bind; [now apply (emits_fetch W city show_layers GetAirQuality)|].
  unfold air_quality_guard, pd_DataFrame. emits_tac.
Qed.

Lemma news_block_events :
  emits (block_event city show_layers GetNews) (news_block W show_layers).
Proof.
  unfold news_block.
  destruct (selected (lit "News") show_layers) eqn:Sel; [|apply emits_ret].
  apply emits_bind; [now apply (emits_fetch W city show_layers GetNews)|].
  unfold pd_DataFrame. emits_tac.
Qed.

(** The page head shows widgets only. *)
Lemma page_head_events (f : fetcher) :
  emits (block_event city show_layers f) (page_head W).
Proof. unfold page_head. emits_tac. Qed.

Lemma graphs_section_allowed :
  emits (allowed city show_layers) (graphs_section W city show_layers).
Proof.
  unfold graphs_section.
  apply emits_bind;
    [eapply emits_impl; [|apply earthquakes_block_events];
     now apply block_event_allowed | intros _].
  apply emits_bind;
    [eapply emits_impl; [|apply covid_block_events];
     now apply block_event_allowed | intros _].
  apply emits_bind;
    [eapply emits_impl; [|apply air_quality_block_events];
     now apply block_event_allowed | intros _].
  eapply emits_impl; [|apply news_block_events]. now apply block_event_allowed.
Qed.

Lemma summaries_section_allowed :
  emits (allowed city show_layers) (summaries_section W).
Proof.
  unfold summaries_section, load_pipeline.
  apply emits_bind; [emits_tac|intros _].
  apply emits_bind; [emits_tac|intros graphs].
  apply emits_bind; [emits_tac|intros summarizer].
  apply emits_for_each_Forall.
  eapply Forall_impl; [|apply (emits_agents (allowed city show_layers) summarizer
                                 (summary_input graphs)); intro; exact I].
  intros agent H. apply emits_bind; [exact H | emits_tac].
Qed.

Lemma app_allowed :
  emits (allowed city show_layers) (app W city show_layers).
Proof.
  unfold app.
  apply emits_bind;
    [eapply emits_impl; [|apply (page_head_events GetNews)];
     now apply block_event_allowed | intros _].
  apply emits_bind; [apply graphs_section_allowed | intros _].
  apply summaries_section_allowed.
Qed.

End AllowedEvents.

(** A cycle looks at [show_layers] only through the four membership tests
    of section 3. *)
Lemma app_selected_ext (W : World) (city : str) (S1 S2 : list str) :
  (forall f, rendered f = true ->
             selected (layer_of f) S1 = selected (layer_of f) S2) ->
  forall g, app W city S1 g = app W city S2 g.
Proof.
  intros H g.
  pose proof (H GetEarthquakes eq_refl) as HE.
  pose proof (H GetCovid eq_refl) as HC.
  pose proof (H GetAirQuality eq_refl) as HA.
  pose proof (H GetNews eq_refl) as HN.
  cbn [layer_of] in HE, HC, HA, HN.
  unfold app, graphs_section, earthquakes_block, covid_block,
    air_quality_block, news_block.
  now rewrite HE, HC, HA, HN.
Qed.

(* ================================================================= *)
(** ** The digest entries of a cycle *)

Section Appends.

Variables (name : str) (show_layers : list str) (P : str -> Prop).

Lemma appends_keeps {A} (m : M A) : keeps_graphs m -> appends_part name show_layers P m.
Proof.
  intros H g. exists []. split; [constructor | now rewrite H, app_nil_r].
Qed.

Lemma appends_bind_keeps {A B} (m : M A) (f : A -> M B) :
  keeps_graphs m -> (forall a, appends_part name show_layers P (f a)) -> appends_part name show_layers P (bind m f).
Proof.
  intros Hm Hf g. unfold bind.
  destruct (res (m g)) as [a|e]; simpl.
  - rewrite Hm. apply Hf.
  - exists []. split; [constructor | now rewrite Hm, app_nil_r].
Qed.

Lemma appends_graphs_append (e : str) :
  selected name show_layers = true -> P e -> appends_part name show_layers P (graphs_append e).
Proof. intros Hs He g. exists [e]. split; [now constructor | reflexivity]. Qed.

Lemma appends_if {A} (b : bool) (m1 m2 : M A) :
  appends_part name show_layers P m1 -> appends_part name show_layers P m2 -> appends_part name show_layers P (if b then m1 else m2).
Proof. now destruct b. Qed.

End Appends.

(** Walks down a render block: everything before the final
    [graphs.append] leaves [graphs] alone. *)
Ltac appends_tac :=
  repeat first
    [ progress (intros)
    | apply appends_graphs_append
    | apply appends_if
    | apply appends_keeps; solve [keeps_tac]
    | apply appends_bind_keeps; [solve [keeps_tac]|] ].

Section DigestOrder.

Variables (W : World) (city : str) (show_layers : list str).

Lemma earthquakes_block_appends :
  appends_part (lit "Earthquakes") show_layers (fun e => e = earthquake_digest)
               (earthquakes_block W show_layers).
Proof.
  unfold earthquakes_block.
  destruct (selected (lit "Earthquakes") show_layers) eqn:Sel;
    [|apply appends_keeps, keeps_ret].
  unfold get_earthquakes, quake_row_of, pd_DataFrame.
  appends_tac; [assumption | reflexivity].
Qed.

Lemma covid_block_appends :
  appends_part (lit "COVID-19") show_layers is_covid_digest
               (covid_block W show_layers).
Proof.
  unfold covid_block.
  destruct (selected (lit "COVID-19") show_layers) eqn:Sel;
    [|apply appends_keeps, keeps_ret].
  unfold get_covid.
  appends_tac; [assumption | unfold is_covid_digest; eauto].
Qed.

Lemma air_quality_block_appends :
  appends_part (lit "Air Quality") show_layers (is_air_quality_digest city)
               (air_quality_block W city show_layers).
Proof.
  unfold air_quality_block.
  destruct (selected (lit "Air Quality") show_layers) eqn:Sel;
    [|apply appends_keeps, keeps_ret].
  unfold get_air_quality, air_quality_guard, pd_DataFrame.
  appends_tac; [assumption | unfold is_air_quality_digest; eauto].
Qed.

Lemma news_block_appends :
  appends_part (lit "News") show_layers (fun e => e = news_digest)
               (news_block W show_layers).
Proof.
  unfold news_block.
  destruct (selected (lit "News") show_layers) eqn:Sel;
    [|apply appends_keeps, keeps_ret].
  unfold get_news, pd_DataFrame.
  appends_tac; [assumption | reflexivity].
Qed.

Lemma page_head_keeps : keeps_graphs (page_head W).
Proof. unfold page_head. keeps_tac. Qed.

Lemma summaries_section_keeps : keeps_graphs (summaries_section W).
Proof.
  unfold summaries_section, load_pipeline.
  apply keeps_bind; [keeps_tac | intros _].
  apply keeps_bind; [keeps_tac | intros graphs].
  apply keeps_bind; [keeps_tac | intros summarizer].
  apply keeps_for_each_Forall.
  eapply Forall_impl; [|apply (keeps_agents summarizer (summary_input graphs))].
  intros agent H. apply keeps_bind; [exact H | keeps_tac].
Qed.

Lemma graphs_section_digest (g : list str) :
  exists p1 p2 p3 p4,
    graphs_of (graphs_section W city show_layers g) = g ++ p1 ++ p2 ++ p3 ++ p4 /\
    layer_part (lit "Earthquakes") show_layers (fun e => e = earthquake_digest) p1 /\
    layer_part (lit "COVID-19") show_layers is_covid_digest p2 /\
    layer_part (lit "Air Quality") show_layers (is_air_quality_digest city) p3 /\
    layer_part (lit "News") show_layers (fun e => e = news_digest) p4.
Proof.
  unfold graphs_section.
  destruct (earthquakes_block_appends g) as (p1 & L1 & E1).
  destruct (covid_block_appends (g ++ p1)) as (p2 & L2 & E2).
  destruct (air_quality_block_appends ((g ++ p1) ++ p2)) as (p3 & L3 & E3).
  destruct (news_block_appends (((g ++ p1) ++ p2) ++ p3)) as (p4 & L4 & E4).
  assert (N : forall nm Q, layer_part nm show_layers Q []) by constructor.
  unfold bind at 1.
  destruct (res (earthquakes_block W show_layers g)); simpl.
  2:{ exists p1, [], [], []. rewrite E1. simpl. rewrite app_nil_r.
      repeat split; auto. }
  rewrite E1. unfold bind at 1.
  destruct (res (covid_block W show_layers (g ++ p1))); simpl.
  2:{ exists p1, p2, [], []. rewrite E2, <- app_assoc. simpl.
      rewrite app_nil_r. repeat split; auto. }
  rewrite E2. unfold bind at 1.
  destruct (res (air_quality_block W city show_layers ((g ++ p1) ++ p2))); simpl.
  2:{ exists p1, p2, p3, []. rewrite E3, <- !app_assoc.
      rewrite app_nil_r. repeat split; auto. }
  rewrite E3, E4. exists p1, p2, p3, p4. rewrite <- !app_assoc.
  repeat split; auto.
Qed.

Lemma cycle_canonical_digest :
  canonical_digest city show_layers (graphs_of (cycle W city show_layers)).
Proof.
  unfold cycle, app.
  unfold bind at 1. rewrite page_head_keeps.
  destruct (res (page_head W [])); simpl.
  2:{ exists [], [], [], []. repeat split; constructor. }
  destruct (graphs_section_digest []) as (p1 & p2 & p3 & p4 & E & L).
  exists p1, p2, p3, p4. split; [|exact L].
  unfold bind.
  destruct (res (graphs_section W city show_layers [])); simpl; [|exact E].
  now rewrite summaries_section_keeps.
Qed.

End DigestOrder.

(* ================================================================= *)
(** ** Runs of the sample worlds *)

Module SampleRuns.

Import Sample.

Example format_cases : format_int_comma 1234567 = lit "1,234,567".
Proof. reflexivity. Qed.

Example format_small : format_int_comma (-999) = lit "-999".
Proof. reflexivity. Qed.

Example covid_only_digest :
  graphs_of (cycle all_up city [lit "COVID-19"])
  = [lit "Global COVID-19 cases 1,234,567, deaths 10."].
Proof. vm_compute. reflexivity. Qed.

Example all_up_completes :
  res (cycle all_up city layer_options) = Ok tt /\
  graphs_of (cycle all_up city layer_options)
  = [earthquake_digest;
     lit "Global COVID-19 cases 1,234,567, deaths 10.";
     lit "Air Quality in Paris shows levels of pollutants: ['pm25'].";
     news_digest].
Proof. vm_compute. split; reflexivity. Qed.

Example all_selected_calls_four_fetchers :
  fetchers_called (events (cycle all_up city layer_options))
  = [GetEarthquakes; GetCovid; GetAirQuality; GetNews].
Proof. vm_compute. reflexivity. Qed.

Example langchain_on_sample :
  langchain_summary bart (lit "Earthquake activity") []
  = mk_outcome [Summarize (lit "Earthquake activity")] []
               (Ok (lit "LangChain Agent: Earthquake a")).
Proof. vm_compute. reflexivity. Qed.

Example no_station_digest :
  res (cycle no_station city layer_options) = Ok tt /\
  graphs_of (cycle no_station city layer_options)
  = [earthquake_digest;
     lit "Global COVID-19 cases 1,234,567, deaths 10.";
     news_digest].
Proof. vm_compute. split; reflexivity. Qed.

End SampleRuns.

(* ================================================================= *)
(** ** Selections: order, and the layers without a render block *)

(** C8: two selections with the same members give the same cycle, hence
    the same digest blob; and the entries of [graphs] stand in the order of
    the render blocks (Earthquakes, COVID-19, Air Quality, News), whatever
    the order of the selection. *)
Theorem C8_digest_independent_of_selection_order
        (W : World) (city : str) (S1 S2 : list str)
        (Hset : forall l, In l S1 <-> In l S2) :
  cycle W city S1 = cycle W city S2 /\
  summary_input (graphs_of (cycle W city S1))
  = summary_input (graphs_of (cycle W city S2)) /\
  canonical_digest city S1 (graphs_of (cycle W city S1)).
Proof.
  assert (E : cycle W city S1 = cycle W city S2).
  { unfold cycle. apply app_selected_ext. intros f _. apply selected_ext, Hset. }
  split; [exact E|]. split; [now rewrite E|].
  apply cycle_canonical_digest.
Qed.

Lemma C8_digest_independent_of_selection_order_witness :
  cycle Sample.all_up Sample.city [lit "News"; lit "Earthquakes"]
  = cycle Sample.all_up Sample.city [lit "Earthquakes"; lit "News"; lit "Earthquakes"] /\
  summary_input (graphs_of (cycle Sample.all_up Sample.city [lit "News"; lit "Earthquakes"]))
  = summary_input (graphs_of (cycle Sample.all_up Sample.city
                                    [lit "Earthquakes"; lit "News"; lit "Earthquakes"])) /\
  canonical_digest Sample.city [lit "News"; lit "Earthquakes"]
    (graphs_of (cycle Sample.all_up Sample.city [lit "News"; lit "Earthquakes"])).
Proof.
  apply C8_digest_independent_of_selection_order.
  intro l. simpl. tauto.
Defined.

(** C9: every fetcher a cycle enters, and every request it sends, belongs
    to a layer that is a member of the selection. *)
Theorem C9_only_selected_fetchers_run (W : World) (city : str) (show_layers : list str) :
  Forall (fun e =>
            match e with
            | Call f => In (layer_of f) show_layers
            | HttpGet url =>
                exists f, In (layer_of f) show_layers /\ url = endpoint city f
            | _ => True
            end)
         (events (cycle W city show_layers)).
Proof.
  eapply Forall_impl; [|apply (app_allowed W city show_layers [])].
  intros [f|url| | |] H; simpl in H; try exact I.
  - now apply selected_In.
  - destruct H as (f & _ & Hs & ->). exists f. split; [now apply selected_In | reflexivity].
Qed.

Lemma rendered_not_weather_nor_disasters (f : fetcher) :
  rendered f = true ->
  layer_of f <> lit "Weather" /\ layer_of f <> lit "Disasters".
Proof.
  destruct f; simpl; intro H; try discriminate H;
    split; intro E; vm_compute in E; discriminate E.
Qed.

(** C5: no cycle enters [get_weather] or [get_disasters]; every request
    goes to one of the four rendered feeds; every digest entry is a
    sentence of one of the four rendered layers; and two selections that
    differ only in "Weather" and "Disasters" give the same cycle (events,
    widgets, digest and summary panels). *)
Theorem C5_weather_and_disasters_never_run
        (W : World) (city : str) (show_layers : list str) :
  ~ In (Call GetWeather) (events (cycle W city show_layers)) /\
  ~ In (Call GetDisasters) (events (cycle W city show_layers)) /\
  (forall url, In (HttpGet url) (events (cycle W city show_layers)) ->
               In url [earthquakes_url; covid_url; air_quality_url city; news_url]) /\
  Forall (fun e => e = earthquake_digest \/ is_covid_digest e \/
                   is_air_quality_digest city e \/ e = news_digest)
         (graphs_of (cycle W city show_layers)) /\
  (forall S',
      (forall l, l <> lit "Weather" -> l <> lit "Disasters" ->
                 (In l show_layers <-> In l S')) ->
      cycle W city S' = cycle W city show_layers).
Proof.
  pose proof (app_allowed W city show_layers []) as A.
  rewrite Forall_forall in A. fold (cycle W city show_layers) in A.
  split; [|split; [|split; [|split]]].
  - intro H. apply A in H. simpl in H. destruct H as [H _]. discriminate H.
  - intro H. apply A in H. simpl in H. destruct H as [H _]. discriminate H.
  - intros url H. apply A in H. simpl in H. destruct H as (f & Hr & _ & ->).
    destruct f; try discriminate Hr; simpl; auto.
  - destruct (cycle_canonical_digest W city show_layers)
      as (p1 & p2 & p3 & p4 & -> & L1 & L2 & L3 & L4).
    repeat (apply Forall_app; split).
    + destruct L1 as [|e _ He]; [constructor | constructor; [tauto | constructor]].
    + destruct L2 as [|e _ He]; [constructor | constructor; [tauto | constructor]].
    + destruct L3 as [|e _ He]; [constructor | constructor; [tauto | constructor]].
    + destruct L4 as [|e _ He]; [constructor | constructor; [tauto | constructor]].
  - intros S' H. unfold cycle. apply app_selected_ext.
    intros f Hr. apply selected_ext.
    destruct (rendered_not_weather_nor_disasters f Hr) as [N1 N2].
    symmetry. now apply H.
Qed.

Lemma C5_weather_and_disasters_never_run_witness :
  cycle Sample.all_up Sample.city [lit "Earthquakes"]
  = cycle Sample.all_up Sample.city [lit "Weather"; lit "Earthquakes"; lit "Disasters"].
Proof.
  apply (proj2 (proj2 (proj2 (proj2
           (C5_weather_and_disasters_never_run Sample.all_up Sample.city
              [lit "Weather"; lit "Earthquakes"; lit "Disasters"]))))).
  intros l N1 N2. simpl. intuition congruence.
Defined.

(* ================================================================= *)
(** ** The summary section of a cycle *)

Lemma summarizer_inputs_app (a b : list event) :
  summarizer_inputs (a ++ b) = summarizer_inputs a ++ summarizer_inputs b.
Proof. apply flat_map_app. Qed.

Lemma panels_app (a b : list event) : panels (a ++ b) = panels a ++ panels b.
Proof. apply flat_map_app. Qed.

Lemma block_event_quiet (city : str) (show_layers : list str) (f : fetcher) :
  forall e, block_event city show_layers f e -> quiet e.
Proof. intros [f0|url| | |w]; simpl; tauto. Qed.

Lemma quiet_no_summary (evs : list event) :
  Forall quiet evs -> summarizer_inputs evs = [] /\ panels evs = [].
Proof.
  induction 1 as [|e evs He _ [IH1 IH2]]; [now split|].
  unfold summarizer_inputs, panels in *; simpl. rewrite IH1, IH2.
  destruct e as [f0|url| | |w]; simpl in *; try tauto.
  destruct w; simpl in *; tauto.
Qed.

Lemma page_head_quiet (W : World) : emits quiet (page_head W).
Proof.
  eapply emits_impl; [|apply (page_head_events W [] [] GetNews)].
  apply block_event_quiet.
Qed.

Lemma graphs_section_quiet (W : World) (city : str) (show_layers : list str) :
  emits quiet (graphs_section W city show_layers).
Proof.
  unfold graphs_section.
  apply emits_bind;
    [eapply emits_impl; [|apply earthquakes_block_events with (city := city)];
     apply block_event_quiet | intros _].
  apply emits_bind;
    [eapply emits_impl; [|apply covid_block_events with (city := city)];
     apply block_event_quiet | intros _].
  apply emits_bind;
    [eapply emits_impl; [|apply air_quality_block_events];
     apply block_event_quiet | intros _].
  eapply emits_impl; [|apply news_block_events with (city := city)].
  apply block_event_quiet.
Qed.

Section SummarySection.

Variable W : World.

Lemma st_Ok (w : widget) (g : list str) :
  res (st W w g) = Ok tt -> st W w g = mk_outcome [Display w] g (Ok tt).
Proof.
  unfold st, check, bind.
  destruct (st_raises W w); simpl; [discriminate | reflexivity].
Qed.

(** One turn of the loop of lines 163-164, followed by the rest [k]. *)
Lemma panel_step (summarizer : str -> result value) (label text : str)
      (k : M unit) (g : list str) :
  res (((s <- (t <- summary_text summarizer (truncate text) ;;
               lift (str_add label t)) ;;
         st W (InfoPanel s)) ;; k) g) = Ok tt ->
  exists summary,
    shared_summary summarizer text = Ok summary /\
    res (k g) = Ok tt /\
    events (((s <- (t <- summary_text summarizer (truncate text) ;;
                    lift (str_add label t)) ;;
              st W (InfoPanel s)) ;; k) g)
    = agent_events (truncate text) summary label ++ events (k g).
Proof.
  intro H.
  apply bind_Ok_inv in H as ([] & Hbody & Hk & Hev & _).
  rewrite Hev. clear Hev.
  apply bind_Ok_inv in Hbody as (s & Hs & Hst & Hev & Hg).
  rewrite Hg in Hk. rewrite Hev, Hg. clear Hev Hg.
  rewrite labelled_summary_facade in *. unfold facade in *; simpl in *.
  destruct (shared_summary summarizer text) as [summary|e]; [|discriminate Hs].
  injection Hs as <-.
  rewrite (st_Ok _ _ Hst) in *. simpl in *.
  exists summary. auto.
Qed.

Lemma summaries_section_Ok (g : list str) :
  res (summaries_section W g) = Ok tt ->
  exists summary,
    events (summaries_section W g)
    = [Display (Header (129302%N :: lit " Multi-Agent AI Summaries"));
       LoadPipeline (lit "summarization") summarization_model]
      ++ flat_map (agent_events (truncate (summary_input g)) summary) agent_labels.
Proof.
  unfold summaries_section. intro H.
  apply bind_Ok_inv in H as ([] & Hh & H & Hev & _). rewrite Hev; clear Hev.
  rewrite (st_Ok _ _ Hh) in *. cbn [events graphs_of] in *.
  apply bind_Ok_inv in H as (graphs & Hg & H & Hev & _). rewrite Hev; clear Hev.
  unfold read_graphs in Hg, H |- *. cbn [events graphs_of res] in *.
  injection Hg as <-.
  apply bind_Ok_inv in H as (summarizer & Hp & H & Hev & _). rewrite Hev; clear Hev.
  assert (Hl : events (load_pipeline W g)
               = [LoadPipeline (lit "summarization") summarization_model]
               /\ graphs_of (load_pipeline W g) = g).
  { unfold load_pipeline, bind, emit, lift in *; cbn [events graphs_of res] in *.
    destruct (pipeline W (lit "summarization") summarization_model);
      [split; reflexivity | discriminate Hp]. }
  destruct Hl as [Hl1 Hl2]. rewrite Hl1, Hl2 in *. clear Hl1 Hl2 Hp Hh.
  set (text := summary_input g) in *.
  unfold agents in *. cbn [for_each] in *.
  unfold langchain_summary, llamaindex_summary, haystack_summary, hf_summary,
    autogen_summary, rasa_summary in *.
  apply panel_step in H as H1. destruct H1 as (summary & Hs & H1 & ->).
  apply panel_step in H1 as H2. destruct H2 as (s2 & Hs2 & H2 & ->).
  apply panel_step in H2 as H3. destruct H3 as (s3 & Hs3 & H3 & ->).
  apply panel_step in H3 as H4. destruct H4 as (s4 & Hs4 & H4 & ->).
  apply panel_step in H4 as H5. destruct H5 as (s5 & Hs5 & H5 & ->).
  apply panel_step in H5 as H6. destruct H6 as (s6 & Hs6 & H6 & ->).
  rewrite Hs in Hs2, Hs3, Hs4, Hs5, Hs6.
  injection Hs2 as <-. injection Hs3 as <-. injection Hs4 as <-.
  injection Hs5 as <-. injection Hs6 as <-.
  exists summary. reflexivity.
Qed.

End SummarySection.

(** No layer selected: [graphs] stays empty. *)
Lemma cycle_graphs_nil (W : World) (city : str) :
  graphs_of (cycle W city []) = [].
Proof.
  destruct (cycle_canonical_digest W city [])
    as (p1 & p2 & p3 & p4 & -> & L1 & L2 & L3 & L4).
  destruct L1 as [|e1 S1 _]; [|discriminate S1].
  destruct L2 as [|e2 S2 _]; [|discriminate S2].
  destruct L3 as [|e3 S3 _]; [|discriminate S3].
  destruct L4 as [|e4 S4 _]; [|discriminate S4].
  reflexivity.
Qed.

(** A cycle that runs to its end: the events before the summaries, then
    the six agents in the order of [agents]. *)
Lemma cycle_Ok_events (W : World) (city : str) (show_layers : list str) :
  res (cycle W city show_layers) = Ok tt ->
  exists summary before,
    events (cycle W city show_layers)
    = before ++ flat_map (agent_events
                            (truncate (summary_input
                                         (graphs_of (cycle W city show_layers))))
                            summary) agent_labels /\
    summarizer_inputs before = [] /\ panels before = [].
Proof.
  unfold cycle, app. intro H.
  apply bind_Ok_inv in H as ([] & Hh & H & Hev & Hg). rewrite Hev, Hg. clear Hev Hg.
  apply bind_Ok_inv in H as ([] & Hs & H & Hev & Hg). rewrite Hev, Hg. clear Hev Hg.
  rewrite summaries_section_keeps.
  destruct (summaries_section_Ok _ _ H) as (summary & ->).
  exists summary.
  eexists. split; [rewrite !app_assoc; reflexivity|].
  rewrite !summarizer_inputs_app, !panels_app.
  destruct (quiet_no_summary (page_head_quiet W [])) as [-> ->].
  destruct (quiet_no_summary
              (graphs_section_quiet W city show_layers (graphs_of (page_head W []))))
    as [-> ->].
  split; reflexivity.
Qed.

(** C10, as the code has it: in every cycle that runs to its end (no
    fetch, render step or summarization call raises) the summarizer is
    called exactly six times, on the truncated digest blob, once per agent
    in the order LangChain, LlamaIndex, Haystack, HuggingFace, AutoGen,
    Rasa; each result is shown in a panel of its own; no summarizer call
    and no panel comes before them; and with nothing selected the input is
    "No data selected.". *)
Theorem C10_completed_cycle_runs_six_summaries
        (W : World) (city : str) (show_layers : list str)
        (Hdone : res (cycle W city show_layers) = Ok tt) :
  let input := truncate (summary_input (graphs_of (cycle W city show_layers))) in
  exists summary before,
    events (cycle W city show_layers)
    = before ++ flat_map (agent_events input summary) agent_labels /\
    summarizer_inputs before = [] /\
    panels before = [] /\
    summarizer_inputs (events (cycle W city show_layers)) = repeat input 6 /\
    panels (events (cycle W city show_layers))
    = map (fun label => label ++ summary) agent_labels /\
    (show_layers = [] -> input = lit "No data selected.").
Proof.
  intro input.
  destruct (cycle_Ok_events W city show_layers Hdone) as (summary & before & E & B1 & B2).
  fold input in E.
  exists summary, before. split; [exact E|]. split; [exact B1|]. split; [exact B2|].
  rewrite E, summarizer_inputs_app, panels_app, B1, B2.
  split; [reflexivity|]. split; [reflexivity|].
  intros ->. subst input. rewrite cycle_graphs_nil. reflexivity.
Qed.

Lemma C10_completed_cycle_runs_six_summaries_witness :
  let input := truncate (summary_input
                           (graphs_of (cycle Sample.all_up Sample.city layer_options))) in
  exists summary before,
    events (cycle Sample.all_up Sample.city layer_options)
    = before ++ flat_map (agent_events input summary) agent_labels /\
    summarizer_inputs before = [] /\
    panels before = [] /\
    summarizer_inputs (events (cycle Sample.all_up Sample.city layer_options))
    = repeat input 6 /\
    panels (events (cycle Sample.all_up Sample.city layer_options))
    = map (fun label => label ++ summary) agent_labels /\
    (layer_options = [] -> input = lit "No data selected.").
Proof.
  apply (C10_completed_cycle_runs_six_summaries Sample.all_up Sample.city layer_options).
  vm_compute. reflexivity.
Defined.

(** C10 as stated fails: when the disease feed cannot be reached the cycle
    stops in the COVID-19 block and the summarizer is never called; when
    the summarizer raises, it has been called once. *)
Lemma C10_aborted_cycle_has_no_six_calls :
  (res (cycle Sample.covid_down Sample.city [lit "COVID-19"]) = Raise ConnectionError /\
   summarizer_inputs (events (cycle Sample.covid_down Sample.city [lit "COVID-19"])) = [] /\
   panels (events (cycle Sample.covid_down Sample.city [lit "COVID-19"])) = []) /\
  (res (cycle Sample.summarizer_down Sample.city []) = Raise (LibraryError 1) /\
   summarizer_inputs (events (cycle Sample.summarizer_down Sample.city []))
   = [lit "No data selected."] /\
   panels (events (cycle Sample.summarizer_down Sample.city [])) = []).
Proof. vm_compute. repeat split. Qed.

(* ================================================================= *)
(** ** What the fetchers return on "no match" answers *)

Section NoMatch.

Variables (W : World) (city : str).

Lemma get_json_body (url : str) (status : Z) (v : value) (g : list str) :
  requests_get W url = Response status (Ok v) ->
  get_json W url g = mk_outcome [HttpGet url] g (Ok v).
Proof. unfold get_json, bind, emit, ret; simpl. now intros ->. Qed.

Lemma get_air_quality_body (status : Z) (v : value) (g : list str) :
  requests_get W (air_quality_url city) = Response status (Ok v) ->
  get_air_quality W city g
  = mk_outcome [Call GetAirQuality; HttpGet (air_quality_url city)] g (Ok v).
Proof.
  intro H. unfold get_air_quality.
  rewrite bind_Ok_l with (a := tt) by reflexivity.
  cbn [emit events graphs_of]. now rewrite (get_json_body _ _ H).
Qed.

Lemma contains_missing (k : str) (d : list (str * value)) :
  lookup k d = None -> contains k (VDict d) = Ok false.
Proof. unfold contains. now intros ->. Qed.

(** The guard of line 108 on an answer without stations. *)
Lemma air_quality_guard_no_station (d : list (str * value)) (g : list str) :
  lookup (lit "results") d = None \/ lookup (lit "results") d = Some (VList []) ->
  air_quality_guard (VDict d) g = mk_outcome [] g (Ok false).
Proof.
  unfold air_quality_guard, bind, lift, contains, getitem, len, ret.
  intros [H|H]; rewrite H; reflexivity.
Qed.

(** The Air Quality block on an answer without stations: the fetch, and
    nothing else. *)
Lemma air_quality_block_skips (show_layers : list str) (status : Z)
      (d : list (str * value)) (g : list str) :
  requests_get W (air_quality_url city) = Response status (Ok (VDict d)) ->
  lookup (lit "results") d = None \/ lookup (lit "results") d = Some (VList []) ->
  air_quality_block W city show_layers g
  = mk_outcome (if selected (lit "Air Quality") show_layers
                then [Call GetAirQuality; HttpGet (air_quality_url city)] else [])
               g (Ok tt).
Proof.
  intros Hresp Hd. unfold air_quality_block.
  destruct (selected (lit "Air Quality") show_layers); [|reflexivity].
  rewrite bind_Ok_l with (a := VDict d)
    by (now rewrite (get_air_quality_body _ Hresp)).
  rewrite (get_air_quality_body _ Hresp). cbn [events graphs_of].
  rewrite bind_Ok_l with (a := false)
    by (now rewrite air_quality_guard_no_station).
  rewrite air_quality_guard_no_station by assumption. reflexivity.
Qed.

(** The News block on an answer without ["articles"]. *)
Lemma news_block_skips (show_layers : list str) (status : Z)
      (d : list (str * value)) (g : list str) :
  requests_get W news_url = Response status (Ok (VDict d)) ->
  lookup (lit "articles") d = None ->
  news_block W show_layers g
  = mk_outcome (if selected (lit "News") show_layers
                then [Call GetNews; HttpGet news_url] else [])
               g (Ok tt).
Proof.
  intros Hresp Hd. unfold news_block.
  destruct (selected (lit "News") show_layers); [|reflexivity].
  assert (E : get_news W g = mk_outcome [Call GetNews; HttpGet news_url] g (Ok (VDict d))).
  { unfold get_news. rewrite bind_Ok_l with (a := tt) by reflexivity.
    cbn [emit events graphs_of]. now rewrite (get_json_body _ _ Hresp). }
  rewrite bind_Ok_l with (a := VDict d) by (now rewrite E).
  rewrite E. cbn beta. cbn [events graphs_of].
  rewrite (contains_missing _ _ Hd). cbn [lift]. rewrite bind_ret_l.
  reflexivity.
Qed.

(** An answer of the geocoder without a ["results"] field: [None], and the
    forecast is not requested. *)
Lemma get_weather_no_results_field (status : Z) (d : list (str * value)) (g : list str) :
  requests_get W (endpoint city GetWeather) = Response status (Ok (VDict d)) ->
  lookup (lit "results") d = None ->
  get_weather W city g
  = mk_outcome [Call GetWeather; HttpGet (endpoint city GetWeather)] g (Ok VNone).
Proof.
  intros Hresp Hd. unfold get_weather.
  rewrite bind_Ok_l with (a := tt) by reflexivity. cbn [emit events graphs_of].
  change (lit "https://geocoding-api.open-meteo.com/v1/search?name=" ++ city)
    with (endpoint city GetWeather).
  rewrite bind_Ok_l with (a := VDict d) by (now rewrite (get_json_body _ _ Hresp)).
  rewrite (get_json_body _ _ Hresp). cbn beta. cbn [events graphs_of].
  rewrite (contains_missing _ _ Hd). cbn [lift]. rewrite bind_ret_l.
  reflexivity.
Qed.

End NoMatch.

(** C3 as stated fails: on an answer whose results list is empty
    [get_air_quality] returns that answer, a payload and not [None]. *)
Lemma C3_fetcher_returns_the_empty_payload :
  get_air_quality Sample.no_station Sample.city []
  = mk_outcome [Call GetAirQuality; HttpGet (air_quality_url Sample.city)] []
               (Ok (VDict [(lit "results", VList [])])) /\
  fetch_result (VDict [(lit "results", VList [])])
  = Success (VDict [(lit "results", VList [])]).
Proof. vm_compute. split; reflexivity. Qed.

(** C3, as the code has it: on an answer whose results list is empty the
    fetcher returns the answer unchanged (a payload); it is the guard of the
    Air Quality render block that takes it for "no data": the block shows no
    widget and appends no digest entry, and ends normally. *)
Theorem C3_empty_results_skipped_by_render_guard
        (W : World) (city : str) (show_layers : list str) (g : list str)
        (status : Z) (d : list (str * value))
        (Hresp : requests_get W (air_quality_url city) = Response status (Ok (VDict d)))
        (Hempty : lookup (lit "results") d = Some (VList [])) :
  get_air_quality W city g
  = mk_outcome [Call GetAirQuality; HttpGet (air_quality_url city)] g (Ok (VDict d)) /\
  fetch_result (VDict d) = Success (VDict d) /\
  air_quality_guard (VDict d) g = mk_outcome [] g (Ok false) /\
  air_quality_block W city show_layers g
  = mk_outcome (if selected (lit "Air Quality") show_layers
                then [Call GetAirQuality; HttpGet (air_quality_url city)] else [])
               g (Ok tt).
Proof.
  split; [now apply get_air_quality_body with (status := status)|].
  split; [reflexivity|].
  split; [apply air_quality_guard_no_station; now right|].
  apply air_quality_block_skips with (status := status) (d := d); auto.
Qed.

Lemma C3_empty_results_skipped_by_render_guard_witness :
  get_air_quality Sample.no_station Sample.city []
  = mk_outcome [Call GetAirQuality; HttpGet (air_quality_url Sample.city)] []
               (Ok (VDict [(lit "results", VList [])])) /\
  fetch_result (VDict [(lit "results", VList [])])
  = Success (VDict [(lit "results", VList [])]) /\
  air_quality_guard (VDict [(lit "results", VList [])]) [] = mk_outcome [] [] (Ok false) /\
  air_quality_block Sample.no_station Sample.city [lit "Air Quality"] []
  = mk_outcome (if selected (lit "Air Quality") [lit "Air Quality"]
                then [Call GetAirQuality; HttpGet (air_quality_url Sample.city)] else [])
               [] (Ok tt).
Proof.
  apply (@C3_empty_results_skipped_by_render_guard
           Sample.no_station Sample.city [lit "Air Quality"] [] 200
           [(lit "results", VList [])]).
  - vm_compute. reflexivity.
  - vm_compute. reflexivity.
Defined.

(** C4 at an answer of the geocoder with an empty results list:
    [get_weather] does not return [None]; line 37 raises [IndexError]. *)
Theorem C4_get_weather_raises_on_empty_results_list :
  requests_get Sample.geocoder_empty_list (endpoint Sample.city GetWeather)
  = Response 200 (Ok (VDict [(lit "results", VList [])])) /\
  get_weather Sample.geocoder_empty_list Sample.city []
  = mk_outcome [Call GetWeather; HttpGet (endpoint Sample.city GetWeather)] []
               (Raise IndexError).
Proof. vm_compute. split; reflexivity. Qed.

Example get_weather_no_match_is_None :
  get_weather Sample.geocoder_no_field Sample.city []
  = mk_outcome [Call GetWeather; HttpGet (endpoint Sample.city GetWeather)] []
               (Ok VNone).
Proof. vm_compute. reflexivity. Qed.

(* ================================================================= *)
(** ** Failures of a fetch, by kind *)

Lemma aborts_bind_l (P : event -> Prop) {A B} (m : M A) (f : A -> M B) :
  emits P m -> (forall a, aborts P (f a)) -> aborts P (bind m f).
Proof.
  intros Hm Hf g. unfold bind.
  destruct (res (m g)) as [a|e] eqn:E; simpl.
  - destruct (Hf a (graphs_of (m g))) as [R F]. split; [exact R|].
    apply Forall_app. split; [apply Hm | exact F].
  - split; [now exists e | apply Hm].
Qed.

Lemma aborts_bind_r (P : event -> Prop) {A B} (m : M A) (f : A -> M B) :
  aborts P m -> aborts P (bind m f).
Proof.
  intros Hm g. destruct (Hm g) as [[e R] F]. unfold bind. rewrite R. simpl.
  split; [now exists e | exact F].
Qed.

Lemma block_event_up_to (city : str) (show_layers : list str) (f0 f : fetcher) :
  order f0 <= order f ->
  forall e, block_event city show_layers f0 e -> up_to f e.
Proof.
  intros Hle [f1|url| | |w]; simpl; try tauto.
  intros [-> _]. exact Hle.
Qed.

Lemma up_to_quiet (f : fetcher) (e : event) : up_to f e -> quiet e.
Proof. destruct e as [f1|url| | |w]; simpl; tauto. Qed.

Section FetchFails.

Variables (W : World) (city : str) (show_layers : list str).

Lemma get_json_failed (url : str) (g : list str) :
  http_failed W url ->
  exists e, get_json W url g = mk_outcome [HttpGet url] g (Raise e).
Proof.
  unfold get_json, bind, emit; simpl.
  intros [H|(status & e & H)]; rewrite H; simpl; eauto.
Qed.

(** A fetcher whose request fails raises right after the request. *)
Lemma fetch_failed (f : fetcher) (g : list str) :
  http_failed W (endpoint city f) ->
  exists e, (emit (Call f) ;; get_json W (endpoint city f)) g
            = mk_outcome [Call f; HttpGet (endpoint city f)] g (Raise e).
Proof.
  intro H. destruct (get_json_failed g H) as [e E]. exists e.
  rewrite bind_Ok_l with (a := tt) by reflexivity.
  cbn [emit events graphs_of]. now rewrite E.
Qed.

Lemma fetch_then_aborts {A} (f : fetcher) (k : value -> M A) :
  http_failed W (endpoint city f) ->
  aborts (up_to f) (v <- (emit (Call f) ;; get_json W (endpoint city f)) ;; k v).
Proof.
  intros H g. destruct (fetch_failed f g H) as [e E].
  rewrite bind_Raise_l with (e := e) by (now rewrite E).
  rewrite E. cbn [events res]. split; [now exists e|].
  repeat constructor.
Qed.

(** The render block of [f], when [f]'s layer is selected and its request
    fails. *)
Lemma earthquakes_block_aborts :
  selected (lit "Earthquakes") show_layers = true ->
  http_failed W earthquakes_url ->
  aborts (up_to GetEarthquakes) (earthquakes_block W show_layers).
Proof.
  intros Hs H. unfold earthquakes_block. rewrite Hs.
  now apply (fetch_then_aborts GetEarthquakes).
Qed.

Lemma covid_block_aborts :
  selected (lit "COVID-19") show_layers = true ->
  http_failed W covid_url ->
  aborts (up_to GetCovid) (covid_block W show_layers).
Proof.
  intros Hs H. unfold covid_block. rewrite Hs.
  now apply (fetch_then_aborts GetCovid).
Qed.

Lemma air_quality_block_aborts :
  selected (lit "Air Quality") show_layers = true ->
  http_failed W (air_quality_url city) ->
  aborts (up_to GetAirQuality) (air_quality_block W city show_layers).
Proof.
  intros Hs H. unfold air_quality_block. rewrite Hs.
  now apply (fetch_then_aborts GetAirQuality).
Qed.

Lemma news_block_aborts :
  selected (lit "News") show_layers = true ->
  http_failed W news_url ->
  aborts (up_to GetNews) (news_block W show_layers).
Proof.
  intros Hs H. unfold news_block. rewrite Hs.
  now apply (fetch_then_aborts GetNews).
Qed.

Lemma graphs_section_aborts (f : fetcher) :
  rendered f = true ->
  selected (layer_of f) show_layers = true ->
  http_failed W (endpoint city f) ->
  aborts (up_to f) (graphs_section W city show_layers).
Proof.
  intros Hr Hs H. unfold graphs_section.
  assert (Up : forall f0 (m : M unit),
             order f0 <= order f ->
             emits (block_event city show_layers f0) m -> emits (up_to f) m).
  { intros f0 m Hle Hm. eapply emits_impl; [|exact Hm].
    now apply block_event_up_to. }
  destruct f; try discriminate Hr; cbn [layer_of endpoint] in Hs, H.
  - apply aborts_bind_r. now apply earthquakes_block_aborts.
  - apply aborts_bind_l; [apply (Up GetEarthquakes); [simpl; lia|];
                          apply earthquakes_block_events | intros _].
    apply aborts_bind_r. now apply covid_block_aborts.
  - apply aborts_bind_l; [apply (Up GetEarthquakes); [simpl; lia|];
                          apply earthquakes_block_events | intros _].
    apply aborts_bind_l; [apply (Up GetCovid); [simpl; lia|];
                          apply covid_block_events | intros _].
    apply aborts_bind_r. now apply air_quality_block_aborts.
  - apply aborts_bind_l; [apply (Up GetEarthquakes); [simpl; lia|];
                          apply earthquakes_block_events | intros _].
    apply aborts_bind_l; [apply (Up GetCovid); [simpl; lia|];
                          apply covid_block_events | intros _].
    apply aborts_bind_l; [apply (Up GetAirQuality); [simpl; lia|];
                          apply air_quality_block_events | intros _].
    now apply news_block_aborts.
Qed.

Lemma app_aborts (f : fetcher) :
  rendered f = true ->
  selected (layer_of f) show_layers = true ->
  http_failed W (endpoint city f) ->
  aborts (up_to f) (app W city show_layers).
Proof.
  intros Hr Hs H. unfold app.
  apply aborts_bind_l; [|intros _].
  - eapply emits_impl; [|apply (page_head_events W city show_layers GetEarthquakes)].
    apply block_event_up_to. destruct f; simpl; lia.
  - apply aborts_bind_r. now apply graphs_section_aborts.
Qed.

End FetchFails.

(** *** The status code is never looked at *)

Lemma bind_ext {A B} (m1 m2 : M A) (f1 f2 : A -> M B) (g : list str) :
  m1 g = m2 g ->
  (forall a g', f1 a g' = f2 a g') ->
  bind m1 f1 g = bind m2 f2 g.
Proof.
  intros Hm Hf. unfold bind. rewrite Hm.
  destruct (res (m2 g)); [now rewrite Hf | reflexivity].
Qed.

Section Restatus.

Variables (h : str -> Z -> Z) (W : World).

Lemma get_json_restatus (url : str) (g : list str) :
  get_json (restatus h W) url g = get_json W url g.
Proof.
  unfold get_json. apply bind_ext; [reflexivity | intros _ g'].
  unfold restatus; simpl.
  destruct (requests_get W url) as [|status [v|e]]; reflexivity.
Qed.

Lemma fetch_restatus (f : fetcher) (url : str) (g : list str) :
  (emit (Call f) ;; get_json (restatus h W) url) g
  = (emit (Call f) ;; get_json W url) g.
Proof. apply bind_ext; [reflexivity | intros; apply get_json_restatus]. Qed.

Lemma app_restatus (city : str) (show_layers : list str) (g : list str) :
  app (restatus h W) city show_layers g = app W city show_layers g.
Proof.
  unfold app.
  apply bind_ext; [reflexivity | intros _ g1].
  apply bind_ext; [|reflexivity].
  unfold graphs_section.
  apply bind_ext; [|intros _ g2; apply bind_ext; [|intros _ g3; apply bind_ext;
                                                     [|intros _ g4]]].
  - unfold earthquakes_block.
    destruct (selected (lit "Earthquakes") show_layers); [|reflexivity].
    apply bind_ext; [apply fetch_restatus | reflexivity].
  - unfold covid_block.
    destruct (selected (lit "COVID-19") show_layers); [|reflexivity].
    apply bind_ext; [apply fetch_restatus | reflexivity].
  - unfold air_quality_block.
    destruct (selected (lit "Air Quality") show_layers); [|reflexivity].
    apply bind_ext; [apply fetch_restatus | reflexivity].
  - unfold news_block.
    destruct (selected (lit "News") show_layers); [|reflexivity].
    apply bind_ext; [apply fetch_restatus | reflexivity].
Qed.

End Restatus.

(** *** Selections without one layer *)

Lemma selected_without_same (name : str) (show_layers : list str) :
  selected name (without name show_layers) = false.
Proof.
  destruct (selected name (without name show_layers)) eqn:E; [|reflexivity].
  apply selected_In in E. unfold without in E.
  apply filter_In in E as [_ E]. now rewrite str_eqb_refl in E.
Qed.

Lemma selected_without_other (name other : str) (show_layers : list str) :
  other <> name ->
  selected other (without name show_layers) = selected other show_layers.
Proof.
  intro N. apply selected_ext. unfold without. rewrite filter_In.
  split; [tauto|]. intro H. split; [exact H|].
  destruct (str_eqb other name) eqn:E; [|reflexivity].
  apply str_eqb_eq in E. contradiction.
Qed.

(* ================================================================= *)
(** * Further properties of the script *)

Unset Implicit Arguments.

(* ================================================================= *)
(** ** Running a computation step by step *)

Lemma bind_step {A B} (m : M A) (f : A -> M B) (g g' : list str)
      (evs : list event) (a : A) :
  m g = mk_outcome evs g' (Ok a) -> bind m f g = prepend evs (f a g').
Proof. intro H. unfold bind. rewrite H. reflexivity. Qed.

Lemma bind_stop {A B} (m : M A) (f : A -> M B) (g g' : list str)
      (evs : list event) (e : exn) :
  m g = mk_outcome evs g' (Raise e) -> bind m f g = mk_outcome evs g' (Raise e).
Proof. intro H. unfold bind. rewrite H. reflexivity. Qed.

Lemma bind_lift_Ok {A B} (a : A) (f : A -> M B) (g : list str) :
  bind (lift (Ok a)) f g = f a g.
Proof. apply bind_ret_l. Qed.

Lemma bind_lift_Raise {A B} (e : exn) (f : A -> M B) (g : list str) :
  bind (lift (@Raise A e)) f g = mk_outcome [] g (Raise e).
Proof. reflexivity. Qed.

Lemma prepend_nil {A} (o : outcome A) : prepend [] o = o.
Proof. now destruct o. Qed.

Lemma prepend_prepend {A} (a b : list event) (o : outcome A) :
  prepend a (prepend b o) = prepend (a ++ b) o.
Proof. unfold prepend; simpl. now rewrite app_assoc. Qed.

Lemma st_shown (W : World) (w : widget) (g : list str) :
  st_raises W w = None -> st W w g = mk_outcome [Display w] g (Ok tt).
Proof. intro H. unfold st, check, bind. now rewrite H. Qed.

Lemma st_refused (W : World) (w : widget) (g : list str) (e : exn) :
  st_raises W w = Some e -> st W w g = mk_outcome [] g (Raise e).
Proof. intro H. unfold st, check, bind. now rewrite H. Qed.

Lemma bind_st_shown {B} (W : World) (w : widget) (f : unit -> M B) (g : list str) :
  st_raises W w = None -> bind (st W w) f g = prepend [Display w] (f tt g).
Proof. intro H. apply bind_step with (g' := g). now apply st_shown. Qed.

Lemma getitem_found (k : str) (d : list (str * value)) (x : value) :
  lookup k d = Some x -> getitem (VDict d) k = Ok x.
Proof. unfold getitem. now intros ->. Qed.

Lemma getitem_missing (k : str) (d : list (str * value)) :
  lookup k d = None -> getitem (VDict d) k = Raise KeyError.
Proof. unfold getitem. now intros ->. Qed.

Lemma contains_found (k : str) (d : list (str * value)) (x : value) :
  lookup k d = Some x -> contains k (VDict d) = Ok true.
Proof. unfold contains. now intros ->. Qed.

(** What a fetcher with one request does. *)
Lemma fetch_outcome (W : World) (f : fetcher) (url : str) (g : list str) :
  (emit (Call f) ;; get_json W url) g
  = mk_outcome [Call f; HttpGet url] g (json_of W url).
Proof.
  unfold get_json, json_of, bind, emit; simpl.
  destruct (requests_get W url) as [|status [v|e]]; reflexivity.
Qed.

Lemma fetch_body (W : World) (f : fetcher) (url : str) (g : list str)
      (status : Z) (v : value) :
  requests_get W url = Response status (Ok v) ->
  (emit (Call f) ;; get_json W url) g = mk_outcome [Call f; HttpGet url] g (Ok v).
Proof. intro H. rewrite fetch_outcome. unfold json_of. now rewrite H. Qed.

(* ================================================================= *)
(** ** The COVID-19 block (lines 98-103) *)

(** X1: when the disease feed answers with an object whose ["cases"] and
    ["deaths"] are integers (and Streamlit takes the three elements), the
    block shows the subheader and the two metrics and appends exactly one
    entry, with both counts written with thousands separators. *)
Theorem covid_block_integer_counts
        (W : World) (show_layers g : list str) (status : Z)
        (d : list (str * value)) (cases deaths : Z)
        (Hsel : In (lit "COVID-19") show_layers)
        (Hresp : requests_get W covid_url = Response status (Ok (VDict d)))
        (Hcases : lookup (lit "cases") d = Some (VInt cases))
        (Hdeaths : lookup (lit "deaths") d = Some (VInt deaths))
        (Hsub : st_raises W (Subheader (129440%N :: lit " Global COVID-19 Snapshot")) = None)
        (Hm1 : st_raises W (Metric (lit "Cases") (VInt cases)) = None)
        (Hm2 : st_raises W (Metric (lit "Deaths") (VInt deaths)) = None) :
  covid_block W show_layers g
  = mk_outcome
      [Call GetCovid; HttpGet covid_url;
       Display (Subheader (129440%N :: lit " Global COVID-19 Snapshot"));
       Display (Metric (lit "Cases") (VInt cases));
       Display (Metric (lit "Deaths") (VInt deaths))]
      (g ++ [lit "Global COVID-19 cases " ++ format_int_comma cases
             ++ lit ", deaths " ++ format_int_comma deaths ++ lit "."])
      (Ok tt).
Proof.
  apply selected_In in Hsel. unfold covid_block. rewrite Hsel.
  unfold get_covid.
  rewrite (bind_step _ _ _ _ _ _ (fetch_body W GetCovid _ g _ _ Hresp)).
  cbn beta.
  rewrite bind_st_shown by exact Hsub.
  rewrite !(getitem_found _ _ _ Hcases), !(getitem_found _ _ _ Hdeaths).
  rewrite bind_lift_Ok, bind_st_shown by exact Hm1.
  rewrite bind_lift_Ok, bind_st_shown by exact Hm2.
  rewrite bind_lift_Ok. cbn [format_comma]. rewrite !bind_lift_Ok.
  cbn [format_comma]. rewrite bind_lift_Ok.
  reflexivity.
Qed.

Lemma covid_block_integer_counts_witness :
  covid_block Sample.all_up [lit "COVID-19"] []
  = mk_outcome
      [Call GetCovid; HttpGet covid_url;
       Display (Subheader (129440%N :: lit " Global COVID-19 Snapshot"));
       Display (Metric (lit "Cases") (VInt 1234567));
       Display (Metric (lit "Deaths") (VInt 10))]
      ([] ++ [lit "Global COVID-19 cases " ++ format_int_comma 1234567
              ++ lit ", deaths " ++ format_int_comma 10 ++ lit "."])
      (Ok tt).
Proof.
  apply (covid_block_integer_counts Sample.all_up [lit "COVID-19"] [] 200
           [(lit "cases", VInt 1234567); (lit "deaths", VInt 10)]);
    try (vm_compute; reflexivity).
  simpl. auto.
Defined.

(* ================================================================= *)
(** ** The counts of the COVID-19 sentence ([{...:,}], line 103) *)

Lemma pos_lt_pow2_size (p : positive) :
  (N.pos p < 2 ^ N.of_nat (Pos.size_nat p))%N.
Proof.
  induction p as [p IH|p IH|]; cbn [Pos.size_nat];
    rewrite ?Nat2N.inj_succ, ?N.pow_succ_r'; lia.
Qed.

Lemma N_lt_pow2_size (n : N) : (n < 2 ^ N.of_nat (N.size_nat n))%N.
Proof. destruct n as [|p]; [reflexivity | apply pos_lt_pow2_size]. Qed.

Lemma last_cons_nonempty {A} (a d : A) (l : list A) :
  l <> [] -> last (a :: l) d = last l d.
Proof. destruct l; [congruence | reflexivity]. Qed.

Lemma digits_rev_S (fuel : nat) (n : N) :
  digits_rev (S fuel) n
  = if (n <? 10)%N then [n] else (n mod 10)%N :: digits_rev fuel (n / 10)%N.
Proof. reflexivity. Qed.

Lemma digits_rev_value (fuel : nat) (n : N) :
  (n < 2 ^ N.of_nat fuel)%N ->
  digits_value (digits_rev (S fuel) n) = n /\
  Forall (fun d => (d < 10)%N) (digits_rev (S fuel) n) /\
  (n <> 0%N -> last (digits_rev (S fuel) n) 0%N <> 0%N) /\
  digits_rev (S fuel) n <> [].
Proof.
  revert n. induction fuel as [|fuel IH]; intros n Hn.
  - assert (n = 0%N) by (cbn in Hn; lia). subst n.
    cbn. repeat split; try (repeat constructor); try discriminate. lia.
  - rewrite digits_rev_S. destruct (n <? 10)%N eqn:E.
    + apply N.ltb_lt in E. cbn. repeat split; try discriminate; try lia.
      repeat constructor. exact E.
    + apply N.ltb_ge in E.
      assert (Hq : (n / 10 < 2 ^ N.of_nat fuel)%N).
      { rewrite Nat2N.inj_succ, N.pow_succ_r' in Hn.
        apply N.Div0.div_lt_upper_bound. lia. }
      destruct (IH _ Hq) as (V & F & L & NE).
      cbn [digits_value]. rewrite V. repeat split.
      * pose proof (N.Div0.div_mod n 10). lia.
      * constructor; [apply N.mod_lt; lia | exact F].
      * intros _. rewrite last_cons_nonempty by exact NE. apply L.
        intro Z0. apply N.div_small_iff in Z0; lia.
      * discriminate.
Qed.

Lemma decimal_rev_spec (n : N) :
  digits_value (decimal_rev n) = n /\
  Forall (fun d => (d < 10)%N) (decimal_rev n) /\
  (n <> 0%N -> last (decimal_rev n) 0%N <> 0%N) /\
  decimal_rev n <> [].
Proof. unfold decimal_rev. apply digits_rev_value, N_lt_pow2_size. Qed.

Lemma digit_char_not_comma (d : N) : is_comma (digit_char d) = false.
Proof. unfold is_comma, digit_char. apply N.eqb_neq. lia. Qed.

Lemma group3_without_commas (ds : list N) (k : nat) :
  filter (fun c => negb (is_comma c)) (group3 ds k) = map digit_char ds.
Proof.
  revert k. induction ds as [|d ds IH]; intro k; [reflexivity|].
  cbn [group3]. destruct (Nat.eqb k 3); cbn [filter map];
    rewrite ?digit_char_not_comma; cbn [negb is_comma N.eqb filter];
    now rewrite IH.
Qed.

(** Counted from the right, the commas stand at the places 3, 7, 11, ... *)
Lemma group3_comma_places (ds : list N) (k i : nat) :
  k <= 3 ->
  (nth_error (group3 ds k) i = Some 44%N <->
   (i + k) mod 4 = 3 /\ i < length (group3 ds k)).
Proof.
  revert k i. induction ds as [|d ds IH]; intros k i Hk.
  - cbn. destruct i; split; try discriminate; intros [_ H]; inversion H.
  - cbn [group3]. destruct (Nat.eqb k 3) eqn:E.
    + apply Nat.eqb_eq in E. subst k.
      destruct i as [|[|j]]; cbn [nth_error length].
      * split; [intros _; split; [reflexivity | lia] | reflexivity].
      * split.
        -- intro H. injection H as H.
           pose proof (digit_char_not_comma d) as C. unfold is_comma in C.
           rewrite H in C. discriminate C.
        -- intros [H _]. cbn in H. discriminate H.
      * rewrite (IH 1 j) by lia.
        replace ((S (S j) + 3) mod 4) with ((j + 1) mod 4)
          by (replace (S (S j) + 3) with (j + 1 + 1 * 4) by lia;
              now rewrite Nat.Div0.mod_add).
        split; intros [H1 H2]; split; auto; lia.
    + apply Nat.eqb_neq in E.
      destruct i as [|j]; cbn [nth_error length].
      * split.
        -- intro H. injection H as H.
           pose proof (digit_char_not_comma d) as C. unfold is_comma in C.
           rewrite H in C. discriminate C.
        -- intros [H _]. rewrite Nat.mod_small in H by lia. cbn in H. lia.
      * rewrite (IH (S k) j) by lia.
        replace (S j + k) with (j + S k) by lia.
        split; intros [H1 H2]; split; auto; lia.
Qed.

(** The leftmost character is the leading digit, never a comma. *)
Lemma group3_leading_digit (ds : list N) (d : N) (k : nat) :
  exists pre, group3 (ds ++ [d]) k = pre ++ [digit_char d].
Proof.
  revert k. induction ds as [|x ds IH]; intro k.
  - cbn. destruct (Nat.eqb k 3); [now exists [44%N] | now exists []].
  - rewrite <- app_comm_cons. cbn [group3]. destruct (Nat.eqb k 3).
    + destruct (IH 1) as [pre ->]. now exists (44%N :: digit_char x :: pre).
    + destruct (IH (S k)) as [pre ->]. now exists (digit_char x :: pre).
Qed.

Lemma group3_length (ds : list N) (k : nat) :
  k <= 3 -> length (group3 ds k) = length ds + (length ds + k - 1) / 3.
Proof.
  revert k. induction ds as [|d ds IH]; intros k Hk.
  - cbn [group3 length]. symmetry. apply Nat.div_small. lia.
  - cbn [group3]. destruct (Nat.eqb k 3) eqn:E.
    + apply Nat.eqb_eq in E. subst k. cbn [length]. rewrite (IH 1) by lia.
      replace (S (length ds) + 3 - 1) with (length ds + 1 * 3) by lia.
      rewrite Nat.div_add by lia.
      replace (length ds + 1 - 1) with (length ds) by lia. lia.
    + apply Nat.eqb_neq in E. cbn [length]. rewrite (IH (S k)) by lia.
      replace (S (length ds) + k - 1) with (length ds + S k - 1) by lia. lia.
Qed.

(** X2: what [{n:,}] prints for an integer [n] (line 103).  The digits are
    the decimal digits of [|n|], without a leading zero; deleting the
    commas leaves the plain numeral (sign, then digits); counted from the
    right the commas stand exactly at the places 3, 7, 11, ... inside the
    digit part; and the first character after the sign is the leading
    digit. *)
Theorem format_int_comma_is_grouped_decimal (z : Z) :
  let ds := decimal_rev (Z.abs_N z) in
  let sign := if (z <? 0)%Z then [45%N] else [] in
  digits_value ds = Z.abs_N z /\
  Forall (fun d => (d < 10)%N) ds /\
  (z <> 0%Z -> last ds 0%N <> 0%N) /\
  filter (fun c => negb (is_comma c)) (format_int_comma z)
  = sign ++ map digit_char (rev ds) /\
  (forall i, nth_error (rev (format_int_comma z)) i = Some 44%N <->
             i mod 4 = 3 /\ i < length ds + (length ds - 1) / 3) /\
  (exists rest, format_int_comma z = sign ++ digit_char (last ds 0%N) :: rest).
Proof.
  intros ds sign.
  destruct (decimal_rev_spec (Z.abs_N z)) as (V & F & L & NE). fold ds in V, F, L, NE.
  split; [exact V|]. split; [exact F|]. split; [intro Hz; apply L; lia|].
  unfold format_int_comma. fold ds sign.
  split; [|split].
  - rewrite filter_app, filter_rev, group3_without_commas, map_rev.
    f_equal. subst sign. now destruct (z <? 0)%Z.
  - intro i. rewrite rev_app_distr, rev_involutive.
    pose proof (group3_length ds 0 (Nat.le_0_l 3)) as Len.
    replace (length ds + 0 - 1) with (length ds - 1) in Len by lia.
    rewrite <- Len.
    destruct (Nat.lt_ge_cases i (length (group3 ds 0))) as [Hi|Hi].
    + rewrite nth_error_app1 by exact Hi.
      rewrite (group3_comma_places ds 0 i) by lia.
      now rewrite Nat.add_0_r.
    + rewrite nth_error_app2 by exact Hi.
      split; [|intros [_ H]; lia].
      intro H. apply nth_error_In in H.
      subst sign. destruct (z <? 0)%Z; cbn in H; [|contradiction].
      destruct H as [H|[]]. discriminate H.
  - destruct (exists_last NE) as (front & d & E).
    rewrite E, last_last.
    destruct (group3_leading_digit front d 0) as [pre ->].
    rewrite rev_app_distr. cbn [rev app]. now exists (rev pre).
Qed.

(* ================================================================= *)
(** ** A render block that raises ends the cycle *)

Lemma graphs_section_aborts_at (W : World) (city : str) (show_layers : list str)
      (f : fetcher) :
  rendered f = true ->
  aborts (up_to f) (render_block W city show_layers f) ->
  aborts (up_to f) (graphs_section W city show_layers).
Proof.
  intros Hr Hb. unfold graphs_section.
  assert (Up : forall f0 (m : M unit),
             order f0 <= order f ->
             emits (block_event city show_layers f0) m -> emits (up_to f) m).
  { intros f0 m Hle Hm. eapply emits_impl; [|exact Hm].
    now apply block_event_up_to. }
  destruct f; try discriminate Hr; cbn [render_block] in Hb.
  - now apply aborts_bind_r.
  - apply aborts_bind_l; [apply (Up GetEarthquakes); [simpl; lia|];
                          apply earthquakes_block_events | intros _].
    now apply aborts_bind_r.
  - apply aborts_bind_l; [apply (Up GetEarthquakes); [simpl; lia|];
                          apply earthquakes_block_events | intros _].
    apply aborts_bind_l; [apply (Up GetCovid); [simpl; lia|];
                          apply covid_block_events | intros _].
    now apply aborts_bind_r.
  - apply aborts_bind_l; [apply (Up GetEarthquakes); [simpl; lia|];
                          apply earthquakes_block_events | intros _].
    apply aborts_bind_l; [apply (Up GetCovid); [simpl; lia|];
                          apply covid_block_events | intros _].
    apply aborts_bind_l; [apply (Up GetAirQuality); [simpl; lia|];
                          apply air_quality_block_events | intros _].
    exact Hb.
Qed.

(** If the block of [f] raises from every [graphs], after events of its
    own, the cycle raises too: no later fetcher, no summary. *)
Lemma cycle_aborts_at (W : World) (city : str) (show_layers : list str)
      (f : fetcher) :
  rendered f = true ->
  aborts (up_to f) (render_block W city show_layers f) ->
  (exists e, res (cycle W city show_layers) = Raise e) /\
  (forall f', order f < order f' ->
              ~ In (Call f') (events (cycle W city show_layers))) /\
  summarizer_inputs (events (cycle W city show_layers)) = [] /\
  panels (events (cycle W city show_layers)) = [].
Proof.
  intros Hr Hb.
  assert (A : aborts (up_to f) (app W city show_layers)).
  { unfold app. apply aborts_bind_l; [|intros _].
    - eapply emits_impl;
        [|apply (page_head_events W city show_layers GetEarthquakes)].
      apply block_event_up_to. destruct f; simpl; lia.
    - apply aborts_bind_r. now apply graphs_section_aborts_at. }
  destruct (A []) as [R F]. fold (cycle W city show_layers) in R, F.
  split; [exact R|]. split.
  - intros f' Hlt Hc. rewrite Forall_forall in F. apply F in Hc. simpl in Hc. lia.
  - apply quiet_no_summary. eapply Forall_impl; [|exact F]. apply up_to_quiet.
Qed.

(** X3: an answer of the disease feed without ["cases"] is not passed
    over: the COVID-19 block shows its subheader and then raises
    [KeyError] (line 101), nothing is appended to [graphs], and the cycle
    ends there: Air Quality and News are not fetched and nothing is
    summarized. *)
Theorem covid_block_missing_cases
        (W : World) (city : str) (show_layers : list str) (status : Z)
        (d : list (str * value))
        (Hsel : In (lit "COVID-19") show_layers)
        (Hresp : requests_get W covid_url = Response status (Ok (VDict d)))
        (Hcases : lookup (lit "cases") d = None)
        (Hsub : st_raises W (Subheader (129440%N :: lit " Global COVID-19 Snapshot")) = None) :
  (forall g,
      covid_block W show_layers g
      = mk_outcome
          [Call GetCovid; HttpGet covid_url;
           Display (Subheader (129440%N :: lit " Global COVID-19 Snapshot"))]
          g (Raise KeyError)) /\
  (exists e, res (cycle W city show_layers) = Raise e) /\
  ~ In (Call GetAirQuality) (events (cycle W city show_layers)) /\
  ~ In (Call GetNews) (events (cycle W city show_layers)) /\
  summarizer_inputs (events (cycle W city show_layers)) = [] /\
  panels (events (cycle W city show_layers)) = [].
Proof.
  apply selected_In in Hsel.
  assert (B : forall g,
             covid_block W show_layers g
             = mk_outcome
                 [Call GetCovid; HttpGet covid_url;
                  Display (Subheader (129440%N :: lit " Global COVID-19 Snapshot"))]
                 g (Raise KeyError)).
  { intro g. unfold covid_block. rewrite Hsel. unfold get_covid.
    rewrite (bind_step _ _ _ _ _ _ (fetch_body W GetCovid _ g _ _ Hresp)).
    cbn beta. rewrite bind_st_shown by exact Hsub.
    rewrite (getitem_missing _ _ Hcases). reflexivity. }
  split; [exact B|].
  destruct (cycle_aborts_at W city show_layers GetCovid eq_refl) as (R & Later & S1 & S2).
  { intro g. cbn [render_block]. rewrite B. cbn [res events].
    split; [now exists KeyError|]. repeat constructor. }
  split; [exact R|].
  split; [apply Later; simpl; lia|].
  split; [apply Later; simpl; lia|].
  split; assumption.
Qed.

Lemma covid_block_missing_cases_witness :
  (forall g,
      covid_block Sample.covid_without_cases [lit "COVID-19"; lit "News"] g
      = mk_outcome
          [Call GetCovid; HttpGet covid_url;
           Display (Subheader (129440%N :: lit " Global COVID-19 Snapshot"))]
          g (Raise KeyError)) /\
  (exists e, res (cycle Sample.covid_without_cases Sample.city
                        [lit "COVID-19"; lit "News"]) = Raise e) /\
  ~ In (Call GetAirQuality)
       (events (cycle Sample.covid_without_cases Sample.city
                      [lit "COVID-19"; lit "News"])) /\
  ~ In (Call GetNews)
       (events (cycle Sample.covid_without_cases Sample.city
                      [lit "COVID-19"; lit "News"])) /\
  summarizer_inputs (events (cycle Sample.covid_without_cases Sample.city
                                   [lit "COVID-19"; lit "News"])) = [] /\
  panels (events (cycle Sample.covid_without_cases Sample.city
                        [lit "COVID-19"; lit "News"])) = [].
Proof.
  apply (covid_block_missing_cases Sample.covid_without_cases Sample.city
           [lit "COVID-19"; lit "News"] 404
           [(lit "message", VStr (lit "Not Found"))]);
    try (vm_compute; reflexivity).
  simpl. auto.
Defined.

(* ================================================================= *)
(** ** The Earthquakes block (lines 68-95) *)

Lemma bind_lift_inv {A B} (r : result A) (f : A -> M B) (g : list str) (b : B) :
  res (bind (lift r) f g) = Ok b ->
  exists a, r = Ok a /\ bind (lift r) f g = f a g.
Proof.
  destruct r as [a|e]; [|discriminate].
  intros _. exists a. split; [reflexivity | apply bind_lift_Ok].
Qed.

(** Inverts one [x <- lift r ;; ...] of a run that ended normally. *)
Ltac lift_inv H :=
  let a := fresh "a" in
  let E := fresh "E" in
  let Q := fresh "Q" in
  destruct (bind_lift_inv _ _ _ _ H) as (a & E & Q);
  rewrite Q in H |- *; clear Q; cbn beta in H |- *.

Lemma quake_row_of_inv (W : World) (f : value) (g : list str) (row : quake_row) :
  res (quake_row_of W f g) = Ok row ->
  feature_row W f row /\ quake_row_of W f g = mk_outcome [] g (Ok row).
Proof.
  unfold quake_row_of. intro H.
  do 14 (lift_inv H).
  cbn in H. injection H as <-. split; [|reflexivity].
  unfold feature_row. cbn [place mag time lat lon].
  assert (a1 = a) by congruence. assert (a3 = a) by congruence.
  assert (a10 = a7) by congruence. subst a1 a3 a10.
  assert (a11 = a8) by congruence. subst a11.
  exists a, a7, a8, a4, a5. repeat split; assumption.
Qed.


(** A comprehension whose body is silent and leaves [graphs] alone. *)
Lemma mapM_inv {A B} (R : A -> B -> Prop) (f : A -> M B) (l : list A)
      (g : list str) (ys : list B) :
  (forall x y, res (f x g) = Ok y -> R x y /\ f x g = mk_outcome [] g (Ok y)) ->
  res (mapM f l g) = Ok ys ->
  Forall2 R l ys /\ mapM f l g = mk_outcome [] g (Ok ys).
Proof.
  intro Hf. revert ys. induction l as [|x l IH]; intros ys H.
  - cbn in H. injection H as <-. split; [constructor | reflexivity].
  - cbn [mapM] in H |- *.
    apply bind_Ok_inv in H as H1. destruct H1 as (y & Hy & _).
    destruct (Hf _ _ Hy) as (Rxy & Ey).
    rewrite (bind_step _ _ _ _ _ _ Ey), prepend_nil in H |- *. cbn beta in H |- *.
    apply bind_Ok_inv in H as H2. destruct H2 as (ys' & Hys & _).
    destruct (IH _ Hys) as (Rl & El).
    rewrite (bind_step _ _ _ _ _ _ El), prepend_nil in H |- *. cbn beta in H |- *.
    cbn in H. injection H as <-.
    split; [now constructor | reflexivity].
Qed.


Lemma st_Ok_inv (W : World) (w : widget) (g : list str) :
  res (st W w g) = Ok tt -> st_raises W w = None.
Proof.
  unfold st, check, bind. destruct (st_raises W w); [discriminate | reflexivity].
Qed.

Lemma bind_st_inv {B} (W : World) (w : widget) (f : unit -> M B) (g : list str)
      (b : B) :
  res (bind (st W w) f g) = Ok b ->
  st_raises W w = None /\ bind (st W w) f g = prepend [Display w] (f tt g).
Proof.
  intro H. apply bind_Ok_inv in H as H1. destruct H1 as ([] & Hs & _).
  apply st_Ok_inv in Hs. split; [exact Hs | now apply bind_st_shown].
Qed.

Lemma pd_DataFrame_ok (W : World) (df : DataFrame) (g : list str) :
  pd_raises W df = None -> pd_DataFrame W df g = mk_outcome [] g (Ok df).
Proof. intro H. unfold pd_DataFrame, check, bind. now rewrite H. Qed.

Lemma pd_DataFrame_refused (W : World) (df : DataFrame) (g : list str) (e : exn) :
  pd_raises W df = Some e -> pd_DataFrame W df g = mk_outcome [] g (Raise e).
Proof. intro H. unfold pd_DataFrame, check, bind. now rewrite H. Qed.

Lemma res_prepend {A} (evs : list event) (o : outcome A) :
  res (prepend evs o) = res o.
Proof. reflexivity. Qed.

(** X4: when the Earthquakes block ends normally on an answer with a
    ["features"] field, the map has one row per feature, in the order of
    the feed, each built from that feature alone, with [lat] taken from
    [coordinates[1]] and [lon] from [coordinates[0]]; and the one fixed
    sentence is appended to [graphs]. *)
Theorem earthquakes_block_rows
        (W : World) (show_layers g : list str) (status : Z)
        (d : list (str * value)) (feats : value)
        (Hsel : In (lit "Earthquakes") show_layers)
        (Hresp : requests_get W earthquakes_url = Response status (Ok (VDict d)))
        (Hfeats : lookup (lit "features") d = Some feats)
        (Hdone : res (earthquakes_block W show_layers g) = Ok tt) :
  exists fs rows,
    iter feats = Ok fs /\
    Forall2 (feature_row W) fs rows /\
    length rows = length fs /\
    earthquakes_block W show_layers g
    = mk_outcome
        [Call GetEarthquakes; HttpGet earthquakes_url;
         Display (Subheader (127755%N :: lit " Earthquakes (Past 24 Hours)"));
         Display (PydeckChart (DataFrame_of_quakes rows))]
        (g ++ [earthquake_digest]) (Ok tt).
Proof.
  apply selected_In in Hsel. unfold earthquakes_block in *. rewrite Hsel in *.
  unfold get_earthquakes in *.
  rewrite (bind_step _ _ _ _ _ _ (fetch_body W GetEarthquakes _ g _ _ Hresp)) in *.
  cbn beta in *. rewrite res_prepend in Hdone.
  rewrite (getitem_found _ _ _ Hfeats), bind_lift_Ok in *.
  lift_inv Hdone. rename a into fs. exists fs.
  apply bind_Ok_inv in Hdone as H1. destruct H1 as (rows & Hrows & _).
  destruct (mapM_inv (feature_row W) (quake_row_of W) fs g rows
              (fun x y => quake_row_of_inv W x g y) Hrows) as (F & Em).
  exists rows. split; [assumption|]. split; [exact F|].
  split; [symmetry; eapply Forall2_length; exact F|].
  rewrite (bind_step _ _ _ _ _ _ Em), prepend_nil in Hdone.
  rewrite (bind_step _ _ _ _ _ _ Em), prepend_nil.
  cbn beta in Hdone |- *.
  destruct (pd_raises W (DataFrame_of_quakes rows)) as [e|] eqn:P.
  { rewrite (bind_stop _ _ _ _ _ _ (pd_DataFrame_refused W _ g e P)) in Hdone.
    discriminate Hdone. }
  rewrite (bind_step _ _ _ _ _ _ (pd_DataFrame_ok W _ g P)), prepend_nil in Hdone.
  rewrite (bind_step _ _ _ _ _ _ (pd_DataFrame_ok W _ g P)), prepend_nil.
  cbn beta in Hdone |- *.
  destruct (bind_st_inv _ _ _ _ _ Hdone) as (_ & Q).
  rewrite Q in Hdone. rewrite Q. clear Q.
  rewrite res_prepend in Hdone.
  destruct (bind_st_inv _ _ _ _ _ Hdone) as (_ & Q). rewrite Q. clear Q.
  reflexivity.
Qed.

Lemma earthquakes_block_rows_witness :
  exists fs rows,
    iter (VList [VDict [(lit "properties",
                         VDict [(lit "place", VStr (lit "Fiji"));
                                (lit "mag", VInt 5);
                                (lit "time", VInt 1700000000000)]);
                        (lit "geometry",
                         VDict [(lit "coordinates",
                                 VList [VInt 178; VInt (-17); VInt 10])])]])
    = Ok fs /\
    Forall2 (feature_row Sample.all_up) fs rows /\
    length rows = length fs /\
    earthquakes_block Sample.all_up [lit "Earthquakes"] []
    = mk_outcome
        [Call GetEarthquakes; HttpGet earthquakes_url;
         Display (Subheader (127755%N :: lit " Earthquakes (Past 24 Hours)"));
         Display (PydeckChart (DataFrame_of_quakes rows))]
        ([] ++ [earthquake_digest]) (Ok tt).
Proof.
  apply (earthquakes_block_rows Sample.all_up [lit "Earthquakes"] [] 200
           [(lit "features",
             VList [VDict [(lit "properties",
                            VDict [(lit "place", VStr (lit "Fiji"));
                                   (lit "mag", VInt 5);
                                   (lit "time", VInt 1700000000000)]);
                           (lit "geometry",
                            VDict [(lit "coordinates",
                                    VList [VInt 178; VInt (-17); VInt 10])])]])]);
    try (vm_compute; reflexivity).
  simpl. auto.
Defined.



(** X6: an answer of the seismic feed without ["features"] makes the
    Earthquakes block raise [KeyError] (line 78) before anything of the
    layer is shown; the cycle ends there: no other layer is fetched and
    nothing is summarized. *)
Theorem earthquakes_block_missing_features
        (W : World) (city : str) (show_layers : list str) (status : Z)
        (d : list (str * value))
        (Hsel : In (lit "Earthquakes") show_layers)
        (Hresp : requests_get W earthquakes_url = Response status (Ok (VDict d)))
        (Hfeats : lookup (lit "features") d = None) :
  (forall g,
      earthquakes_block W show_layers g
      = mk_outcome [Call GetEarthquakes; HttpGet earthquakes_url] g (Raise KeyError)) /\
  (exists e, res (cycle W city show_layers) = Raise e) /\
  (forall f', f' <> GetEarthquakes ->
              ~ In (Call f') (events (cycle W city show_layers))) /\
  summarizer_inputs (events (cycle W city show_layers)) = [] /\
  panels (events (cycle W city show_layers)) = [].
Proof.
  apply selected_In in Hsel.
  assert (B : forall g,
             earthquakes_block W show_layers g
             = mk_outcome [Call GetEarthquakes; HttpGet earthquakes_url] g
                          (Raise KeyError)).
  { intro g. unfold earthquakes_block. rewrite Hsel. unfold get_earthquakes.
    rewrite (bind_step _ _ _ _ _ _ (fetch_body W GetEarthquakes _ g _ _ Hresp)).
    cbn beta. rewrite (getitem_missing _ _ Hfeats). reflexivity. }
  split; [exact B|].
  destruct (cycle_aborts_at W city show_layers GetEarthquakes eq_refl)
    as (R & Later & S1 & S2).
  { intro g. cbn [render_block]. rewrite B. cbn [res events].
    split; [now exists KeyError|]. repeat constructor. }
  split; [exact R|]. split; [|split; assumption].
  intros f' Hne Hc.
  destruct f'; try (eapply Later; [|exact Hc]; simpl; lia).
  now elim Hne.
Qed.

Lemma earthquakes_block_missing_features_witness :
  (forall g,
      earthquakes_block Sample.seismic_error [lit "Earthquakes"; lit "News"] g
      = mk_outcome [Call GetEarthquakes; HttpGet earthquakes_url] g (Raise KeyError)) /\
  (exists e, res (cycle Sample.seismic_error Sample.city
                        [lit "Earthquakes"; lit "News"]) = Raise e) /\
  (forall f', f' <> GetEarthquakes ->
              ~ In (Call f') (events (cycle Sample.seismic_error Sample.city
                                            [lit "Earthquakes"; lit "News"]))) /\
  summarizer_inputs (events (cycle Sample.seismic_error Sample.city
                                   [lit "Earthquakes"; lit "News"])) = [] /\
  panels (events (cycle Sample.seismic_error Sample.city
                        [lit "Earthquakes"; lit "News"])) = [].
Proof.
  apply (earthquakes_block_missing_features Sample.seismic_error Sample.city
           [lit "Earthquakes"; lit "News"] 503
           [(lit "error", VStr (lit "unavailable"))]);
    try (vm_compute; reflexivity).
  simpl. auto.
Defined.

(* ================================================================= *)
(** ** The News block (lines 115-123) *)

Lemma lift_inv_run {A} (r : result A) (g : list str) (a : A) :
  res (lift r g) = Ok a -> r = Ok a /\ lift r g = mk_outcome [] g (Ok a).
Proof.
  destruct r as [x|e]; [|discriminate].
  cbn. intro H. injection H as <-. now split.
Qed.

(** X7: when the News block ends normally on an answer whose ["articles"]
    is a list, the chart holds the titles of the first ten articles at
    most, in the order of the feed (all of them when there are fewer), and
    the fixed sentence is appended to [graphs]. *)
Theorem news_block_first_ten_titles
        (W : World) (show_layers g : list str) (status : Z)
        (d : list (str * value)) (articles : list value)
        (Hsel : In (lit "News") show_layers)
        (Hresp : requests_get W news_url = Response status (Ok (VDict d)))
        (Harts : lookup (lit "articles") d = Some (VList articles))
        (Hdone : res (news_block W show_layers g) = Ok tt) :
  exists titles,
    Forall2 (fun a t => getitem a (lit "title") = Ok t) (firstn 10 articles) titles /\
    length titles = Nat.min 10 (length articles) /\
    news_block W show_layers g
    = mk_outcome
        [Call GetNews; HttpGet news_url;
         Display (Subheader (128240%N :: lit " Trending News Topics (Sample)"));
         Display (AltairChart (DataFrame_of_topics titles))]
        (g ++ [news_digest]) (Ok tt).
Proof.
  apply selected_In in Hsel. unfold news_block in Hdone |- *.
  rewrite Hsel in Hdone |- *. unfold get_news in Hdone |- *.
  rewrite (bind_step _ _ _ _ _ _ (fetch_body W GetNews _ g _ _ Hresp)) in Hdone.
  rewrite (bind_step _ _ _ _ _ _ (fetch_body W GetNews _ g _ _ Hresp)).
  cbn beta in Hdone |- *. rewrite res_prepend in Hdone.
  rewrite (contains_found _ _ _ Harts), bind_lift_Ok in Hdone.
  rewrite (contains_found _ _ _ Harts), bind_lift_Ok.
  cbn beta iota in Hdone |- *.
  rewrite (getitem_found _ _ _ Harts), bind_lift_Ok in Hdone.
  rewrite (getitem_found _ _ _ Harts), bind_lift_Ok.
  cbn [slice_to] in Hdone |- *. rewrite bind_lift_Ok in Hdone. rewrite bind_lift_Ok.
  cbn [iter] in Hdone |- *. rewrite bind_lift_Ok in Hdone. rewrite bind_lift_Ok.
  apply bind_Ok_inv in Hdone as H1. destruct H1 as (titles & Ht & _).
  destruct (mapM_inv (fun a t => getitem a (lit "title") = Ok t)
              (fun a => lift (getitem a (lit "title"))) (firstn 10 articles) g titles
              (fun x y => lift_inv_run _ g y) Ht) as (F & Em).
  exists titles. split; [exact F|].
  split; [rewrite <- (Forall2_length F); apply length_firstn|].
  rewrite (bind_step _ _ _ _ _ _ Em), prepend_nil in Hdone.
  rewrite (bind_step _ _ _ _ _ _ Em), prepend_nil.
  cbn beta in Hdone |- *.
  destruct (pd_raises W (DataFrame_of_topics titles)) as [e|] eqn:P.
  { rewrite (bind_stop _ _ _ _ _ _ (pd_DataFrame_refused W _ g e P)) in Hdone.
    discriminate Hdone. }
  rewrite (bind_step _ _ _ _ _ _ (pd_DataFrame_ok W _ g P)), prepend_nil in Hdone.
  rewrite (bind_step _ _ _ _ _ _ (pd_DataFrame_ok W _ g P)), prepend_nil.
  cbn beta in Hdone |- *.
  destruct (bind_st_inv _ _ _ _ _ Hdone) as (_ & Q).
  rewrite Q in Hdone. rewrite Q. clear Q.
  rewrite res_prepend in Hdone.
  destruct (bind_st_inv _ _ _ _ _ Hdone) as (_ & Q). rewrite Q. clear Q.
  reflexivity.
Qed.

Lemma news_block_first_ten_titles_witness :
  exists titles,
    Forall2 (fun a t => getitem a (lit "title") = Ok t)
            (firstn 10 Sample.twelve_articles) titles /\
    length titles = Nat.min 10 (length Sample.twelve_articles) /\
    news_block Sample.busy_news [lit "News"] []
    = mk_outcome
        [Call GetNews; HttpGet news_url;
         Display (Subheader (128240%N :: lit " Trending News Topics (Sample)"));
         Display (AltairChart (DataFrame_of_topics titles))]
        ([] ++ [news_digest]) (Ok tt).
Proof.
  apply (news_block_first_ten_titles Sample.busy_news [lit "News"] [] 200
           [(lit "articles", VList Sample.twelve_articles)]);
    try (vm_compute; reflexivity).
  simpl. auto.
Defined.

(* ================================================================= *)
(** ** The Air Quality block (lines 106-112) *)

(** X8: when the Air Quality layer is selected, the feed answers with an
    object whose ["results"] is a list with at least one station, the
    first station has ["measurements"], pandas builds the frame of these
    measurements, gives its ["value"] column indexed by ["parameter"] and
    lists its ["parameter"] column, and Streamlit accepts the subheader
    and the bar chart, then the block makes its one request, shows the
    subheader and the bar chart of the first station's measurements, and
    appends to [graphs] one sentence naming the city and the parameters
    listed. Only the first station is used: what the other stations hold
    does not matter. *)
Theorem air_quality_block_first_station
        (W : World) (city : str) (show_layers g : list str) (status : Z)
        (d : list (str * value)) (station : value) (others : list value)
        (measurements : value) (params : str)
        (Hsel : In (lit "Air Quality") show_layers)
        (Hresp : requests_get W (air_quality_url city) = Response status (Ok (VDict d)))
        (Hres : lookup (lit "results") d = Some (VList (station :: others)))
        (Hms : getitem station (lit "measurements") = Ok measurements)
        (Hpd : pd_raises W (DataFrame_of_value measurements) = None)
        (Hsub : st_raises W (Subheader ([127787%N; 65039%N] ++ lit " Air Quality in "
                                        ++ city)) = None)
        (Hidx : set_index_col_raises W (DataFrame_of_value measurements)
                                     (lit "parameter") (lit "value") = None)
        (Hbar : st_raises W (BarChart (Series_set_index_col
                                         (DataFrame_of_value measurements)
                                         (lit "parameter") (lit "value"))) = None)
        (Hcol : column_list_text W (DataFrame_of_value measurements) (lit "parameter")
                = Ok params) :
  air_quality_block W city show_layers g
  = mk_outcome
      [Call GetAirQuality; HttpGet (air_quality_url city);
       Display (Subheader ([127787%N; 65039%N] ++ lit " Air Quality in " ++ city));
       Display (BarChart (Series_set_index_col (DataFrame_of_value measurements)
                                               (lit "parameter") (lit "value")))]
      (g ++ [lit "Air Quality in " ++ city ++ lit " shows levels of pollutants: "
             ++ params ++ lit "."])
      (Ok tt).
Proof.
  apply selected_In in Hsel. unfold air_quality_block. rewrite Hsel.
  rewrite (bind_step _ _ _ _ _ _ (get_air_quality_body W city g Hresp)).
  cbn beta.
  assert (G : air_quality_guard (VDict d) g = mk_outcome [] g (Ok true)).
  { unfold air_quality_guard.
    rewrite (contains_found _ _ _ Hres), bind_lift_Ok. cbn beta iota.
    rewrite (getitem_found _ _ _ Hres), bind_lift_Ok.
    cbn [len]. rewrite bind_lift_Ok. reflexivity. }
  rewrite (bind_step _ _ _ _ _ _ G), prepend_nil. cbn beta iota.
  rewrite (getitem_found _ _ _ Hres), bind_lift_Ok.
  cbn [getindex nth_error]. rewrite bind_lift_Ok.
  rewrite Hms, bind_lift_Ok.
  rewrite (bind_step _ _ _ _ _ _ (pd_DataFrame_ok W _ g Hpd)), prepend_nil.
  cbn beta.
  rewrite bind_st_shown by exact Hsub.
  rewrite Hidx. cbn [check]. rewrite bind_ret_l.
  rewrite bind_st_shown by exact Hbar.
  rewrite Hcol, bind_lift_Ok.
  reflexivity.
Qed.

Lemma air_quality_block_first_station_witness :
  air_quality_block Sample.two_stations Sample.city [lit "Air Quality"] []
  = mk_outcome
      [Call GetAirQuality; HttpGet (air_quality_url Sample.city);
       Display (Subheader ([127787%N; 65039%N] ++ lit " Air Quality in " ++ Sample.city));
       Display (BarChart (Series_set_index_col
                            (DataFrame_of_value
                               (VList [VDict [(lit "parameter", VStr (lit "pm25"));
                                              (lit "value", VInt 12)];
                                       VDict [(lit "parameter", VStr (lit "no2"));
                                              (lit "value", VInt 30)]]))
                            (lit "parameter") (lit "value")))]
      ([] ++ [lit "Air Quality in " ++ Sample.city
              ++ lit " shows levels of pollutants: " ++ lit "['pm25', 'no2']"
              ++ lit "."])
      (Ok tt).
Proof.
  apply (air_quality_block_first_station Sample.two_stations Sample.city
           [lit "Air Quality"] [] 200
           [(lit "results", VList [Sample.first_station; Sample.second_station])]
           Sample.first_station [Sample.second_station]);
    try (vm_compute; reflexivity).
  simpl. auto.
Defined.

(* ================================================================= *)
(** ** [get_weather] on a match (lines 37-39) *)

Lemma get_json_outcome (W : World) (url : str) (g : list str) :
  get_json W url g = mk_outcome [HttpGet url] g (json_of W url).
Proof.
  unfold get_json, json_of, bind, emit; simpl.
  destruct (requests_get W url) as [|status [v|e]]; reflexivity.
Qed.

(** X9: when the geocoder answers with a non-empty list of matches whose
    first one has ["latitude"] and ["longitude"], [get_weather] sends one
    more request, to the forecast address built from the coordinates of
    that first match, and returns whatever that request gives (its body
    unchanged, or its exception); the other matches are not looked at. *)
Theorem get_weather_uses_first_match
        (W : World) (city : str) (g : list str) (status : Z)
        (d : list (str * value)) (first : value) (others : list value)
        (latitude longitude : value)
        (Hresp : requests_get W (endpoint city GetWeather)
                 = Response status (Ok (VDict d)))
        (Hres : lookup (lit "results") d = Some (VList (first :: others)))
        (Hlat : getitem first (lit "latitude") = Ok latitude)
        (Hlon : getitem first (lit "longitude") = Ok longitude) :
  get_weather W city g
  = mk_outcome
      [Call GetWeather; HttpGet (endpoint city GetWeather);
       HttpGet (forecast_url W latitude longitude)]
      g (json_of W (forecast_url W latitude longitude)).
Proof.
  unfold get_weather.
  rewrite (bind_step _ _ _ _ _ _
             (eq_refl : emit (Call GetWeather) g
                        = mk_outcome [Call GetWeather] g (Ok tt))).
  cbn beta zeta.
  change (lit "https://geocoding-api.open-meteo.com/v1/search?name=" ++ city)
    with (endpoint city GetWeather).
  erewrite bind_step; [|eapply get_json_body; exact Hresp].
  cbn beta.
  rewrite (contains_found _ _ _ Hres), bind_lift_Ok. cbn beta iota.
  cbn [negb].
  rewrite !(getitem_found _ _ _ Hres).
  repeat first
    [ rewrite bind_lift_Ok
    | progress cbn [getindex nth_error]
    | rewrite Hlat
    | rewrite Hlon ].
  rewrite get_json_outcome. reflexivity.
Qed.

Lemma get_weather_uses_first_match_witness :
  get_weather Sample.geocoder_two_matches Sample.city []
  = mk_outcome
      [Call GetWeather; HttpGet (endpoint Sample.city GetWeather);
       HttpGet (forecast_url Sample.geocoder_two_matches (VInt 48) (VInt 2))]
      [] (json_of Sample.geocoder_two_matches
                  (forecast_url Sample.geocoder_two_matches (VInt 48) (VInt 2))).
Proof.
  apply (get_weather_uses_first_match Sample.geocoder_two_matches Sample.city [] 200
           [(lit "results", VList Sample.two_matches)]
           (VDict [(lit "name", VStr (lit "Paris")); (lit "latitude", VInt 48);
                   (lit "longitude", VInt 2)])
           [VDict [(lit "name", VStr (lit "Paris")); (lit "latitude", VInt 33);
                   (lit "longitude", VInt (-95))]]);
    vm_compute; reflexivity.
Defined.

Example get_weather_paris :
  res (get_weather Sample.geocoder_two_matches Sample.city []) = Ok Sample.forecast.
Proof. vm_compute. reflexivity. Qed.

(* ================================================================= *)
(** ** The digest of a cycle *)

Lemma layer_part_length (name : str) (show_layers : list str) (P : str -> Prop)
      (part : list str) :
  layer_part name show_layers P part ->
  length part <= (if selected name show_layers then 1 else 0).
Proof. intros [|e Hs _]; [apply Nat.le_0_l | rewrite Hs; apply Nat.le_refl]. Qed.

(** X10: a cycle appends at most one entry to [graphs] for each selected
    layer that has a render block: at most four in all, and none for
    "Weather" or "Disasters". *)
Theorem digest_at_most_one_entry_per_layer
        (W : World) (city : str) (show_layers : list str) :
  length (graphs_of (cycle W city show_layers))
  <= length (filter (fun f => selected (layer_of f) show_layers) rendered_fetchers) /\
  length (graphs_of (cycle W city show_layers)) <= 4.
Proof.
  destruct (cycle_canonical_digest W city show_layers)
    as (p1 & p2 & p3 & p4 & -> & L1 & L2 & L3 & L4).
  apply layer_part_length in L1, L2, L3, L4.
  rewrite !length_app. unfold rendered_fetchers. cbn [filter layer_of].
  destruct (selected (lit "Earthquakes") show_layers),
           (selected (lit "COVID-19") show_layers),
           (selected (lit "Air Quality") show_layers),
           (selected (lit "News") show_layers);
    cbn [length]; cbn beta iota in L1, L2, L3, L4; lia.
Qed.

(* ================================================================= *)
(** ** The summary section, once it is reached (lines 129-164) *)

Lemma cycle_split (W : World) (city : str) (show_layers : list str) :
  cycle W city show_layers
  = bind (before_summaries W city show_layers) (fun _ => summaries_section W) [].
Proof. unfold cycle, app, before_summaries. symmetry. apply bind_assoc. Qed.

Lemma outcome_eta {A} (o : outcome A) :
  o = mk_outcome (events o) (graphs_of o) (res o).
Proof. now destruct o. Qed.

Lemma before_summaries_quiet (W : World) (city : str) (show_layers : list str) :
  emits quiet (before_summaries W city show_layers).
Proof.
  unfold before_summaries.
  apply emits_bind; [apply page_head_quiet | intros _; apply graphs_section_quiet].
Qed.

Lemma load_pipeline_outcome (W : World) (g : list str) :
  load_pipeline W g
  = mk_outcome [LoadPipeline (lit "summarization") summarization_model] g
               (pipeline W (lit "summarization") summarization_model).
Proof.
  unfold load_pipeline, bind, emit, lift; simpl.
  destruct (pipeline W (lit "summarization") summarization_model); reflexivity.
Qed.

(** One turn of the loop of lines 163-164. *)
Lemma panel_shown (W : World) (summarizer : str -> result value)
      (label text summary : str) (g : list str) :
  shared_summary summarizer text = Ok summary ->
  st_raises W (InfoPanel (label ++ summary)) = None ->
  (s <- (t <- summary_text summarizer (truncate text) ;; lift (str_add label t)) ;;
   st W (InfoPanel s)) g
  = mk_outcome (agent_events (truncate text) summary label) g (Ok tt).
Proof.
  intros Hs Hst.
  assert (E : (t <- summary_text summarizer (truncate text) ;;
               lift (str_add label t)) g
              = mk_outcome [Summarize (truncate text)] g (Ok (label ++ summary))).
  { rewrite labelled_summary_facade. unfold facade. now rewrite Hs. }
  rewrite (bind_step _ _ _ _ _ _ E). cbn beta.
  rewrite (st_shown _ _ _ Hst). reflexivity.
Qed.

Lemma panel_not_reached (W : World) (summarizer : str -> result value)
      (label text : str) (e : exn) (g : list str) :
  shared_summary summarizer text = Raise e ->
  (s <- (t <- summary_text summarizer (truncate text) ;; lift (str_add label t)) ;;
   st W (InfoPanel s)) g
  = mk_outcome [Summarize (truncate text)] g (Raise e).
Proof.
  intros Hs. apply bind_stop.
  rewrite labelled_summary_facade. unfold facade. now rewrite Hs.
Qed.

Section SummariesReached.

Variables (W : World) (city : str) (show_layers : list str).
Variable summarizer : str -> result value.

Let digest : list str := graphs_of (before_summaries W city show_layers []).
Let input : str := truncate (summary_input digest).

Hypothesis Hbefore : res (before_summaries W city show_layers []) = Ok tt.
Hypothesis Hheader :
  st_raises W (Header (129302%N :: lit " Multi-Agent AI Summaries")) = None.
Hypothesis Hpipeline :
  pipeline W (lit "summarization") summarization_model = Ok summarizer.

Lemma cycle_reaches_agents :
  cycle W city show_layers
  = prepend (events (before_summaries W city show_layers [])
             ++ [Display (Header (129302%N :: lit " Multi-Agent AI Summaries"));
                 LoadPipeline (lit "summarization") summarization_model])
            (for_each (agents summarizer)
                      (fun agent => s <- agent (summary_input digest) ;;
                                    st W (InfoPanel s))
                      digest).
Proof.
  rewrite cycle_split.
  assert (E : before_summaries W city show_layers []
              = mk_outcome (events (before_summaries W city show_layers []))
                           digest (Ok tt)).
  { rewrite (outcome_eta (before_summaries W city show_layers [])) at 1.
    now rewrite Hbefore. }
  rewrite (bind_step _ _ _ _ _ _ E). cbn beta.
  unfold summaries_section.
  rewrite bind_st_shown by exact Hheader.
  rewrite (bind_step _ _ _ _ _ _
             (eq_refl : read_graphs digest = mk_outcome [] digest (Ok digest))).
  rewrite prepend_nil. cbn beta zeta.
  assert (L : load_pipeline W digest
              = mk_outcome [LoadPipeline (lit "summarization") summarization_model]
                           digest (Ok summarizer)).
  { rewrite load_pipeline_outcome. now rewrite Hpipeline. }
  rewrite (bind_step _ _ _ _ _ _ L). cbn beta.
  rewrite !prepend_prepend, <- !app_assoc. reflexivity.
Qed.

Lemma before_summaries_no_summary :
  summarizer_inputs (events (before_summaries W city show_layers [])) = [] /\
  panels (events (before_summaries W city show_layers [])) = [].
Proof. apply quiet_no_summary, before_summaries_quiet. Qed.

End SummariesReached.

(** X11: once the page head and the render blocks have ended normally, the
    cycle ends normally as soon as the header is shown, the pipeline loads,
    the summarizer gives, for the truncated digest, a list whose first
    element has a string ["summary_text"], and the six panels are shown:
    then the panels are the six labels, each followed by that summary. *)
Theorem cycle_completes_when_summary_is_well_formed
        (W : World) (city : str) (show_layers : list str)
        (summarizer : str -> result value) (summary : str)
        (Hbefore : res (before_summaries W city show_layers []) = Ok tt)
        (Hheader : st_raises W (Header (129302%N :: lit " Multi-Agent AI Summaries"))
                   = None)
        (Hpipeline : pipeline W (lit "summarization") summarization_model
                     = Ok summarizer)
        (Hsummary : shared_summary summarizer
                      (summary_input (graphs_of (before_summaries W city show_layers [])))
                    = Ok summary)
        (Hpanels : forall label, In label agent_labels ->
                                 st_raises W (InfoPanel (label ++ summary)) = None) :
  res (cycle W city show_layers) = Ok tt /\
  graphs_of (cycle W city show_layers)
  = graphs_of (before_summaries W city show_layers []) /\
  panels (events (cycle W city show_layers))
  = map (fun label => label ++ summary) agent_labels /\
  summarizer_inputs (events (cycle W city show_layers))
  = repeat (truncate (summary_input
                        (graphs_of (before_summaries W city show_layers [])))) 6.
Proof.
  rewrite (cycle_reaches_agents W city show_layers summarizer Hbefore Hheader Hpipeline).
  set (digest := graphs_of (before_summaries W city show_layers [])) in *.
  assert (E : for_each (agents summarizer)
                (fun agent => s <- agent (summary_input digest) ;; st W (InfoPanel s))
                digest
              = mk_outcome
                  (flat_map (agent_events (truncate (summary_input digest)) summary)
                            agent_labels)
                  digest (Ok tt)).
  { unfold agents. cbn [for_each].
    unfold langchain_summary, llamaindex_summary, haystack_summary, hf_summary,
      autogen_summary, rasa_summary.
    repeat (erewrite bind_step;
            [|apply (panel_shown W summarizer _ _ summary digest Hsummary);
              apply Hpanels; unfold agent_labels; simpl; tauto];
            cbn beta).
    reflexivity. }
  rewrite E. cbn [prepend events graphs_of res].
  destruct (before_summaries_no_summary W city show_layers) as [B1 B2].
  fold digest.
  split; [reflexivity|]. split; [reflexivity|].
  rewrite !panels_app, !summarizer_inputs_app, B1, B2.
  split; reflexivity.
Qed.

Lemma cycle_completes_when_summary_is_well_formed_witness :
  res (cycle Sample.all_up Sample.city layer_options) = Ok tt /\
  graphs_of (cycle Sample.all_up Sample.city layer_options)
  = graphs_of (before_summaries Sample.all_up Sample.city layer_options []) /\
  panels (events (cycle Sample.all_up Sample.city layer_options))
  = map (fun label => label ++ lit "Earthquake a") agent_labels /\
  summarizer_inputs (events (cycle Sample.all_up Sample.city layer_options))
  = repeat (truncate (summary_input
                        (graphs_of (before_summaries Sample.all_up Sample.city
                                                     layer_options [])))) 6.
Proof.
  apply (cycle_completes_when_summary_is_well_formed Sample.all_up Sample.city
           layer_options Sample.bart (lit "Earthquake a"));
    vm_compute; reflexivity.
Defined.

(** X12: once the summary section is reached and the pipeline is loaded, a
    failure of the summarizer (it raises, or what it returns has no first
    element with a string ["summary_text"]) is not recovered: the cycle
    ends with that exception after exactly one summarizer call, and no
    panel is shown. *)
Theorem summarizer_failure_ends_the_cycle
        (W : World) (city : str) (show_layers : list str)
        (summarizer : str -> result value) (e : exn)
        (Hbefore : res (before_summaries W city show_layers []) = Ok tt)
        (Hheader : st_raises W (Header (129302%N :: lit " Multi-Agent AI Summaries"))
                   = None)
        (Hpipeline : pipeline W (lit "summarization") summarization_model
                     = Ok summarizer)
        (Hsummary : shared_summary summarizer
                      (summary_input (graphs_of (before_summaries W city show_layers [])))
                    = Raise e) :
  res (cycle W city show_layers) = Raise e /\
  summarizer_inputs (events (cycle W city show_layers))
  = [truncate (summary_input (graphs_of (before_summaries W city show_layers [])))] /\
  panels (events (cycle W city show_layers)) = [].
Proof.
  rewrite (cycle_reaches_agents W city show_layers summarizer Hbefore Hheader Hpipeline).
  set (digest := graphs_of (before_summaries W city show_layers [])) in *.
  unfold agents. cbn [for_each]. unfold langchain_summary.
  erewrite bind_stop;
    [|apply (panel_not_reached W summarizer _ _ e digest Hsummary)].
  cbn [prepend events graphs_of res].
  destruct (before_summaries_no_summary W city show_layers) as [B1 B2].
  split; [reflexivity|].
  rewrite !panels_app, !summarizer_inputs_app, B1, B2.
  split; reflexivity.
Qed.

Lemma summarizer_failure_ends_the_cycle_witness :
  res (cycle Sample.summarizer_down Sample.city []) = Raise (LibraryError 1) /\
  summarizer_inputs (events (cycle Sample.summarizer_down Sample.city []))
  = [truncate (summary_input
                 (graphs_of (before_summaries Sample.summarizer_down Sample.city [] [])))] /\
  panels (events (cycle Sample.summarizer_down Sample.city [])) = [].
Proof.
  apply (summarizer_failure_ends_the_cycle Sample.summarizer_down Sample.city []
           (fun _ => Raise (LibraryError 1)) (LibraryError 1));
    vm_compute; reflexivity.
Defined.

(* ================================================================= *)
(** ** What the summarizer is given *)

Lemma cycle_graphs_before (W : World) (city : str) (show_layers : list str) :
  graphs_of (cycle W city show_layers)
  = graphs_of (before_summaries W city show_layers []).
Proof.
  rewrite cycle_split. unfold bind.
  destruct (res (before_summaries W city show_layers [])); cbn [graphs_of];
    [apply summaries_section_keeps | reflexivity].
Qed.

Lemma truncate_nonempty (text : str) : text <> [] -> truncate text <> [].
Proof.
  destruct text as [|c text]; [congruence|]. intros _.
  unfold truncate. change 1024 with (S 1023). rewrite firstn_cons. discriminate.
Qed.

Lemma str_join_nonempty (sep e : str) (es : list str) :
  e <> [] -> str_join sep (e :: es) <> [].
Proof.
  intro He. destruct es as [|e' es]; [exact He|].
  cbn [str_join]. destruct e as [|c e]; [congruence | discriminate].
Qed.

Lemma summary_input_nonempty (graphs : list str) :
  Forall (fun e => e <> []) graphs -> summary_input graphs <> [].
Proof.
  intros [|e es He _]; [discriminate|].
  unfold summary_input. now apply str_join_nonempty.
Qed.

Lemma canonical_digest_nonempty (city : str) (show_layers graphs : list str) :
  canonical_digest city show_layers graphs -> Forall (fun e => e <> []) graphs.
Proof.
  intros (p1 & p2 & p3 & p4 & -> & L1 & L2 & L3 & L4).
  repeat (apply Forall_app; split).
  - destruct L1 as [|e _ ->]; repeat constructor. discriminate.
  - destruct L2 as [|e _ (c & d & ->)]; repeat constructor. discriminate.
  - destruct L3 as [|e _ (p & ->)]; repeat constructor. discriminate.
  - destruct L4 as [|e _ ->]; repeat constructor. discriminate.
Qed.

Lemma emits_labelled_at (P : event -> Prop) (summarizer : str -> result value)
      (label text : str) :
  P (Summarize (truncate text)) ->
  emits P (t <- summary_text summarizer (truncate text) ;; lift (str_add label t)).
Proof.
  intros H g. rewrite labelled_summary_facade.
  unfold facade; simpl. repeat constructor. exact H.
Qed.

(** Every summarizer call of the summary section is on the truncated
    digest of the [graphs] it starts from, also when the section raises. *)
Lemma summaries_section_inputs (W : World) (g : list str) :
  Forall (fun e => match e with
                   | Summarize input => input = truncate (summary_input g)
                   | _ => True
                   end)
         (events (summaries_section W g)).
Proof.
  set (P := fun e => match e with
                     | Summarize input => input = truncate (summary_input g)
                     | _ => True
                     end).
  unfold summaries_section.
  destruct (st_raises W (Header (129302%N :: lit " Multi-Agent AI Summaries")))
    as [e|] eqn:Hh.
  { rewrite (bind_stop _ _ _ _ _ _ (st_refused _ _ g e Hh)). constructor. }
  rewrite bind_st_shown by exact Hh.
  rewrite (bind_step _ _ _ _ _ _
             (eq_refl : read_graphs g = mk_outcome [] g (Ok g))).
  rewrite prepend_nil. cbn beta zeta.
  destruct (pipeline W (lit "summarization") summarization_model)
    as [summarizer|e] eqn:Hp.
  - assert (L : load_pipeline W g
                = mk_outcome [LoadPipeline (lit "summarization") summarization_model]
                             g (Ok summarizer))
      by (rewrite load_pipeline_outcome; now rewrite Hp).
    rewrite (bind_step _ _ _ _ _ _ L). cbn beta.
    cbn [prepend events]. constructor; [exact I|]. constructor; [exact I|].
    change (Forall P (events
              (for_each (agents summarizer)
                 (fun agent => s <- agent (summary_input g) ;; st W (InfoPanel s)) g))).
    apply emits_for_each_Forall. unfold agents.
    repeat (apply Forall_cons;
            [apply emits_bind;
             [apply (emits_labelled_at P summarizer _ (summary_input g)); reflexivity
             | intro s; apply emits_st; exact I]|]).
    apply Forall_nil.
  - assert (L : load_pipeline W g
                = mk_outcome [LoadPipeline (lit "summarization") summarization_model]
                             g (Raise e))
      by (rewrite load_pipeline_outcome; now rewrite Hp).
    rewrite (bind_stop _ _ _ _ _ _ L). cbn [prepend events].
    repeat constructor.
Qed.

Lemma summarizer_inputs_of (text : str) (evs : list event) :
  Forall (fun e => match e with
                   | Summarize input => input = text
                   | _ => True
                   end) evs ->
  Forall (fun input => input = text) (summarizer_inputs evs).
Proof.
  induction 1 as [|e evs He _ IH]; [constructor|].
  unfold summarizer_inputs. cbn [flat_map].
  destruct e; cbn [app]; try exact IH. constructor; [exact He | exact IH].
Qed.

(** X13: in every cycle, whatever is selected and whatever the feeds
    answer, each call of the summarizer is on the truncated digest of
    [graphs], and that text is never empty. *)
Theorem summarizer_input_is_never_empty
        (W : World) (city : str) (show_layers : list str) :
  Forall (fun input =>
            input = truncate (summary_input (graphs_of (cycle W city show_layers))) /\
            input <> [])
         (summarizer_inputs (events (cycle W city show_layers))).
Proof.
  assert (NE : truncate (summary_input (graphs_of (cycle W city show_layers))) <> []).
  { apply truncate_nonempty, summary_input_nonempty.
    eapply canonical_digest_nonempty, cycle_canonical_digest. }
  rewrite cycle_graphs_before in NE |- *.
  set (digest := graphs_of (before_summaries W city show_layers [])) in *.
  assert (F : Forall (fun input => input = truncate (summary_input digest))
                     (summarizer_inputs (events (cycle W city show_layers)))).
  { rewrite cycle_split. unfold bind.
    destruct (quiet_no_summary (before_summaries_quiet W city show_layers []))
      as [B _].
    destruct (res (before_summaries W city show_layers [])); cbn [events].
    - rewrite summarizer_inputs_app, B. cbn [app].
      apply summarizer_inputs_of, summaries_section_inputs.
    - rewrite B. constructor. }
  eapply Forall_impl; [|exact F]. intros input ->. now split.
Qed.


(* ================================================================= *)
(** * A cycle in which a fetch fails (lines 68-123) *)

(* ----------------------------------------------------------------- *)
(** ** The widgets of each block *)

Lemma block_widget_one_layer (city : str) (f0 f1 : fetcher) (w : widget) :
  block_widget city f0 w -> block_widget city f1 w -> f0 = f1.
Proof.
  destruct f0, f1, w; cbn [block_widget]; try tauto; try reflexivity;
    intros -> H; cbn [app] in H; discriminate H.
Qed.

Lemma page_widget_no_block (city : str) (f : fetcher) (w : widget) :
  page_widget w -> block_widget city f w -> False.
Proof. destruct f, w; cbn [page_widget block_widget]; tauto. Qed.

(** Discharges [emits] goals about the widgets of one block. *)
Ltac own_tac :=
  repeat first
    [ progress (intros)
    | apply emits_ret
    | apply emits_raise
    | apply emits_lift
    | apply emits_check
    | apply emits_graphs_append
    | apply emits_read_graphs
    | apply emits_st; cbn [own_event head_event block_widget page_widget fetch_of];
      solve [exact I | reflexivity]
    | apply emits_emit; cbn [own_event head_event fetch_of];
      solve [exact I | reflexivity]
    | apply emits_bind
    | apply emits_mapM
    | apply emits_if ].

Lemma own_fetch (W : World) (city : str) (f : fetcher) :
  emits (own_event city f) (emit (Call f) ;; get_json W (endpoint city f)).
Proof.
  apply emits_bind; [apply emits_emit; reflexivity | intros _].
  apply emits_get_json. reflexivity.
Qed.

Lemma page_head_own (W : World) : emits head_event (page_head W).
Proof. unfold page_head. own_tac. Qed.

Lemma earthquakes_block_own (W : World) (city : str) (show_layers : list str) :
  emits (own_event city GetEarthquakes) (earthquakes_block W show_layers).
Proof.
  unfold earthquakes_block.
  destruct (selected (lit "Earthquakes") show_layers); [|apply emits_ret].
  apply emits_bind; [apply (own_fetch W city GetEarthquakes)|].
  unfold quake_row_of, pd_DataFrame. own_tac.
Qed.

Lemma covid_block_own (W : World) (city : str) (show_layers : list str) :
  emits (own_event city GetCovid) (covid_block W show_layers).
Proof.
  unfold covid_block.
  destruct (selected (lit "COVID-19") show_layers); [|apply emits_ret].
  apply emits_bind; [apply (own_fetch W city GetCovid)|].
  own_tac.
Qed.

Lemma air_quality_block_own (W : World) (city : str) (show_layers : list str) :
  emits (own_event city GetAirQuality) (air_quality_block W city show_layers).
Proof.
  unfold air_quality_block.
  destruct (selected (lit "Air Quality") show_layers); [|apply emits_ret].
  apply emits_bind; [apply (own_fetch W city GetAirQuality)|].
  unfold air_quality_guard, pd_DataFrame. own_tac.
Qed.

Lemma news_block_own (W : World) (city : str) (show_layers : list str) :
  emits (own_event city GetNews) (news_block W show_layers).
Proof.
  unfold news_block.
  destruct (selected (lit "News") show_layers); [|apply emits_ret].
  apply emits_bind; [apply (own_fetch W city GetNews)|].
  unfold pd_DataFrame. own_tac.
Qed.

Lemma own_before (city : str) (f0 f : fetcher) {A} (m : M A) :
  rendered f0 = true -> order f0 < order f ->
  emits (own_event city f0) m -> emits (before_event city f) m.
Proof.
  intros Hr Hlt. apply emits_impl. intros e He. right. now exists f0.
Qed.

Lemma blocks_before_events (W : World) (city : str) (show_layers : list str)
      (f : fetcher) :
  rendered f = true ->
  emits (before_event city f) (blocks_before W city show_layers f).
Proof.
  assert (H : emits (before_event city f) (page_head W)).
  { eapply emits_impl; [|apply page_head_own]. intros e He. now left. }
  assert (E := earthquakes_block_own W city show_layers).
  assert (C := covid_block_own W city show_layers).
  assert (A := air_quality_block_own W city show_layers).
  intro Hr. destruct f; try discriminate Hr; cbn [blocks_before].
  - exact H.
  - apply emits_bind; [exact H | intros _].
    apply (own_before city GetEarthquakes); [reflexivity | simpl; lia | exact E].
  - apply emits_bind; [exact H | intros _].
    apply emits_bind; [|intros _].
    + apply (own_before city GetEarthquakes); [reflexivity | simpl; lia | exact E].
    + apply (own_before city GetCovid); [reflexivity | simpl; lia | exact C].
  - apply emits_bind; [exact H | intros _].
    apply emits_bind; [|intros _].
    + apply (own_before city GetEarthquakes); [reflexivity | simpl; lia | exact E].
    + apply emits_bind; [|intros _].
      * apply (own_before city GetCovid); [reflexivity | simpl; lia | exact C].
      * apply (own_before city GetAirQuality); [reflexivity | simpl; lia | exact A].
Qed.

(* ----------------------------------------------------------------- *)
(** ** The cycle stops at the failed fetch *)

Section FailedFetch.

Variables (W : World) (city : str) (show_layers : list str) (f : fetcher).

Hypothesis Hrendered : rendered f = true.
Hypothesis Hselected : selected (layer_of f) show_layers = true.
Hypothesis Hfailed : http_failed W (endpoint city f).

Lemma failed_json : exists e, json_of W (endpoint city f) = Raise e.
Proof.
  unfold json_of. destruct Hfailed as [H|(status & e & H)]; rewrite H; eauto.
Qed.

(** The fetcher raises right after its request. *)
Lemma fetcher_call_fails (e : exn) (g : list str) :
  json_of W (endpoint city f) = Raise e ->
  fetcher_call W city f g
  = mk_outcome [Call f; HttpGet (endpoint city f)] g (Raise e).
Proof.
  intro J. rewrite <- J.
  destruct f; try discriminate Hrendered; apply fetch_outcome.
Qed.

(** So does the render block, which starts with the fetch. *)
Lemma render_block_fails (e : exn) (g : list str) :
  json_of W (endpoint city f) = Raise e ->
  render_block W city show_layers f g
  = mk_outcome [Call f; HttpGet (endpoint city f)] g (Raise e).
Proof.
  intro J. pose proof (fetcher_call_fails e g J) as F.
  destruct f; try discriminate Hrendered;
    cbn [render_block layer_of fetcher_call endpoint] in *;
    unfold earthquakes_block, covid_block, air_quality_block, news_block;
    rewrite Hselected; apply bind_stop; exact F.
Qed.

(** The cycle is the script before the block of [f], then the failing
    fetch: nothing of the block, of the later blocks or of the summary
    section is run. *)
Lemma cycle_stops_at_failed_fetch :
  cycle W city show_layers
  = (blocks_before W city show_layers f ;; fetcher_call W city f ;; ret tt) [].
Proof.
  destruct failed_json as [e J].
  assert (B : forall {A} (k : unit -> M A) g,
             bind (render_block W city show_layers f) k g
             = mk_outcome [Call f; HttpGet (endpoint city f)] g (Raise e))
    by (intros; apply bind_stop, render_block_fails, J).
  assert (F : forall g,
             (fetcher_call W city f ;; ret tt) g
             = mk_outcome [Call f; HttpGet (endpoint city f)] g (Raise e))
    by (intros; apply bind_stop, fetcher_call_fails, J).
  unfold cycle, app, graphs_section.
  destruct f; try discriminate Hrendered; cbn [blocks_before render_block] in *.
  - apply bind_ext; [reflexivity | intros _ g1].
    rewrite !bind_assoc, B, F. reflexivity.
  - rewrite (bind_assoc (page_head W)).
    apply bind_ext; [reflexivity | intros _ g1]. rewrite !bind_assoc.
    apply bind_ext; [reflexivity | intros _ g2].
    rewrite !bind_assoc, B, F. reflexivity.
  - rewrite (bind_assoc (page_head W)).
    apply bind_ext; [reflexivity | intros _ g1]. rewrite !bind_assoc.
    apply bind_ext; [reflexivity | intros _ g2]. rewrite ?bind_assoc.
    apply bind_ext; [reflexivity | intros _ g3].
    rewrite !bind_assoc, B, F. reflexivity.
  - rewrite (bind_assoc (page_head W)).
    apply bind_ext; [reflexivity | intros _ g1]. rewrite !bind_assoc.
    apply bind_ext; [reflexivity | intros _ g2]. rewrite ?bind_assoc.
    apply bind_ext; [reflexivity | intros _ g3]. rewrite ?bind_assoc.
    apply bind_ext; [reflexivity | intros _ g4].
    rewrite ?bind_assoc, B, F. reflexivity.
Qed.

(** What the cycle leaves: the events of the earlier blocks, then at most
    the failed fetch; [graphs] as the earlier blocks left it. *)
Lemma failed_cycle_events :
  Forall (fun e => before_event city f e \/ own_event city f e /\ is_fetch e = true)
         (events (cycle W city show_layers)).
Proof.
  rewrite cycle_stops_at_failed_fetch.
  destruct failed_json as [e J].
  pose proof (blocks_before_events W city show_layers f Hrendered []) as Hb.
  unfold bind at 1.
  destruct (res (blocks_before W city show_layers f [])) as [[]|e'];
    cbn [events].
  - apply Forall_app. split.
    + eapply Forall_impl; [|exact Hb]. intros ev Hev. now left.
    + rewrite (bind_stop _ _ _ _ _ _ (fetcher_call_fails e _ J)). cbn [events].
      repeat constructor; right; split; reflexivity.
  - eapply Forall_impl; [|exact Hb]. intros ev Hev. now left.
Qed.

Lemma failed_cycle_graphs :
  graphs_of (cycle W city show_layers)
  = graphs_of (blocks_before W city show_layers f []).
Proof.
  rewrite cycle_stops_at_failed_fetch.
  destruct failed_json as [e J].
  unfold bind at 1.
  destruct (res (blocks_before W city show_layers f [])) as [[]|e'];
    cbn [graphs_of]; [|reflexivity].
  now rewrite (bind_stop _ _ _ _ _ _ (fetcher_call_fails e _ J)).
Qed.

(** No widget of the block of [f], or of a later block, is shown. *)
Lemma failed_cycle_widgets (f' : fetcher) (w : widget) :
  order f <= order f' ->
  block_widget city f' w ->
  ~ In (Display w) (events (cycle W city show_layers)).
Proof.
  intros Hle Hw Hin.
  pose proof failed_cycle_events as F. rewrite Forall_forall in F.
  destruct (F _ Hin) as [[Hh|(f0 & Hr0 & Hlt & Ho)]|[_ Hf]].
  - exact (page_widget_no_block city f' w Hh Hw).
  - cbn [own_event] in Ho.
    pose proof (block_widget_one_layer city f0 f' w Ho Hw) as E. subst f0. lia.
  - discriminate Hf.
Qed.

End FailedFetch.

(* ----------------------------------------------------------------- *)
(** ** A layer passed over by the guard of its render block *)

Lemma fetcher_eqb_eq (a b : fetcher) : fetcher_eqb a b = true <-> a = b.
Proof. destruct a, b; simpl; split; congruence. Qed.

Lemma render_block_own (W : World) (city : str) (show_layers : list str)
      (f : fetcher) :
  rendered f = true ->
  emits (own_event city f) (render_block W city show_layers f).
Proof.
  intro Hr. destruct f; try discriminate Hr; cbn [render_block].
  - apply earthquakes_block_own.
  - apply covid_block_own.
  - apply air_quality_block_own.
  - apply news_block_own.
Qed.

Lemma graphs_section_blocks (W : World) (city : str) (show_layers : list str) :
  graphs_section W city show_layers
  = (render_block W city show_layers GetEarthquakes ;;
     render_block W city show_layers GetCovid ;;
     render_block W city show_layers GetAirQuality ;;
     render_block W city show_layers GetNews).
Proof. reflexivity. Qed.

(** The four feeds have four addresses, whatever the city. *)
Lemma endpoints_differ (city : str) (f0 f : fetcher) :
  rendered f0 = true -> rendered f = true -> f0 <> f ->
  str_eqb (endpoint city f0) (endpoint city f) = false.
Proof.
  intros H0 H N.
  destruct f0; try discriminate H0; destruct f; try discriminate H;
    try (exfalso; apply N; reflexivity); vm_compute; reflexivity.
Qed.

Lemma layers_differ (f0 f : fetcher) : f0 <> f -> layer_of f0 <> layer_of f.
Proof.
  intros N E. apply N.
  destruct f0, f; try reflexivity; vm_compute in E; discriminate E.
Qed.

(** The events of another block are not the fetch of [f]. *)
Lemma other_block_no_fetch (city : str) (f0 f : fetcher) (e : event) :
  rendered f0 = true -> rendered f = true -> f0 <> f ->
  own_event city f0 e -> fetch_of city f e = false.
Proof.
  intros H0 H N. destruct e as [f1|url| | |w]; cbn [own_event fetch_of]; try reflexivity.
  - intros ->. destruct (fetcher_eqb f0 f) eqn:E; [|reflexivity].
    apply fetcher_eqb_eq in E. contradiction.
  - intros ->. now apply endpoints_differ.
Qed.

Lemma without_fetch_none (city : str) (f : fetcher) (evs : list event) :
  Forall (fun e => fetch_of city f e = false) evs -> without_fetch city f evs = evs.
Proof.
  induction 1 as [|e evs He _ IH]; [reflexivity|].
  unfold without_fetch in *. simpl. rewrite He. simpl. now rewrite IH.
Qed.

Lemma same_fetch_refl (city : str) (f : fetcher) {A} (o : outcome A) :
  Forall (fun e => fetch_of city f e = false) (events o) ->
  same_but_fetch_of city f o o.
Proof.
  intro H. split; [|split; reflexivity]. symmetry. now apply without_fetch_none.
Qed.

Lemma same_fetch_bind (city : str) (f : fetcher) {A B} (m1 m2 : M A)
      (f1 f2 : A -> M B) (g : list str) :
  same_but_fetch_of city f (m1 g) (m2 g) ->
  (forall a g', same_but_fetch_of city f (f1 a g') (f2 a g')) ->
  same_but_fetch_of city f (bind m1 f1 g) (bind m2 f2 g).
Proof.
  intros (V & G & R) Hf. unfold bind, same_but_fetch_of. rewrite R, G.
  destruct (res (m1 g)) as [a|e]; cbn [events graphs_of res].
  - destruct (Hf a (graphs_of (m1 g))) as (V' & G' & R').
    split; [|split; assumption].
    unfold without_fetch in *. now rewrite filter_app, V, V'.
  - split; [exact V | split; reflexivity].
Qed.

Lemma summaries_section_no_fetch (W : World) (city : str) (f : fetcher) :
  emits (fun e => fetch_of city f e = false) (summaries_section W).
Proof.
  unfold summaries_section, load_pipeline.
  apply emits_bind; [own_tac|intros _].
  apply emits_bind; [own_tac|intros graphs].
  apply emits_bind; [own_tac|intros summarizer].
  apply emits_for_each_Forall.
  eapply Forall_impl;
    [|apply (emits_agents (fun e => fetch_of city f e = false) summarizer
               (summary_input graphs)); intro; reflexivity].
  intros agent H. apply emits_bind; [exact H | own_tac].
Qed.

Section PassedOver.

Variables (W : World) (city : str) (show_layers : list str) (f : fetcher).

Hypothesis Hrendered : rendered f = true.

(** The render block of [f] makes its request (when its layer is
    selected) and does nothing else. *)
Hypothesis Hskip :
  forall g, render_block W city show_layers f g
            = mk_outcome (if selected (layer_of f) show_layers
                          then [Call f; HttpGet (endpoint city f)] else [])
                         g (Ok tt).

Lemma render_block_without_same (g : list str) :
  render_block W city (without (layer_of f) show_layers) f g
  = mk_outcome [] g (Ok tt).
Proof.
  pose proof (selected_without_same (layer_of f) show_layers) as E.
  destruct f; try discriminate Hrendered; cbn [render_block layer_of] in *;
    unfold earthquakes_block, covid_block, air_quality_block, news_block;
    now rewrite E.
Qed.

Lemma render_block_without_other (f0 : fetcher) (g : list str) :
  rendered f0 = true -> f0 <> f ->
  render_block W city (without (layer_of f) show_layers) f0 g
  = render_block W city show_layers f0 g.
Proof.
  intros H0 N.
  pose proof (selected_without_other show_layers (layers_differ f0 f N)) as E.
  destruct f0; try discriminate H0; cbn [render_block layer_of] in *;
    unfold earthquakes_block, covid_block, air_quality_block, news_block;
    now rewrite E.
Qed.

Lemma block_passed_over (f0 : fetcher) (g : list str) :
  rendered f0 = true ->
  same_but_fetch_of city f
    (render_block W city show_layers f0 g)
    (render_block W city (without (layer_of f) show_layers) f0 g).
Proof.
  intro H0. destruct (fetcher_eqb f0 f) eqn:E.
  - apply fetcher_eqb_eq in E. subst f0.
    rewrite render_block_without_same, Hskip.
    split; [|split; reflexivity]. cbn [events].
    destruct (selected (layer_of f) show_layers); [|reflexivity].
    unfold without_fetch. cbn [filter fetch_of].
    now rewrite (proj2 (fetcher_eqb_eq f f) eq_refl), str_eqb_refl.
  - assert (N : f0 <> f) by (intros ->;
                             now rewrite (proj2 (fetcher_eqb_eq f f) eq_refl) in E).
    rewrite render_block_without_other by assumption.
    apply same_fetch_refl.
    eapply Forall_impl; [|apply (render_block_own W city show_layers f0 H0)].
    intros e He. now apply (other_block_no_fetch city f0 f).
Qed.

(** The cycle is the one of the selection without the layer of [f], plus
    the fetch of [f]. *)
Lemma cycle_passes_over :
  same_but_fetch_of city f (cycle W city show_layers)
                    (cycle W city (without (layer_of f) show_layers)).
Proof.
  unfold cycle, app.
  apply same_fetch_bind; [|intros _ g1].
  { apply same_fetch_refl.
    eapply Forall_impl; [|apply (page_head_own W)].
    intros [f1|url| | |w]; cbn [head_event]; try contradiction. reflexivity. }
  apply same_fetch_bind;
    [|intros _ g2; apply same_fetch_refl, summaries_section_no_fetch].
  rewrite !graphs_section_blocks.
  apply same_fetch_bind; [now apply block_passed_over | intros _ g2].
  apply same_fetch_bind; [now apply block_passed_over | intros _ g3].
  apply same_fetch_bind; [now apply block_passed_over | intros _ g4].
  now apply block_passed_over.
Qed.

End PassedOver.

(* ----------------------------------------------------------------- *)
(** ** Failures of a fetch, by kind *)

(** C2, as the code has it.
    (a) When the request of a selected layer that has a render block fails
    in transport, or [.json()] raises on the body that comes back, the
    fetcher raises right after its request, and the cycle is the page
    head and the render blocks before that layer's, then the failing
    fetch, and nothing else: it ends with an exception, no later fetcher
    is entered, no widget of that layer or of a later layer is shown,
    [graphs] is what the earlier blocks left, and nothing is summarized.
    (b) The status code is never looked at: changing the codes of the
    answers changes nothing.
    (c) An answer of the air-quality feed that is an object without
    ["results"] (or with an empty list), and an answer of the news feed
    that is an object without ["articles"], are passed over by the guard
    of their render block: the block makes its request (when its layer is
    selected), shows nothing, appends nothing and ends normally, and the
    cycle is the one of the selection without that layer, plus that fetch:
    the same events otherwise, in the same order, the same [graphs] and
    the same end. *)
Theorem C2_fetch_failures_by_kind
        (W : World) (city : str) (show_layers : list str) :
  (forall f,
      rendered f = true ->
      In (layer_of f) show_layers ->
      http_failed W (endpoint city f) ->
      (exists e, forall g,
            fetcher_call W city f g
            = mk_outcome [Call f; HttpGet (endpoint city f)] g (Raise e)) /\
      cycle W city show_layers
      = (blocks_before W city show_layers f ;; fetcher_call W city f ;; ret tt) [] /\
      (exists e, res (cycle W city show_layers) = Raise e) /\
      (forall f', order f < order f' ->
                  ~ In (Call f') (events (cycle W city show_layers))) /\
      (forall f' w, order f <= order f' -> block_widget city f' w ->
                    ~ In (Display w) (events (cycle W city show_layers))) /\
      graphs_of (cycle W city show_layers)
      = graphs_of (blocks_before W city show_layers f []) /\
      summarizer_inputs (events (cycle W city show_layers)) = [] /\
      panels (events (cycle W city show_layers)) = []) /\
  (forall h, cycle (restatus h W) city show_layers = cycle W city show_layers) /\
  (forall status d,
      requests_get W (air_quality_url city) = Response status (Ok (VDict d)) ->
      lookup (lit "results") d = None \/ lookup (lit "results") d = Some (VList []) ->
      (forall g, air_quality_block W city show_layers g
                 = mk_outcome (if selected (lit "Air Quality") show_layers
                               then [Call GetAirQuality; HttpGet (air_quality_url city)]
                               else [])
                              g (Ok tt)) /\
      same_but_fetch_of city GetAirQuality
                        (cycle W city show_layers)
                        (cycle W city (without (lit "Air Quality") show_layers))) /\
  (forall status d,
      requests_get W news_url = Response status (Ok (VDict d)) ->
      lookup (lit "articles") d = None ->
      (forall g, news_block W show_layers g
                 = mk_outcome (if selected (lit "News") show_layers
                               then [Call GetNews; HttpGet news_url] else [])
                              g (Ok tt)) /\
      same_but_fetch_of city GetNews
                        (cycle W city show_layers)
                        (cycle W city (without (lit "News") show_layers))).
Proof.
  split; [|split; [|split]].
  - intros f Hr Hin Hfail.
    apply selected_In in Hin.
    destruct (@app_aborts W city show_layers f Hr Hin Hfail []) as [R F].
    fold (cycle W city show_layers) in R, F.
    split.
    { destruct (failed_json W city f Hfail) as [e J]. exists e. intro g.
      eapply fetcher_call_fails; eassumption. }
    split; [now apply cycle_stops_at_failed_fetch|].
    split; [exact R|]. split.
    { intros f' Hlt Hc. rewrite Forall_forall in F. apply F in Hc. simpl in Hc. lia. }
    split; [intros f' w; now apply failed_cycle_widgets|].
    split; [now apply failed_cycle_graphs|].
    apply quiet_no_summary. eapply Forall_impl; [|exact F]. apply up_to_quiet.
  - intro h. apply app_restatus.
  - intros status d Hresp Hd.
    assert (Hskip : forall g, air_quality_block W city show_layers g
                 = mk_outcome (if selected (lit "Air Quality") show_layers
                               then [Call GetAirQuality; HttpGet (air_quality_url city)]
                               else [])
                              g (Ok tt))
      by (intro g; now apply air_quality_block_skips with (status := status) (d := d)).
    split; [exact Hskip|].
    exact (cycle_passes_over W city show_layers GetAirQuality eq_refl Hskip).
  - intros status d Hresp Hd.
    assert (Hskip : forall g, news_block W show_layers g
                 = mk_outcome (if selected (lit "News") show_layers
                               then [Call GetNews; HttpGet news_url] else [])
                              g (Ok tt))
      by (intro g; now apply news_block_skips with (status := status) (d := d)).
    split; [exact Hskip|].
    exact (cycle_passes_over W city show_layers GetNews eq_refl Hskip).
Qed.

Lemma C2_fetch_failures_by_kind_witness :
  ((exists e, forall g,
        fetcher_call Sample.covid_down Sample.city GetCovid g
        = mk_outcome [Call GetCovid; HttpGet (endpoint Sample.city GetCovid)] g
                     (Raise e)) /\
   cycle Sample.covid_down Sample.city [lit "COVID-19"; lit "News"]
   = (blocks_before Sample.covid_down Sample.city [lit "COVID-19"; lit "News"] GetCovid ;;
      fetcher_call Sample.covid_down Sample.city GetCovid ;; ret tt) [] /\
   (exists e, res (cycle Sample.covid_down Sample.city [lit "COVID-19"; lit "News"])
              = Raise e) /\
   (forall f', order GetCovid < order f' ->
               ~ In (Call f')
                    (events (cycle Sample.covid_down Sample.city
                                   [lit "COVID-19"; lit "News"]))) /\
   (forall f' w, order GetCovid <= order f' -> block_widget Sample.city f' w ->
                 ~ In (Display w)
                      (events (cycle Sample.covid_down Sample.city
                                     [lit "COVID-19"; lit "News"]))) /\
   graphs_of (cycle Sample.covid_down Sample.city [lit "COVID-19"; lit "News"])
   = graphs_of (blocks_before Sample.covid_down Sample.city
                              [lit "COVID-19"; lit "News"] GetCovid []) /\
   summarizer_inputs (events (cycle Sample.covid_down Sample.city
                                    [lit "COVID-19"; lit "News"])) = [] /\
   panels (events (cycle Sample.covid_down Sample.city
                         [lit "COVID-19"; lit "News"])) = []) /\
  ((forall g, air_quality_block Sample.no_station Sample.city
                                [lit "Air Quality"; lit "News"] g
              = mk_outcome (if selected (lit "Air Quality")
                                        [lit "Air Quality"; lit "News"]
                            then [Call GetAirQuality;
                                  HttpGet (air_quality_url Sample.city)]
                            else [])
                           g (Ok tt)) /\
   same_but_fetch_of Sample.city GetAirQuality
     (cycle Sample.no_station Sample.city [lit "Air Quality"; lit "News"])
     (cycle Sample.no_station Sample.city
            (without (lit "Air Quality") [lit "Air Quality"; lit "News"]))) /\
  ((forall g, news_block Sample.no_articles [lit "News"; lit "COVID-19"] g
              = mk_outcome (if selected (lit "News") [lit "News"; lit "COVID-19"]
                            then [Call GetNews; HttpGet news_url] else [])
                           g (Ok tt)) /\
   same_but_fetch_of Sample.city GetNews
     (cycle Sample.no_articles Sample.city [lit "News"; lit "COVID-19"])
     (cycle Sample.no_articles Sample.city
            (without (lit "News") [lit "News"; lit "COVID-19"]))).
Proof.
  split; [|split].
  - apply (proj1 (C2_fetch_failures_by_kind Sample.covid_down Sample.city
                    [lit "COVID-19"; lit "News"]) GetCovid).
    + reflexivity.
    + simpl. auto.
    + left. vm_compute. reflexivity.
  - apply (proj1 (proj2 (proj2
             (C2_fetch_failures_by_kind Sample.no_station Sample.city
                [lit "Air Quality"; lit "News"]))) 200%Z [(lit "results", VList [])]).
    + vm_compute. reflexivity.
    + right. vm_compute. reflexivity.
  - apply (proj2 (proj2 (proj2
             (C2_fetch_failures_by_kind Sample.no_articles Sample.city
                [lit "News"; lit "COVID-19"]))) 200%Z
             [(lit "status", VStr (lit "ok"))]).
    + vm_compute. reflexivity.
    + vm_compute. reflexivity.
Defined.

(** C2 as stated fails: with COVID-19 and News selected and the disease
    feed out of reach, the exception of [get_covid] is not caught; the
    cycle ends there, and the News layer, which the same world serves when
    it is selected alone, is neither fetched nor rendered. *)
Lemma C2_unreachable_feed_stops_the_cycle :
  requests_get Sample.covid_down covid_url = ConnectionFailed /\
  res (cycle Sample.covid_down Sample.city [lit "COVID-19"; lit "News"])
  = Raise ConnectionError /\
  fetchers_called (events (cycle Sample.covid_down Sample.city
                                 [lit "COVID-19"; lit "News"])) = [GetCovid] /\
  graphs_of (cycle Sample.covid_down Sample.city [lit "COVID-19"; lit "News"]) = [] /\
  summarizer_inputs (events (cycle Sample.covid_down Sample.city
                                   [lit "COVID-19"; lit "News"])) = [] /\
  res (cycle Sample.covid_down Sample.city [lit "News"]) = Ok tt /\
  fetchers_called (events (cycle Sample.covid_down Sample.city [lit "News"]))
  = [GetNews] /\
  graphs_of (cycle Sample.covid_down Sample.city [lit "News"]) = [news_digest].
Proof. vm_compute. repeat split. Qed.
